(** * A model of [script.js], the client-side image converter

    The script keeps two module-level variables ([currentFile] and
    [imgElement]), reads and writes a handful of DOM elements, and reacts to
    events.  The model below keeps the same shape: one record for the
    variables and the elements, one function per handler or named function of
    the script, and a log of the calls made to the browser (file reads,
    encoder calls, auxiliary image loads, downloads).  Everything the browser
    decides (whether a draw throws, what the encoder returns, what an image
    element reports once its source has been assigned, when a load
    completes) enters either through a [Platform] record of oracles or as
    the argument of a callback.

    Numbers are IEEE 754 binary64 as in JavaScript, through the executable
    specification [SpecFloat] of the standard library; integers that the
    script keeps in variables are carried as [Z].

    Left out: [preventDefault] on the drag events, the click forwarding of
    the file label, and [crossOrigin]; none of them is read by the code
    modelled here.

    Contents: JavaScript values; the page; the script; sample pages; the
    specification's own words; the rest of the script (byte loop, drag
    highlight, the page as an event machine); properties (file names, encoder
    arguments, quality, guards, default format, encoder answer, termination,
    output size, failed loads); further properties (what a conversion
    leaves alone, the page as a whole, overlapping loads and conversions,
    downloads, data URLs, the byte loop, sizes and qualities as numbers, the
    drag highlight, the whole path from file to download). *)

From Stdlib Require Import ZArith String Ascii Bool List Lia.
From Stdlib Require Import SpecFloat DecimalString.
Import ListNotations.

Open Scope string_scope.
Open Scope Z_scope.

(** ** JavaScript values used by the script *)

Module JS.

(** Numbers are IEEE 754 binary64 values.  The operations are the ones of
    [SpecFloat] at precision 53 and maximal exponent 1024: exact result,
    then rounding to nearest, ties to even. *)
Definition prec : Z := 53.
Definition emax : Z := 1024.
Definition number := spec_float.

Definition of_Z (z : Z) : number := binary_normalize prec emax z 0 false.
Definition div : number -> number -> number := SFdiv prec emax.
Definition mul : number -> number -> number := SFmul prec emax.

(** [Math.round x]: the integer closest to [x], ties towards +infinity,
    that is floor(x + 1/2) computed exactly.  A finite number is
    [(+/-) m * 2^e].  NaN and the infinities are returned unchanged by
    JavaScript; they are not integers and are mapped to 0 here (no operand
    of the script produces them: it divides and multiplies non-zero finite
    integers). *)
Definition Math_round (x : number) : Z :=
  match x with
  | S754_finite s m e =>
      let v := if s then Z.neg m else Z.pos m in
      if 0 <=? e then v * 2 ^ e
      else (2 * v + 2 ^ (- e)) / 2 ^ (1 - e)
  | _ => 0
  end.

(** Integers that the script keeps in variables are exact ([Z]); [NaN] is
    [None].  [parseInt] returns a binary64 number, so an integer beyond
    2^53 is rounded by the browser; the script only compares such a value
    with 1, 100 and an image width, and rounding is monotone, so the
    comparisons come out the same on the exact integer. *)
Definition int := option Z.

(** Truthiness of a string: non-empty. *)
Definition truthy (s : string) : bool :=
  match s with
  | EmptyString => false
  | String _ _ => true
  end.

(** Strings are sequences of bytes (UTF-8).  Every character the script
    tests for is ASCII, and no byte of a multi-byte UTF-8 sequence is an
    ASCII byte. *)
Definition utf8 (bytes : list Z) : string :=
  fold_right (fun b s => String (ascii_of_N (Z.to_N b)) s) EmptyString bytes.

(** [StrWhiteSpaceChar] of ECMAScript: white space and line terminators. *)
Definition StrWhiteSpaceChar : list string :=
  [ utf8 [9]; utf8 [10]; utf8 [11]; utf8 [12]; utf8 [13]; utf8 [32];
    utf8 [194; 160];                       (* U+00A0 *)
    utf8 [225; 154; 128];                  (* U+1680 *)
    utf8 [226; 128; 128]; utf8 [226; 128; 129]; utf8 [226; 128; 130];
    utf8 [226; 128; 131]; utf8 [226; 128; 132]; utf8 [226; 128; 133];
    utf8 [226; 128; 134]; utf8 [226; 128; 135]; utf8 [226; 128; 136];
    utf8 [226; 128; 137]; utf8 [226; 128; 138];  (* U+2000 .. U+200A *)
    utf8 [226; 128; 168]; utf8 [226; 128; 169];  (* U+2028, U+2029 *)
    utf8 [226; 128; 175];                  (* U+202F *)
    utf8 [226; 129; 159];                  (* U+205F *)
    utf8 [227; 128; 128];                  (* U+3000 *)
    utf8 [239; 187; 191] ].                (* U+FEFF *)

(** [dropPrefix p s] is [Some r] when [s = p ++ r]. *)
Fixpoint dropPrefix (p s : string) : option string :=
  match p, s with
  | EmptyString, _ => Some s
  | String a p', String b s' =>
      if Ascii.eqb a b then dropPrefix p' s' else None
  | String _ _, EmptyString => None
  end.

Fixpoint dropAny (ps : list string) (s : string) : option string :=
  match ps with
  | [] => None
  | p :: ps' =>
      match dropPrefix p s with
      | Some r => Some r
      | None => dropAny ps' s
      end
  end.

Fixpoint trimStartN (fuel : nat) (s : string) : string :=
  match fuel with
  | O => s
  | S k =>
      match dropAny StrWhiteSpaceChar s with
      | Some r => trimStartN k r
      | None => s
      end
  end.

(** Every white-space character takes at least one byte, so [length s]
    rounds are enough. *)
Definition trimStart (s : string) : string := trimStartN (String.length s) s.

Definition digitValue (c : ascii) : option Z :=
  let n := Z.of_nat (nat_of_ascii c) in
  if (48 <=? n) && (n <=? 57) then Some (n - 48) else None.

(** Value of the longest prefix of decimal digits, continuing from [acc]. *)
Fixpoint parseDigits (acc : Z) (s : string) : Z :=
  match s with
  | EmptyString => acc
  | String c r =>
      match digitValue c with
      | Some d => parseDigits (10 * acc + d) r
      | None => acc
      end
  end.

(** [parseInt(s, 10)]: skip leading white space, read an optional sign,
    then the longest run of decimal digits; [NaN] when that run is empty.
    (Radix 10 never strips a [0x] prefix.  [-0] is read as [0]: the script
    tests it with [||] and [<] only.) *)
Definition parseInt (s : string) : int :=
  let t := trimStart s in
  let '(sign, t) :=
    match t with
    | String "-" r => (-1, r)
    | String "+" r => (1, r)
    | _ => (1, t)
    end in
  match t with
  | EmptyString => None
  | String c r =>
      match digitValue c with
      | Some d => Some (sign * parseDigits d r)
      | None => None
      end
  end.

(** Decimal rendering of an integer inside a template literal. *)
Definition toString (z : Z) : string := NilZero.string_of_int (Z.to_int z).

(** [s.split(',')]. *)
Fixpoint split_comma (s : string) : list string :=
  match s with
  | EmptyString => [EmptyString]
  | String c r =>
      if Ascii.eqb c "," then EmptyString :: split_comma r
      else
        match split_comma r with
        | [] => [String c EmptyString]
        | h :: t => String c h :: t
        end
  end.

End JS.

(** ** The page: files, elements, module-level variables *)

(** A [File] as the script sees it: its declared media type and its name. *)
Record File := { type : string; name : string }.

(** An [<img>] element, as the script reads it.  [src] is what [img.src]
    returns: the URL last assigned, resolved against the document, or the
    empty string while the element has no [src] attribute.  [complete],
    [naturalWidth] and [naturalHeight] are maintained by the browser; the
    natural size is 0 while no image data is available. *)
Record HTMLImageElement := {
  src : string;
  complete : bool;
  naturalWidth : Z;
  naturalHeight : Z
}.

(** The canvas bitmap: transparent after a resize or a [clearRect], otherwise
    whatever the browser painted. *)
Inductive Bitmap :=
| Transparent
| Painted (source : string) (w h : Z).

Record HTMLCanvasElement := { width : Z; height : Z; bitmap : Bitmap }.

Record Blob := { size : Z; blob_type : string }.

(** The status line: [message.textContent] and [message.style.color]. *)
Record Message := { textContent : string; color : string }.

(** Calls into the browser that leave the page: the log is the observable
    trace of a run (latest call first). *)
Inductive Call :=
| readAsDataURL (file : File)
| newImage (url : string)
| toBlob (mime : string) (q : JS.number)
| toDataURL (mime : string) (q : JS.number)
| download (filename : string) (blob : Blob).

Record State := {
  currentFile : option File;
  imgElement : HTMLImageElement;
  previewImg : HTMLImageElement;
  previewImg_onload : option File;
  hiddenCanvas : HTMLCanvasElement;
  formatSelect : string;
  qualityInput : string;
  widthInput : string;
  imageInput : string;
  message : Message;
  calls : list Call
}.

(** What a call either returns or throws. *)
Inductive completion (A : Type) :=
| Normal (a : A)
| Throw (err : string).
Arguments Normal {A} a.
Arguments Throw {A} err.

(** The browser.  [drawImage] paints the preview on the canvas or throws
    ([err] is the thrown value as [+] renders it); [has_toBlob] tells whether
    [canvas.toBlob] exists; [canvas_toDataURL] and [atob] return or throw an
    error with the given [message]; [null_index] is the message of the
    TypeError raised by indexing [null]; [createObjectURL] names a file.

    The last two fields are the browser's side of [img.src = url].
    [reflect_URL url] is what [img.src] returns afterwards: [url] resolved
    against the address of the document, so that the empty string reads back
    as that address.  [update_image_data url img] is what the element
    reports next as [(complete, (naturalWidth, naturalHeight))]: the browser
    may keep the old image for a while, drop it, or show the new one at once
    when it already holds it. *)
Record Platform := {
  drawImage_on : HTMLImageElement -> HTMLCanvasElement -> completion Bitmap;
  has_toBlob : bool;
  canvas_toDataURL : HTMLCanvasElement -> string -> JS.number -> completion string;
  atob : string -> completion string;
  null_index : string;
  createObjectURL : File -> string;
  reflect_URL : string -> string;
  update_image_data : string -> HTMLImageElement -> bool * (Z * Z)
}.

(** *** Field updates *)

Definition set_currentFile (f : option File) (st : State) : State :=
  {| currentFile := f; imgElement := imgElement st;
     previewImg := previewImg st; previewImg_onload := previewImg_onload st;
     hiddenCanvas := hiddenCanvas st; formatSelect := formatSelect st;
     qualityInput := qualityInput st; widthInput := widthInput st;
     imageInput := imageInput st; message := message st; calls := calls st |}.

Definition set_previewImg (i : HTMLImageElement) (st : State) : State :=
  {| currentFile := currentFile st; imgElement := imgElement st;
     previewImg := i; previewImg_onload := previewImg_onload st;
     hiddenCanvas := hiddenCanvas st; formatSelect := formatSelect st;
     qualityInput := qualityInput st; widthInput := widthInput st;
     imageInput := imageInput st; message := message st; calls := calls st |}.

Definition set_previewImg_onload (h : option File) (st : State) : State :=
  {| currentFile := currentFile st; imgElement := imgElement st;
     previewImg := previewImg st; previewImg_onload := h;
     hiddenCanvas := hiddenCanvas st; formatSelect := formatSelect st;
     qualityInput := qualityInput st; widthInput := widthInput st;
     imageInput := imageInput st; message := message st; calls := calls st |}.

Definition set_hiddenCanvas (c : HTMLCanvasElement) (st : State) : State :=
  {| currentFile := currentFile st; imgElement := imgElement st;
     previewImg := previewImg st; previewImg_onload := previewImg_onload st;
     hiddenCanvas := c; formatSelect := formatSelect st;
     qualityInput := qualityInput st; widthInput := widthInput st;
     imageInput := imageInput st; message := message st; calls := calls st |}.

Definition set_inputs (image width : string) (st : State) : State :=
  {| currentFile := currentFile st; imgElement := imgElement st;
     previewImg := previewImg st; previewImg_onload := previewImg_onload st;
     hiddenCanvas := hiddenCanvas st; formatSelect := formatSelect st;
     qualityInput := qualityInput st; widthInput := width;
     imageInput := image; message := message st; calls := calls st |}.

Definition set_message (m : Message) (st : State) : State :=
  {| currentFile := currentFile st; imgElement := imgElement st;
     previewImg := previewImg st; previewImg_onload := previewImg_onload st;
     hiddenCanvas := hiddenCanvas st; formatSelect := formatSelect st;
     qualityInput := qualityInput st; widthInput := widthInput st;
     imageInput := imageInput st; message := m; calls := calls st |}.

Definition log (c : Call) (st : State) : State :=
  {| currentFile := currentFile st; imgElement := imgElement st;
     previewImg := previewImg st; previewImg_onload := previewImg_onload st;
     hiddenCanvas := hiddenCanvas st; formatSelect := formatSelect st;
     qualityInput := qualityInput st; widthInput := widthInput st;
     imageInput := imageInput st; message := message st;
     calls := c :: calls st |}.

(** [img.src = url]: the script writes the attribute, and everything it can
    read from the element afterwards is the browser's answer. *)
Definition set_src (pf : Platform) (url : string) (i : HTMLImageElement)
  : HTMLImageElement :=
  {| src := reflect_URL pf url;
     complete := fst (update_image_data pf url i);
     naturalWidth := fst (snd (update_image_data pf url i));
     naturalHeight := snd (snd (update_image_data pf url i)) |}.

(** ** The script *)

(** [showMessage(text, isError = false)]. *)
Definition showMessage (text : string) (isError : bool) (st : State) : State :=
  set_message {| textContent := text;
                 color := if isError then "#ef4444" else "" |} st.

(** *** Loading *)

(** [loadFile(file)]: the synchronous part.  A file that passes the type
    test becomes [currentFile] at once, and a [FileReader] is started whose
    two callbacks are [reader_onload] and [reader_onerror] below. *)
Definition loadFile (file : File) (st : State) : State :=
  if negb (String.prefix "image/" (type file)) then
    showMessage "Please upload a valid image file." true st
  else
    log (readAsDataURL file) (set_currentFile (Some file) st).

(** [reader.onload]: [reader.result] becomes the preview source, and the
    preview gets an [onload] handler that closes over [file]. *)
Definition reader_onload (pf : Platform) (file : File) (result : string)
    (st : State) : State :=
  set_previewImg_onload (Some file)
    (set_previewImg (set_src pf result (previewImg st)) st).

(** [reader.onerror]. *)
Definition reader_onerror (st : State) : State :=
  showMessage "Failed to read file." true st.

(** The browser finishes loading the preview with natural size [w] x [h],
    then runs [previewImg.onload] when one is installed. *)
Definition previewImg_loaded (w h : Z) (st : State) : State :=
  let st1 :=
    set_previewImg {| src := src (previewImg st); complete := true;
                      naturalWidth := w; naturalHeight := h |} st in
  match previewImg_onload st1 with
  | None => st1
  | Some file =>
      showMessage
        ("Loaded: " ++ name file ++ " — "
           ++ JS.toString (naturalWidth (previewImg st1)) ++ "×"
           ++ JS.toString (naturalHeight (previewImg st1)))
        false st1
  end.

(** The [change] listener of the file input and the [drop] listener of the
    drop zone: [files[0]], when there is one, is loaded. *)
Definition imageInput_change (files : list File) (st : State) : State :=
  match files with
  | f :: _ => loadFile f st
  | [] => st
  end.

Definition dropZone_drop (files : list File) (st : State) : State :=
  match files with
  | f :: _ => loadFile f st
  | [] => st
  end.

(** The [click] listener of the reset button.  The preview's source is
    assigned the empty string, so [previewImg.src] reads [reflect_URL pf ""]
    from then on. *)
Definition resetBtn_click (pf : Platform) (st : State) : State :=
  showMessage "" false
    (set_inputs "" ""
       (set_previewImg (set_src pf "" (previewImg st))
          (set_currentFile None st))).

(** *** File names *)

Definition mimeToExt (mime : string) : string :=
  if String.eqb mime "image/jpeg" then "jpg"
  else if String.eqb mime "image/png" then "png"
  else if String.eqb mime "image/webp" then "webp"
  else "img".

(** The character class [[^/.]]. *)
Definition not_slash_dot (c : ascii) : bool :=
  negb (Ascii.eqb c "/") && negb (Ascii.eqb c ".").

Fixpoint all_chars (p : ascii -> bool) (s : string) : bool :=
  match s with
  | EmptyString => true
  | String c r => p c && all_chars p r
  end.

(** Does [/\.[^/.]+$/] match the whole of [s]? *)
Definition is_extension (s : string) : bool :=
  match s with
  | String "." (String c r) => all_chars not_slash_dot (String c r)
  | _ => false
  end.

(** [s.replace(/\.[^/.]+$/, '')]: the leftmost position from which the
    pattern matches up to the end of [s] is cut off. *)
Fixpoint strip_extension (s : string) : string :=
  match s with
  | EmptyString => EmptyString
  | String c r =>
      if is_extension s then EmptyString else String c (strip_extension r)
  end.

(** [baseName] and [outName] of [triggerDownload], as functions of the
    [currentFile] read when the download is triggered and of [outType]. *)
Definition baseName (file : option File) : string :=
  match file with
  | Some f =>
      if JS.truthy (name f) then strip_extension (name f)
      else "converted-image"
  | None => "converted-image"
  end.

Definition outName (outType : string) (file : option File) : string :=
  baseName file ++ "." ++ mimeToExt outType.

(** [triggerDownload(blob)], inside the click listener: it closes over
    [outType].  The anchor element is added, clicked and removed; what is
    left is the download and the status line. *)
Definition triggerDownload (outType : string) (blob : Blob) (st : State)
  : State :=
  let outName := outName outType (currentFile st) in
  showMessage
    ("Converted: " ++ outName ++ " (size: "
       ++ JS.toString
            (JS.Math_round (JS.div (JS.of_Z (size blob)) (JS.of_Z 1024)))
       ++ " KB)")
    false
    (log (download outName blob) st).

(** *** The data-URL fallback *)

(** Line terminators, which [.] does not match. *)
Definition LineTerminator : list string :=
  [ JS.utf8 [10]; JS.utf8 [13];
    JS.utf8 [226; 128; 168]; JS.utf8 [226; 128; 169] ].

(** [(.*?);] from the start of [s]: the characters before the first [;],
    when no line terminator comes earlier. *)
Fixpoint lazy_to_semicolon (s : string) : option string :=
  match s with
  | EmptyString => None
  | String c r =>
      if Ascii.eqb c ";" then Some EmptyString
      else
        match JS.dropAny LineTerminator s with
        | Some _ => None
        | None =>
            match lazy_to_semicolon r with
            | Some g => Some (String c g)
            | None => None
            end
        end
  end.

(** [s.match(/:(.*?);/)]: group 1 of the leftmost match, [None] for [null]. *)
Fixpoint match_mime (s : string) : option string :=
  match s with
  | EmptyString => None
  | String c r =>
      if Ascii.eqb c ":" then
        match lazy_to_semicolon r with
        | Some g => Some g
        | None => match_mime r
        end
      else match_mime r
  end.

(** Characters U+0020 to U+007E, and ASCII lower case. *)
Definition printable (c : ascii) : bool :=
  let n := Z.of_N (N_of_ascii c) in (32 <=? n) && (n <=? 126).

Definition toLowerCase (c : ascii) : ascii :=
  let n := Z.of_N (N_of_ascii c) in
  if (65 <=? n) && (n <=? 90) then ascii_of_N (Z.to_N (n + 32)) else c.

Fixpoint lowercase (s : string) : string :=
  match s with
  | EmptyString => EmptyString
  | String c r => String (toLowerCase c) (lowercase r)
  end.

(** The [type] of [new Blob(parts, {type: t})]: [t] in lower case, or the
    empty string when [t] has a character outside U+0020..U+007E. *)
Definition Blob_type (t : string) : string :=
  if all_chars printable t then lowercase t else "".

(** [dataURLtoBlob(dataurl)].  Indexing the [null] of a failed match throws;
    [arr[1]] is [undefined] when there is no comma, and [atob] reads it as
    the string ["undefined"].  The blob has one byte per character of the
    decoded string. *)
Definition dataURLtoBlob (pf : Platform) (dataurl : string) : completion Blob :=
  let arr := JS.split_comma dataurl in
  match match_mime (nth 0 arr "") with
  | None => Throw (null_index pf)
  | Some mime =>
      match atob pf (match arr with _ :: a :: _ => a | _ => "undefined" end) with
      | Throw m => Throw m
      | Normal bstr =>
          Normal {| size := Z.of_nat (String.length bstr);
                    blob_type := Blob_type mime |}
      end
  end.

(** *** Converting *)

(** The variables of one click that the later callbacks close over. *)
Record Closure := { outType : string; quality : Z }.

(** What a click leaves behind: nothing, a pending auxiliary image load
    ([temp.onload] / [temp.onerror]), a pending [toBlob] callback, or an
    exception that ended the listener. *)
Inductive Pending :=
| Settled
| TempLoading (c : Closure) (temp_src : string)
| Encoding (c : Closure)
| Uncaught.

(** Line 92: [formatSelect.value || 'image/png']. *)
Definition read_outType (st : State) : string :=
  if JS.truthy (formatSelect st) then formatSelect st else "image/png".

(** Lines 93-95: parse, default, cap. *)
Definition normalize_quality (q : JS.int) : Z :=
  let quality :=
    match q with
    | None => 90
    | Some n => if n <? 1 then 90 else n
    end in
  if quality >? 100 then 100 else quality.

Definition read_quality (st : State) : Z :=
  normalize_quality (JS.parseInt (qualityInput st)).

(** The closure of a click on page [st]. *)
Definition closure_of (st : State) : Closure :=
  {| outType := read_outType st; quality := read_quality st |}.

(** Line 98: [parseInt(widthInput.value, 10) || null]. *)
Definition requestedWidth (st : State) : option Z :=
  match JS.parseInt (widthInput st) with
  | None => None
  | Some n => if n =? 0 then None else Some n
  end.

(** Lines 99-100: [previewImg.naturalWidth || imgElement.naturalWidth]. *)
Definition naturalW (st : State) : Z :=
  if naturalWidth (previewImg st) =? 0 then naturalWidth (imgElement st)
  else naturalWidth (previewImg st).

Definition naturalH (st : State) : Z :=
  if naturalHeight (previewImg st) =? 0 then naturalHeight (imgElement st)
  else naturalHeight (previewImg st).

(** Lines 106-111: the output size [(targetWidth, targetHeight)]. *)
Definition target_size (requested : option Z) (nw nh : Z) : Z * Z :=
  match requested with
  | Some w =>
      if (0 <? w) && (w <? nw) then
        (w, JS.Math_round (JS.mul (JS.div (JS.of_Z nh) (JS.of_Z nw)) (JS.of_Z w)))
      else (nw, nh)
  | None => (nw, nh)
  end.

Definition targetWidth (st : State) : Z :=
  fst (target_size (requestedWidth st) (naturalW st) (naturalH st)).

Definition targetHeight (st : State) : Z :=
  snd (target_size (requestedWidth st) (naturalW st) (naturalH st)).

(** Line 130. *)
Definition blobQuality (quality : Z) : JS.number :=
  JS.div (JS.of_Z (Z.max 1 (Z.min 100 quality))) (JS.of_Z 100).

(** The callback given to [canvas.toBlob]. *)
Definition toBlob_callback (c : Closure) (blob : option Blob) (st : State)
  : State :=
  match blob with
  | None => showMessage "Conversion failed (blob is empty)." true st
  | Some b => triggerDownload (outType c) b st
  end.

(** [drawImage()], the closure of the click listener. *)
Definition drawImage (pf : Platform) (c : Closure) (st : State)
  : State * Pending :=
  match drawImage_on pf (previewImg st) (hiddenCanvas st) with
  | Throw err =>
      (showMessage ("Error drawing image to canvas: " ++ err) true st, Settled)
  | Normal painted =>
      let st1 :=
        set_hiddenCanvas {| width := width (hiddenCanvas st);
                            height := height (hiddenCanvas st);
                            bitmap := painted |} st in
      if has_toBlob pf then
        (log (toBlob (outType c) (blobQuality (quality c))) st1, Encoding c)
      else
        let st2 := log (toDataURL (outType c) (blobQuality (quality c))) st1 in
        match canvas_toDataURL pf (hiddenCanvas st2) (outType c)
                (blobQuality (quality c)) with
        | Throw m => (showMessage ("Conversion failed: " ++ m) true st2, Settled)
        | Normal dataUrl =>
            match dataURLtoBlob pf dataUrl with
            | Throw m =>
                (showMessage ("Conversion failed: " ++ m) true st2, Settled)
            | Normal blob => (triggerDownload (outType c) blob st2, Settled)
            end
        end
  end.

(** [temp.onload] and [temp.onerror].  [temp_src] is the URL the listener
    assigned to [temp.src]; the handler assigns what [temp.src] reads back. *)
Definition temp_onload (pf : Platform) (c : Closure) (temp_src : string)
    (st : State) : State * Pending :=
  drawImage pf c
    (set_previewImg (set_src pf (reflect_URL pf temp_src) (previewImg st)) st).

Definition temp_onerror (st : State) : State :=
  showMessage "Failed to load image for conversion." true st.

(** The [click] listener of the convert button.  It contains no [await]:
    it runs to its end at once and leaves at most one callback pending.
    [URL.createObjectURL(null)] throws, which would end the listener before
    its last statement. *)
Definition convertBtn_click (pf : Platform) (st : State) : State * Pending :=
  if match currentFile st with None => true | Some _ => false end
     && negb (JS.truthy (src (previewImg st)))
  then (showMessage "Choose or drop an image first." true st, Settled)
  else
    let c := closure_of st in
    if (naturalW st =? 0) || (naturalH st =? 0) then
      (showMessage "Image not ready yet. Wait a moment and try again." true st,
       Settled)
    else
      let st1 :=
        set_hiddenCanvas {| width := targetWidth st;
                            height := targetHeight st;
                            bitmap := Transparent |} st in
      if complete (previewImg st1)
         && negb (naturalWidth (previewImg st1) =? 0)
      then
        let '(st2, p) := drawImage pf c st1 in
        (showMessage "Processing..." false st2, p)
      else
        let url :=
          if JS.truthy (src (previewImg st1)) then Some (src (previewImg st1))
          else option_map (createObjectURL pf) (currentFile st1) in
        match url with
        | None => (st1, Uncaught)
        | Some u =>
            (showMessage "Processing..." false (log (newImage u) st1),
             TempLoading c u)
        end.

(** One callback of a pending conversion fires in state [st] (whatever the
    page has become by then) and leaves [st'] and what is pending next. *)
Inductive fires (pf : Platform) : Pending -> State -> State -> Pending -> Prop :=
| fires_temp_onload c u st :
    fires pf (TempLoading c u) st
          (fst (temp_onload pf c u st)) (snd (temp_onload pf c u st))
| fires_temp_onerror c u st :
    fires pf (TempLoading c u) st (temp_onerror st) Settled
| fires_toBlob c blob st :
    fires pf (Encoding c) st (toBlob_callback c blob st) Settled.

(** [n] callbacks of one conversion fire one after the other; between two
    of them the page may change arbitrarily (other listeners run). *)
Inductive chain (pf : Platform) : Pending -> nat -> Pending -> Prop :=
| chain_nil p : chain pf p O p
| chain_cons p st st' p' n p'' :
    fires pf p st st' p' -> chain pf p' n p'' -> chain pf p (S n) p''.

(** Number of callbacks that can still fire. *)
Definition rank (p : Pending) : nat :=
  match p with
  | TempLoading _ _ => 2
  | Encoding _ => 1
  | Settled | Uncaught => 0
  end.

(** Auxiliary image loads and downloads recorded in a log. *)
Definition is_newImage (c : Call) : bool :=
  match c with newImage _ => true | _ => false end.

Definition is_download (c : Call) : bool :=
  match c with download _ _ => true | _ => false end.

Definition is_encode (c : Call) : bool :=
  match c with toBlob _ _ | toDataURL _ _ => true | _ => false end.

Definition aux_loads (st : State) : nat :=
  List.length (filter is_newImage (calls st)).

Definition downloads (st : State) : list Call :=
  filter is_download (calls st).

Definition encodes (st : State) : list Call :=
  filter is_encode (calls st).

(** The encoder calls a step may add to the log: none, one [toBlob] or one
    [toDataURL], with the closure's format and quality. *)
Definition encodes_with (c : Closure) (before after : State) : Prop :=
  exists l,
    encodes after = (l ++ encodes before)%list
    /\ (l = []
        \/ l = [toBlob (outType c) (blobQuality (quality c))]
        \/ l = [toDataURL (outType c) (blobQuality (quality c))]).

(** The one encoder call of a conversion with closure [c]: [canvas.toBlob]
    where the browser has it, [canvas.toDataURL] otherwise (lines 133-144). *)
Definition encoder_call (pf : Platform) (c : Closure) : Call :=
  if has_toBlob pf then toBlob (outType c) (blobQuality (quality c))
  else toDataURL (outType c) (blobQuality (quality c)).

(** The page passes both guards of the listener and the test of line 154,
    so that the listener calls [drawImage] itself. *)
Definition draws_at_once (st : State) : Prop :=
  (currentFile st <> None \/ src (previewImg st) <> "")
  /\ complete (previewImg st) = true
  /\ naturalWidth (previewImg st) <> 0
  /\ naturalH st <> 0.

(** ** A sample page and browser, for running the model *)

Module Sample.

Definition blank : HTMLImageElement :=
  {| src := ""; complete := true; naturalWidth := 0; naturalHeight := 0 |}.

(** The page before any file is chosen. *)
Definition page : State :=
  {| currentFile := None; imgElement := blank; previewImg := blank;
     previewImg_onload := None;
     hiddenCanvas := {| width := 300; height := 150; bitmap := Transparent |};
     formatSelect := "image/png"; qualityInput := "90"; widthInput := "";
     imageInput := ""; message := {| textContent := ""; color := "" |};
     calls := [] |}.

(** A browser with [canvas.toBlob] whose [drawImage] never throws.  It
    never reaches [toDataURL] or [atob].  The page is served from
    [https://converter.example/]; absolute URLs read back unchanged.  An
    image whose source has just been assigned reports no size, and counts
    as complete only when the source is empty. *)
Definition browser : Platform :=
  {| drawImage_on := fun i c => Normal (Painted (src i) (width c) (height c));
     has_toBlob := true;
     canvas_toDataURL := fun _ _ _ => Throw "SecurityError";
     atob := fun _ => Throw "InvalidCharacterError";
     null_index := "null has no properties";
     createObjectURL := fun f => "blob:" ++ name f;
     reflect_URL :=
       fun url => if String.eqb url "" then "https://converter.example/" else url;
     update_image_data := fun url _ => (String.eqb url "", (0, 0)) |}.

(** The same browser without [canvas.toBlob]: [toDataURL] yields the data
    URL [d], and [atob] answers [decoded] on its payload. *)
Definition old_browser (d : string) (decoded : completion string) : Platform :=
  {| drawImage_on := drawImage_on browser;
     has_toBlob := false;
     canvas_toDataURL := fun _ _ _ => Normal d;
     atob := fun _ => decoded;
     null_index := null_index browser;
     createObjectURL := createObjectURL browser;
     reflect_URL := reflect_URL browser;
     update_image_data := update_image_data browser |}.

Definition png (n : string) : File := {| type := "image/png"; name := n |}.

(** [file] has been chosen, read (as [url]) and decoded as [w] x [h]. *)
Definition loaded (file : File) (url : string) (w h : Z) (st : State) : State :=
  previewImg_loaded w h (reader_onload browser file url (loadFile file st)).

(** A second file is being decoded: the preview is not complete, and the
    size of the previous image is still reported. *)
Definition reloading : State :=
  set_previewImg {| src := "data:cat"; complete := false;
                    naturalWidth := 640; naturalHeight := 480 |}
    (set_currentFile (Some (png "cat.png")) page).

Definition with_controls (format quality width : string) (st : State) : State :=
  {| currentFile := currentFile st; imgElement := imgElement st;
     previewImg := previewImg st; previewImg_onload := previewImg_onload st;
     hiddenCanvas := hiddenCanvas st; formatSelect := format;
     qualityInput := quality; widthInput := width;
     imageInput := imageInput st; message := message st; calls := calls st |}.

End Sample.

(** ** The specification's own words, for comparison *)

Module Spec.

(** "round(natural height x target width / natural width)" for the two
    roundings the specification allows, on the exact quotient [n / d] with
    [d > 0]. *)
Definition round_half_away (n d : Z) : Z :=
  Z.sgn n * ((2 * Z.abs n + d) / (2 * d)).

Definition round_half_even (n d : Z) : Z :=
  let q := n / d in
  let r := n mod d in
  if 2 * r <? d then q
  else if 2 * r >? d then q + 1
  else if Z.even q then q else q + 1.

(** "clamp requested quality to [1,100]; default to 90 if absent or
    non-numeric". *)
Definition quality (q : JS.int) : Z :=
  match q with
  | None => 90
  | Some n => Z.max 1 (Z.min 100 n)
  end.

End Spec.

(** ** The rest of the script *)

(** *** The byte loop of [dataURLtoBlob] (lines 191-193) *)

(** [bstr.charCodeAt(n)]; out of range it is [NaN], which a [Uint8Array]
    stores as 0. *)
Definition charCodeAt (n : nat) (bstr : string) : Z :=
  match String.get n bstr with
  | Some c => Z.of_N (N_of_ascii c)
  | None => 0
  end.

(** [u8arr[n] = v]: the value is stored modulo 256; a write past the end of
    a typed array is ignored. *)
Fixpoint store (n : nat) (v : Z) (u8arr : list Z) : list Z :=
  match u8arr, n with
  | [], _ => []
  | _ :: t, O => v mod 256 :: t
  | h :: t, S k => h :: store k v t
  end.

(** [while (n--) u8arr[n] = bstr.charCodeAt(n)]: the test reads [n], then
    [n] is decremented, and the body runs with the new value. *)
Fixpoint fill (n : nat) (bstr : string) (u8arr : list Z) : list Z :=
  match n with
  | O => u8arr
  | S k => fill k bstr (store k (charCodeAt k bstr) u8arr)
  end.

(** [new Uint8Array(n)] followed by the loop, with [n = bstr.length]. *)
Definition u8arr_of (bstr : string) : list Z :=
  fill (String.length bstr) bstr (repeat 0 (String.length bstr)).

(** The character codes of a string, first to last. *)
Fixpoint char_codes (s : string) : list Z :=
  match s with
  | EmptyString => []
  | String c r => Z.of_N (N_of_ascii c) :: char_codes r
  end.

(** *** Shapes of data URLs *)

(** Characters other than [x]. *)
Definition other_than (x : ascii) (c : ascii) : bool := negb (Ascii.eqb c x).

(** Characters a media type is written with here: printable ASCII other
    than [;] and [,]. *)
Definition mime_char (c : ascii) : bool :=
  let n := Z.of_N (N_of_ascii c) in
  (32 <=? n) && (n <? 127) && other_than ";" c && other_than "," c.

(** Characters other than the capital letters [A] to [Z]. *)
Definition not_capital (c : ascii) : bool :=
  let n := Z.of_N (N_of_ascii c) in negb ((65 <=? n) && (n <=? 90)).

(** *** Comparing numbers *)

(** [x <= y] on numbers ([false] when either is [NaN]). *)
Definition number_leb (x y : JS.number) : bool := SFleb x y.

(** *** The drag highlight of the drop zone (lines 36-47) *)

(** [classList.add(c)] and [classList.remove(c)] on a token list. *)
Definition classList_add (c : string) (l : list string) : list string :=
  if existsb (String.eqb c) l then l else (l ++ [c])%list.

Definition classList_remove (c : string) (l : list string) : list string :=
  filter (fun x => negb (String.eqb x c)) l.

Inductive DragEvent := dragenter | dragover | dragleave | drop.

(** The listeners registered by the two [forEach] loops, as a function of
    the event type, on [dropZone.classList].  ([drop] has a second listener,
    [dropZone_drop] above, which loads the file.) *)
Definition dropZone_drag (ev : DragEvent) (l : list string) : list string :=
  match ev with
  | dragenter | dragover => classList_add "dragover" l
  | dragleave | drop => classList_remove "dragover" l
  end.

Definition highlights (ev : DragEvent) : bool :=
  match ev with
  | dragenter | dragover => true
  | dragleave | drop => false
  end.

(** *** The page as an event machine *)

(** Everything that can run: the listeners of the page and the callbacks
    they register.  A callback event carries the closure it runs with; the
    machine does not check that such a callback is pending, so its runs
    include every run of the page. *)
Inductive Event :=
| input_change (files : list File)
| zone_drop (files : list File)
| reset_click
| convert_click
| reader_load (file : File) (result : string)
| reader_error
| preview_load (w h : Z)
| temp_load (c : Closure) (temp_src : string)
| temp_error
| blob_ready (c : Closure) (blob : option Blob).

Definition handle (pf : Platform) (ev : Event) (st : State) : State :=
  match ev with
  | input_change files => imageInput_change files st
  | zone_drop files => dropZone_drop files st
  | reset_click => resetBtn_click pf st
  | convert_click => fst (convertBtn_click pf st)
  | reader_load file result => reader_onload pf file result st
  | reader_error => reader_onerror st
  | preview_load w h => previewImg_loaded w h st
  | temp_load c u => fst (temp_onload pf c u st)
  | temp_error => temp_onerror st
  | blob_ready c blob => toBlob_callback c blob st
  end.

Definition run (pf : Platform) (evs : list Event) (st : State) : State :=
  fold_left (fun s ev => handle pf ev s) evs st.

(** The current file, when there is one, has an image media type. *)
Definition image_typed (file : option File) : Prop :=
  match file with
  | Some f => String.prefix "image/" (type f) = true
  | None => True
  end.

(** *** Downloads of one conversion *)

(** Downloads added to the log between two states. *)
Definition new_downloads (before after : State) : nat :=
  List.length (downloads after) - List.length (downloads before).

(** [delivers pf p d]: some callbacks of a conversion pending as [p] fire
    one after the other, in whatever states the page is by then, and add [d]
    downloads in all. *)
Inductive delivers (pf : Platform) : Pending -> nat -> Prop :=
| delivers_nil p : delivers pf p O
| delivers_cons p st st' p' d :
    fires pf p st st' p' -> delivers pf p' d ->
    delivers pf p (new_downloads st st' + d).

(** *** What a conversion leaves alone *)

(** The loaded file, the hidden image and the controls are the same in both
    states. *)
Definition same_loaded (st st' : State) : Prop :=
  currentFile st' = currentFile st
  /\ imgElement st' = imgElement st
  /\ previewImg_onload st' = previewImg_onload st
  /\ formatSelect st' = formatSelect st
  /\ qualityInput st' = qualityInput st
  /\ widthInput st' = widthInput st
  /\ imageInput st' = imageInput st.

(** Events that deliver no file of an image type and no callback of an
    earlier load or conversion: clicks, error callbacks, empty selections
    and files of another type. *)
Definition rejected (files : list File) : bool :=
  match files with
  | [] => true
  | f :: _ => negb (String.prefix "image/" (type f))
  end.

Definition idle (ev : Event) : bool :=
  match ev with
  | input_change files | zone_drop files => rejected files
  | reset_click | convert_click | reader_error | temp_error => true
  | _ => false
  end.

(** * Properties *)

(** ** Running the model *)

Example parseInt_samples :
  map JS.parseInt ["80"; "  42px"; "-7"; "+0"; ""; "abc"; "12.9"; "0x10"]
  = [Some 80; Some 42; Some (-7); Some 0; None; None; Some 12; Some 0].
Proof. reflexivity. Qed.

Example Math_round_samples :
  map JS.Math_round
      [JS.div (JS.of_Z 5) (JS.of_Z 2); JS.div (JS.of_Z (-5)) (JS.of_Z 2);
       JS.div (JS.of_Z 4) (JS.of_Z 10); JS.div (JS.of_Z 7) (JS.of_Z 1);
       JS.div (JS.of_Z 2047) (JS.of_Z 1024)]
  = [3; -2; 0; 7; 2].
Proof. vm_compute. reflexivity. Qed.

(** The end-to-end scenario of the specification: an 800 x 600 [cat.png],
    converted to WebP at quality 80 and width 400. *)
Example scenario_cat :
  let st0 := Sample.with_controls "image/webp" "80" "400"
               (Sample.loaded (Sample.png "cat.png") "data:cat" 800 600
                  Sample.page) in
  let '(st1, p) := convertBtn_click Sample.browser st0 in
  let st2 := toBlob_callback {| outType := "image/webp"; quality := 80 |}
               (Some {| size := 2048; blob_type := "image/webp" |}) st1 in
  textContent (message st0) = "Loaded: cat.png — 800×600"
  /\ p = Encoding {| outType := "image/webp"; quality := 80 |}
  /\ (width (hiddenCanvas st1), height (hiddenCanvas st1)) = (400, 300)
  /\ textContent (message st1) = "Processing..."
  /\ downloads st2
     = [download "cat.webp" {| size := 2048; blob_type := "image/webp" |}]
  /\ textContent (message st2) = "Converted: cat.webp (size: 2 KB)".
Proof. vm_compute. repeat split; reflexivity. Qed.


(** The same page in a browser without [canvas.toBlob]: a data URL with a
    three-byte payload is downloaded at once; the empty data URL cannot be
    read back and nothing is downloaded. *)
Example scenario_fallback :
  let st0 := Sample.with_controls "image/png" "80" ""
               (Sample.loaded (Sample.png "cat.png") "data:cat" 800 600
                  Sample.page) in
  let ok := Sample.old_browser "data:image/png;base64,YWJj" (Normal "abc") in
  let empty := Sample.old_browser "data:," (Throw "InvalidCharacterError") in
  dataURLtoBlob ok "data:image/png;base64,YWJj"
  = Normal {| size := 3; blob_type := "image/png" |}
  /\ downloads (fst (convertBtn_click ok st0))
     = [download "cat.png" {| size := 3; blob_type := "image/png" |}]
  /\ snd (convertBtn_click ok st0) = Settled
  /\ dataURLtoBlob empty "data:," = Throw "null has no properties"
  /\ downloads (fst (convertBtn_click empty st0)) = []
  /\ snd (convertBtn_click empty st0) = Settled.
Proof. vm_compute. repeat split; reflexivity. Qed.

(** ** File names (lines 169-182 and 197-204) *)

Lemma all_chars_app_dot (x y : string) :
  all_chars not_slash_dot (x ++ "." ++ y) = false.
Proof.
  induction x as [|c x IH]; simpl.
  - reflexivity.
  - simpl in IH. rewrite IH. apply andb_false_r.
Qed.

Lemma is_extension_inv (s : string) :
  is_extension s = true ->
  exists e, s = "." ++ e /\ e <> "" /\ all_chars not_slash_dot e = true.
Proof.
  destruct s as [|a [|c r]]; simpl; try discriminate.
  - destruct a as [[] [] [] [] [] [] [] []]; discriminate.
  - intros H.
    destruct (Ascii.eqb_spec a ".") as [->|Hne].
    + exists (String c r). repeat split; [discriminate | exact H].
    + exfalso. revert H Hne.
      destruct a as [[] [] [] [] [] [] [] []]; try discriminate.
      intros _ Hne. apply Hne. reflexivity.
Qed.

(** A name that ends in a dot followed by one or more characters other
    than [.] and [/] loses exactly that part. *)
Lemma strip_extension_cuts (stem e : string) :
  e <> "" -> all_chars not_slash_dot e = true ->
  strip_extension (stem ++ "." ++ e) = stem.
Proof.
  intros He Hall. induction stem as [|a stem IH].
  - destruct e as [|c r]; [contradiction|]. simpl in *. rewrite Hall. reflexivity.
  - change (String a stem ++ "." ++ e) with (String a (stem ++ "." ++ e)).
    cbn [strip_extension]. rewrite IH.
    destruct (is_extension (String a (stem ++ "." ++ e))) eqn:E; [|reflexivity].
    apply is_extension_inv in E. destruct E as (e' & Heq & _ & Hall').
    injection Heq as _ Heq. rewrite <- Heq in Hall'.
    pose proof (all_chars_app_dot stem e) as Hd.
    cbn in Hd, Hall'. congruence.
Qed.

(** A name with no such ending is kept whole. *)
Lemma strip_extension_keeps (s : string) :
  (forall stem e, s = stem ++ "." ++ e ->
                  e = "" \/ all_chars not_slash_dot e = false) ->
  strip_extension s = s.
Proof.
  induction s as [|c r IH]; intros H; [reflexivity|].
  cbn [strip_extension].
  destruct (is_extension (String c r)) eqn:E.
  - apply is_extension_inv in E. destruct E as (e & Heq & Hne & Hall).
    destruct (H "" e Heq) as [->|Hf]; [contradiction | congruence].
  - f_equal. apply IH. intros stem e Heq.
    apply (H (String c stem) e). simpl. now rewrite Heq.
Qed.

Lemma mimeToExt_other (mime : string) :
  mime <> "image/jpeg" -> mime <> "image/png" -> mime <> "image/webp" ->
  mimeToExt mime = "img".
Proof.
  intros H1 H2 H3. unfold mimeToExt.
  destruct (String.eqb_spec mime "image/jpeg"); [contradiction|].
  destruct (String.eqb_spec mime "image/png"); [contradiction|].
  destruct (String.eqb_spec mime "image/webp"); [contradiction|].
  reflexivity.
Qed.

(** C5.  The download of a conversion is named [outName outType file], where
    [file] is the current file when the blob arrives.  That name is the
    file's name without its last extension segment (a final dot followed by
    one or more characters other than [.] and [/]), or the whole name when it
    has no such segment, or ["converted-image"] when there is no file or no
    name; then a dot; then ["jpg"], ["png"] or ["webp"] for the three known
    formats and ["img"] for any other.  In particular
    derive("photo.png","image/webp") = "photo.webp",
    derive("noext","image/png") = "noext.png" and
    derive(undefined,"image/jpeg") = "converted-image.jpg". *)
Theorem C5_derived_filename
    (outType : string) (file : option File) (blob : Blob) (st : State) :
  calls (triggerDownload outType blob st)
  = download (outName outType (currentFile st)) blob :: calls st
  /\ (forall f stem e,
         file = Some f -> name f = stem ++ "." ++ e ->
         e <> "" -> all_chars not_slash_dot e = true ->
         outName outType file = stem ++ "." ++ mimeToExt outType)
  /\ (forall f,
         file = Some f -> name f <> "" ->
         (forall stem e, name f = stem ++ "." ++ e ->
                         e = "" \/ all_chars not_slash_dot e = false) ->
         outName outType file = name f ++ "." ++ mimeToExt outType)
  /\ (file = None \/ (exists f, file = Some f /\ name f = "") ->
      outName outType file = "converted-image" ++ "." ++ mimeToExt outType)
  /\ mimeToExt "image/jpeg" = "jpg"
  /\ mimeToExt "image/png" = "png"
  /\ mimeToExt "image/webp" = "webp"
  /\ (outType <> "image/jpeg" -> outType <> "image/png" ->
      outType <> "image/webp" -> mimeToExt outType = "img")
  /\ (forall t, outName "image/webp" (Some {| type := t; name := "photo.png" |})
                = "photo.webp")
  /\ (forall t, outName "image/png" (Some {| type := t; name := "noext" |})
                = "noext.png")
  /\ outName "image/jpeg" None = "converted-image.jpg".
Proof.
  split; [reflexivity|].
  split.
  { intros f stem e -> Hn He Hall. unfold outName, baseName.
    rewrite Hn. rewrite (strip_extension_cuts stem e He Hall).
    destruct stem; reflexivity. }
  split.
  { intros f -> Hne Hno. unfold outName, baseName.
    rewrite (strip_extension_keeps _ Hno).
    destruct (name f); [contradiction | reflexivity]. }
  split.
  { intros [-> | (f & -> & Hn)]; unfold outName, baseName;
      [reflexivity | rewrite Hn; reflexivity]. }
  repeat split; try reflexivity.
  apply mimeToExt_other.
Qed.

Lemma C5_derived_filename_witness :
  outName "image/jpeg" (Some (Sample.png "archive.tar.gz")) = "archive.tar.jpg"
  /\ outName "image/gif" (Some (Sample.png "a.b/c")) = "a.b/c.img"
  /\ outName "image/webp" (Some (Sample.png "")) = "converted-image.webp".
Proof.
  pose (b := {| size := 1; blob_type := "" |}).
  split; [|split].
  - apply (proj1 (proj2 (C5_derived_filename "image/jpeg"
                           (Some (Sample.png "archive.tar.gz")) b Sample.page))
             (Sample.png "archive.tar.gz") "archive.tar" "gz");
      [reflexivity | reflexivity | discriminate | reflexivity].
  - apply (proj1 (proj2 (proj2 (C5_derived_filename "image/gif"
                                  (Some (Sample.png "a.b/c")) b Sample.page)))
             (Sample.png "a.b/c"));
      [reflexivity | discriminate |].
    intros stem e H. cbn in H.
    destruct stem as [|x0 [|x1 [|x2 [|x3 [|x4 stem]]]]]; cbn in H;
      try discriminate; inversion H; subst; try (right; reflexivity);
      destruct stem; discriminate.
  - apply (proj1 (proj2 (proj2 (proj2 (C5_derived_filename "image/webp"
                                         (Some (Sample.png "")) b Sample.page))))).
    right. exists (Sample.png ""). split; reflexivity.
Defined.

(** ** What a conversion hands to the encoder *)

Lemma drawImage_encodes (pf : Platform) (c : Closure) (st : State) :
  encodes_with c st (fst (drawImage pf c st)).
Proof.
  unfold encodes_with, drawImage.
  destruct (drawImage_on pf (previewImg st) (hiddenCanvas st)) as [bm|err].
  - destruct (has_toBlob pf).
    + eexists. split; [|right; left; reflexivity]. reflexivity.
    + eexists. split; [|right; right; reflexivity].
      cbn [set_hiddenCanvas log hiddenCanvas].
      destruct (canvas_toDataURL pf _ _ _) as [d|m]; [|reflexivity].
      destruct (dataURLtoBlob pf d); reflexivity.
  - exists []. split; [reflexivity | left; reflexivity].
Qed.

Lemma temp_onload_encodes (pf : Platform) (c : Closure) (u : string) (st : State) :
  encodes_with c st (fst (temp_onload pf c u st)).
Proof.
  unfold temp_onload.
  destruct (drawImage_encodes pf c
              (set_previewImg (set_src pf (reflect_URL pf u) (previewImg st)) st))
    as (l & H & Hl).
  exists l. split; [exact H | exact Hl].
Qed.

Lemma click_encodes (pf : Platform) (st : State) :
  encodes_with (closure_of st) st (fst (convertBtn_click pf st)).
Proof.
  unfold convertBtn_click. fold (closure_of st).
  destruct (_ && negb (JS.truthy (src (previewImg st)))).
  { exists []. split; [reflexivity | left; reflexivity]. }
  destruct ((naturalW st =? 0) || (naturalH st =? 0)).
  { exists []. split; [reflexivity | left; reflexivity]. }
  set (st1 := set_hiddenCanvas _ st).
  destruct (complete (previewImg st1) && _).
  - destruct (drawImage_encodes pf (closure_of st) st1) as (l & H & Hl).
    destruct (drawImage pf (closure_of st) st1) as [st2 p].
    exists l. split; [exact H | exact Hl].
  - destruct (if JS.truthy (src (previewImg st1)) then _ else _);
      exists []; (split; [reflexivity | left; reflexivity]).
Qed.

(** When the draw does not throw, [drawImage] asks the encoder exactly
    once. *)
Lemma drawImage_encodes_once (pf : Platform) (c : Closure) (st : State) :
  (exists bm, drawImage_on pf (previewImg st) (hiddenCanvas st) = Normal bm) ->
  encodes (fst (drawImage pf c st)) = encoder_call pf c :: encodes st.
Proof.
  intros [bm Hbm]. unfold drawImage, encoder_call. rewrite Hbm.
  destruct (has_toBlob pf); [reflexivity|].
  cbn [set_hiddenCanvas log hiddenCanvas].
  destruct (canvas_toDataURL pf _ _ _) as [d|m]; [|reflexivity].
  destruct (dataURLtoBlob pf d); reflexivity.
Qed.

(** On a page that draws at once the listener is [drawImage] on the resized
    canvas, followed by the last [showMessage]. *)
Lemma click_draws (pf : Platform) (st : State) :
  draws_at_once st ->
  convertBtn_click pf st
  = let st1 := set_hiddenCanvas {| width := targetWidth st;
                                   height := targetHeight st;
                                   bitmap := Transparent |} st in
    (showMessage "Processing..." false (fst (drawImage pf (closure_of st) st1)),
     snd (drawImage pf (closure_of st) st1)).
Proof.
  intros (Hsrc & Hc & Hn & Hh). unfold convertBtn_click.
  assert (G : match currentFile st with None => true | Some _ => false end
              && negb (JS.truthy (src (previewImg st))) = false).
  { destruct Hsrc as [Hf|Hs].
    - destruct (currentFile st); [reflexivity | contradiction].
    - destruct (src (previewImg st)); [contradiction|].
      apply andb_false_r. }
  rewrite G.
  assert (Hw : naturalW st <> 0).
  { unfold naturalW. destruct (Z.eqb_spec (naturalWidth (previewImg st)) 0);
      [contradiction | assumption]. }
  apply Z.eqb_neq in Hw, Hh, Hn. rewrite Hw, Hh. cbn [orb].
  cbn [set_hiddenCanvas previewImg]. rewrite Hc, Hn. cbn [negb andb].
  cbv zeta. destruct (drawImage pf _ _). reflexivity.
Qed.

Lemma click_encodes_once (pf : Platform) (st : State) :
  (forall i cv, exists bm, drawImage_on pf i cv = Normal bm) ->
  draws_at_once st ->
  encodes (fst (convertBtn_click pf st))
  = encoder_call pf (closure_of st) :: encodes st.
Proof.
  intros Hd Hr. rewrite (click_draws pf st Hr). cbv zeta. cbn [fst].
  change (encodes (showMessage "Processing..." false ?s)) with (encodes s).
  rewrite drawImage_encodes_once by apply Hd. reflexivity.
Qed.

Lemma temp_onload_encodes_once (pf : Platform) (c : Closure) (u : string)
    (st : State) :
  (forall i cv, exists bm, drawImage_on pf i cv = Normal bm) ->
  encodes (fst (temp_onload pf c u st)) = encoder_call pf c :: encodes st.
Proof.
  intros Hd. unfold temp_onload.
  rewrite drawImage_encodes_once by apply Hd. reflexivity.
Qed.

(** Without [canvas.toBlob], a data URL that reads back as a blob is
    downloaded by [drawImage] itself, under the closure's format. *)
Lemma drawImage_fallback_download
    (pf : Platform) (c : Closure) (st : State) (bm : Bitmap) (d : string)
    (blob : Blob) :
  has_toBlob pf = false ->
  drawImage_on pf (previewImg st) (hiddenCanvas st) = Normal bm ->
  canvas_toDataURL pf
    {| width := width (hiddenCanvas st); height := height (hiddenCanvas st);
       bitmap := bm |} (outType c) (blobQuality (quality c)) = Normal d ->
  dataURLtoBlob pf d = Normal blob ->
  downloads (fst (drawImage pf c st))
  = download (outName (outType c) (currentFile st)) blob :: downloads st.
Proof.
  intros Hb Hbm Hd Hblob. unfold drawImage. rewrite Hbm, Hb.
  cbn [set_hiddenCanvas log hiddenCanvas]. rewrite Hd, Hblob. reflexivity.
Qed.

(** Whatever callback a click leaves pending closes over the click's own
    format and quality. *)
Lemma click_closure (pf : Platform) (st : State) (c : Closure) :
  snd (convertBtn_click pf st) = Encoding c
  \/ (exists u, snd (convertBtn_click pf st) = TempLoading c u) ->
  c = closure_of st.
Proof.
  unfold convertBtn_click. fold (closure_of st).
  destruct (_ && negb (JS.truthy (src (previewImg st)))).
  { intros [H | (u & H)]; discriminate. }
  destruct ((naturalW st =? 0) || (naturalH st =? 0)).
  { intros [H | (u & H)]; discriminate. }
  set (st1 := set_hiddenCanvas _ st).
  destruct (complete (previewImg st1) && _).
  - unfold drawImage.
    destruct (drawImage_on pf _ _).
    + destruct (has_toBlob pf).
      * intros [H | (u & H)]; [injection H as <-; reflexivity | discriminate].
      * cbn [set_hiddenCanvas log hiddenCanvas].
        destruct (canvas_toDataURL pf _ _ _) as [d|m].
        -- destruct (dataURLtoBlob pf d); intros [H | (u & H)]; discriminate.
        -- intros [H | (u & H)]; discriminate.
    + intros [H | (u & H)]; discriminate.
  - destruct (if JS.truthy (src (previewImg st1)) then _ else _).
    + intros [H | (u & H)]; [discriminate | injection H as <- _; reflexivity].
    + intros [H | (u & H)]; discriminate.
Qed.

(** ** Quality (lines 93-95 and 130) *)

Lemma normalize_quality_range (q : JS.int) : 1 <= normalize_quality q <= 100.
Proof.
  unfold normalize_quality. destruct q as [n|].
  - destruct (Z.ltb_spec n 1).
    + cbn. lia.
    + destruct (n >? 100) eqn:E; [lia|].
      rewrite Z.gtb_ltb in E. apply Z.ltb_ge in E. lia.
  - cbn. lia.
Qed.

Lemma blobQuality_in_range (n : Z) :
  1 <= n <= 100 -> blobQuality n = JS.div (JS.of_Z n) (JS.of_Z 100).
Proof.
  intros H. unfold blobQuality.
  rewrite (Z.min_r 100 n) by lia. rewrite Z.max_r by lia. reflexivity.
Qed.

(** C2, as the claim states it, fails: a quality below 1 is not raised to
    the bound 1; it is replaced by the default 90. *)
Lemma C2_counterexample :
  let st := Sample.with_controls "image/jpeg" "0" "" Sample.page in
  JS.parseInt (qualityInput st) = Some 0
  /\ Spec.quality (JS.parseInt (qualityInput st)) = 1
  /\ read_quality st = 90
  /\ read_quality st <> Spec.quality (JS.parseInt (qualityInput st)).
Proof. cbn. repeat split; discriminate. Qed.

(** C2, amended.  Let [q] be [parseInt] of the quality field.  The
    normalized quality is [q] itself when [q] is an integer in [1,100]; 100
    when [q] is above 100; and 90 when [q] is below 1 or is not a number
    (empty or non-numeric field).  Every callback the click leaves pending
    carries that quality, and every encoder call made for the conversion,
    at once or after the auxiliary image load, for any output format,
    receives the normalized quality divided by 100.  Where the draw does not
    throw that call is made, exactly once: by the listener on a page that
    draws at once, and by the auxiliary image's [load] otherwise. *)
Theorem C2_quality_normalization (pf : Platform) (st : State) :
  let q := JS.parseInt (qualityInput st) in
  let n := read_quality st in
  let c := closure_of st in
  (forall k, q = Some k -> 1 <= k <= 100 -> n = k)
  /\ (forall k, q = Some k -> 100 < k -> n = 100)
  /\ (forall k, q = Some k -> k < 1 -> n = 90)
  /\ (q = None -> n = 90)
  /\ 1 <= n <= 100
  /\ quality c = n
  /\ blobQuality (quality c) = JS.div (JS.of_Z n) (JS.of_Z 100)
  /\ (forall c', snd (convertBtn_click pf st) = Encoding c'
                 \/ (exists u, snd (convertBtn_click pf st) = TempLoading c' u) ->
                 c' = c)
  /\ encodes_with c st (fst (convertBtn_click pf st))
  /\ (forall u st', encodes_with c st' (fst (temp_onload pf c u st')))
  /\ ((forall i cv, exists bm, drawImage_on pf i cv = Normal bm) ->
      let call :=
        if has_toBlob pf
        then toBlob (outType c) (JS.div (JS.of_Z n) (JS.of_Z 100))
        else toDataURL (outType c) (JS.div (JS.of_Z n) (JS.of_Z 100)) in
      (draws_at_once st ->
       encodes (fst (convertBtn_click pf st)) = call :: encodes st)
      /\ (forall u st',
            encodes (fst (temp_onload pf c u st')) = call :: encodes st')).
Proof.
  cbv zeta. unfold read_quality, normalize_quality.
  split.
  { intros k -> Hk. destruct (Z.ltb_spec k 1); [lia|].
    destruct (k >? 100) eqn:E; [|reflexivity].
    rewrite Z.gtb_ltb in E. apply Z.ltb_lt in E. lia. }
  split.
  { intros k -> Hk. destruct (Z.ltb_spec k 1); [lia|].
    destruct (k >? 100) eqn:E; [reflexivity|].
    rewrite Z.gtb_ltb in E. apply Z.ltb_ge in E. lia. }
  split.
  { intros k -> Hk. destruct (Z.ltb_spec k 1); [reflexivity | lia]. }
  split.
  { intros ->. reflexivity. }
  fold (normalize_quality (JS.parseInt (qualityInput st))).
  split; [apply normalize_quality_range|].
  split; [reflexivity|].
  split; [apply blobQuality_in_range, normalize_quality_range|].
  split; [apply click_closure|].
  split; [apply click_encodes|].
  split; [intros u st'; apply temp_onload_encodes|].
  intros Hd.
  assert (E : forall c,
             quality c = normalize_quality (JS.parseInt (qualityInput st)) ->
             (if has_toBlob pf
              then toBlob (outType c)
                     (JS.div (JS.of_Z (normalize_quality
                                         (JS.parseInt (qualityInput st))))
                        (JS.of_Z 100))
              else toDataURL (outType c)
                     (JS.div (JS.of_Z (normalize_quality
                                         (JS.parseInt (qualityInput st))))
                        (JS.of_Z 100)))
             = encoder_call pf c).
  { intros c Hc. unfold encoder_call. rewrite Hc.
    rewrite blobQuality_in_range by apply normalize_quality_range.
    reflexivity. }
  rewrite (E (closure_of st) eq_refl).
  split.
  - intros Hr. apply click_encodes_once; assumption.
  - intros u st'. apply temp_onload_encodes_once, Hd.
Qed.

Lemma C2_quality_normalization_witness :
  let page q := Sample.with_controls "image/jpeg" q "" Sample.page in
  let cat q :=
    Sample.with_controls "image/jpeg" q ""
      (Sample.loaded (Sample.png "cat.png") "data:cat" 800 600 Sample.page) in
  read_quality (page "75") = 75
  /\ read_quality (page "250") = 100
  /\ read_quality (page "-3") = 90
  /\ read_quality (page "high") = 90
  /\ encodes (fst (convertBtn_click Sample.browser (cat "0")))
     = [toBlob "image/jpeg" (JS.div (JS.of_Z 90) (JS.of_Z 100))].
Proof.
  cbv zeta.
  pose (page q := Sample.with_controls "image/jpeg" q "" Sample.page).
  pose (cat q :=
          Sample.with_controls "image/jpeg" q ""
            (Sample.loaded (Sample.png "cat.png") "data:cat" 800 600
               Sample.page)).
  split; [|split; [|split; [|split]]].
  - apply (proj1 (C2_quality_normalization Sample.browser (page "75")) 75);
      [reflexivity | lia].
  - apply (proj1 (proj2 (C2_quality_normalization Sample.browser (page "250")))
             250); [reflexivity | lia].
  - apply (proj1 (proj2 (proj2
             (C2_quality_normalization Sample.browser (page "-3")))) (-3));
      [reflexivity | lia].
  - apply (proj1 (proj2 (proj2 (proj2
             (C2_quality_normalization Sample.browser (page "high"))))));
      reflexivity.
  - pose proof (C2_quality_normalization Sample.browser (cat "0")) as H.
    cbv zeta in H.
    destruct H as (_ & _ & _ & _ & _ & _ & _ & _ & _ & _ & H).
    assert (E : (if has_toBlob Sample.browser
                 then toBlob (outType (closure_of (cat "0")))
                        (JS.div (JS.of_Z (read_quality (cat "0"))) (JS.of_Z 100))
                 else toDataURL (outType (closure_of (cat "0")))
                        (JS.div (JS.of_Z (read_quality (cat "0"))) (JS.of_Z 100)))
                :: encodes (cat "0")
                = [toBlob "image/jpeg" (JS.div (JS.of_Z 90) (JS.of_Z 100))])
      by (vm_compute; reflexivity).
    rewrite <- E.
    specialize (H ltac:(intros i cv; eexists; reflexivity)).
    destruct H as [H _]. apply H.
    split; [left; discriminate|].
    split; [reflexivity|].
    split; vm_compute; discriminate.
Defined.

(** ** The two guards of the click listener (lines 86-90 and 99-104) *)

(** [imgElement] is never given a source by the script, so its natural size
    stays 0 and the size the listener reads is the preview's. *)
Lemma naturalW_preview (st : State) :
  naturalWidth (imgElement st) = 0 -> naturalW st = naturalWidth (previewImg st).
Proof.
  intros H. unfold naturalW.
  destruct (Z.eqb_spec (naturalWidth (previewImg st)) 0); congruence.
Qed.

Lemma naturalH_preview (st : State) :
  naturalHeight (imgElement st) = 0 -> naturalH st = naturalHeight (previewImg st).
Proof.
  intros H. unfold naturalH.
  destruct (Z.eqb_spec (naturalHeight (previewImg st)) 0); congruence.
Qed.

Lemma truthy_false (s : string) : JS.truthy s = false <-> s = "".
Proof. destruct s; cbn; split; congruence. Qed.

(** C9.  A click while no file is loaded and the preview has no source
    only writes the error ["Choose or drop an image first."] to the status
    line: nothing is left pending, the canvas and every other part of the
    page are as before, and no call to the browser (encoder, image load,
    download) is made. *)
Theorem C9_nothing_loaded (pf : Platform) (st : State) :
  currentFile st = None -> src (previewImg st) = "" ->
  convertBtn_click pf st
  = (showMessage "Choose or drop an image first." true st, Settled)
  /\ message (fst (convertBtn_click pf st))
     = {| textContent := "Choose or drop an image first."; color := "#ef4444" |}
  /\ hiddenCanvas (fst (convertBtn_click pf st)) = hiddenCanvas st
  /\ calls (fst (convertBtn_click pf st)) = calls st.
Proof.
  intros Hf Hs.
  assert (E : convertBtn_click pf st
              = (showMessage "Choose or drop an image first." true st, Settled)).
  { unfold convertBtn_click. rewrite Hf, Hs. reflexivity. }
  rewrite E. repeat split.
Qed.

Lemma C9_nothing_loaded_witness :
  convertBtn_click Sample.browser Sample.page
  = (showMessage "Choose or drop an image first." true Sample.page, Settled).
Proof.
  apply (proj1 (C9_nothing_loaded Sample.browser Sample.page eq_refl eq_refl)).
Defined.

(** C4.  A click while the natural width or height the listener reads is 0
    (the image has not been decoded yet) ends at once with an error on the
    status line, leaves nothing pending, does not touch the canvas and makes
    no call to the browser, so no artifact of any size is produced.  When a
    file or a preview source exists the error is the not-ready one. *)
Theorem C4_not_ready (pf : Platform) (st : State) :
  naturalW st = 0 \/ naturalH st = 0 ->
  snd (convertBtn_click pf st) = Settled
  /\ color (message (fst (convertBtn_click pf st))) = "#ef4444"
  /\ hiddenCanvas (fst (convertBtn_click pf st)) = hiddenCanvas st
  /\ calls (fst (convertBtn_click pf st)) = calls st
  /\ (currentFile st <> None \/ src (previewImg st) <> "" ->
      convertBtn_click pf st
      = (showMessage "Image not ready yet. Wait a moment and try again." true st,
         Settled)).
Proof.
  intros Hdim.
  assert (Hz : (naturalW st =? 0) || (naturalH st =? 0) = true).
  { apply orb_true_iff. destruct Hdim as [H|H]; [left|right];
      now apply Z.eqb_eq. }
  unfold convertBtn_click. rewrite Hz.
  destruct (match currentFile st with None => true | Some _ => false end
            && negb (JS.truthy (src (previewImg st)))) eqn:G.
  - repeat split; try reflexivity.
    intros Hsrc. exfalso.
    apply andb_true_iff in G. destruct G as [G1 G2].
    apply negb_true_iff, truthy_false in G2.
    destruct Hsrc as [Hf|Hs]; [|contradiction].
    destruct (currentFile st); [discriminate | contradiction].
  - repeat split; reflexivity.
Qed.

Lemma C4_not_ready_witness :
  let st := reader_onload Sample.browser (Sample.png "cat.png") "data:cat"
              (loadFile (Sample.png "cat.png") Sample.page) in
  convertBtn_click Sample.browser st
  = (showMessage "Image not ready yet. Wait a moment and try again." true st,
     Settled).
Proof.
  cbv zeta.
  apply (proj2 (proj2 (proj2 (proj2
           (C4_not_ready Sample.browser
              (reader_onload Sample.browser (Sample.png "cat.png") "data:cat"
                 (loadFile (Sample.png "cat.png") Sample.page))
              (or_introl eq_refl)))))).
  left. discriminate.
Defined.

(** ** Default format (line 92) *)

(** C8.  With an empty format field the output format is ["image/png"]:
    every callback the click leaves pending carries it, every encoder call
    of the conversion is made with it, and the download is named with the
    extension ["png"].  Where the draw does not throw the encoder is called,
    exactly once and with ["image/png"]: by the listener on a page that draws
    at once, and by the auxiliary image's [load] otherwise.  Without
    [canvas.toBlob] the blob read back from the data URL is downloaded under
    a name that ends in [".png"] as well. *)
Theorem C8_default_format (pf : Platform) (st : State) :
  formatSelect st = "" ->
  let c := closure_of st in
  let png := {| outType := "image/png"; quality := read_quality st |} in
  read_outType st = "image/png"
  /\ outType c = "image/png"
  /\ (forall c', snd (convertBtn_click pf st) = Encoding c'
                 \/ (exists u, snd (convertBtn_click pf st) = TempLoading c' u) ->
                 outType c' = "image/png")
  /\ encodes_with c st (fst (convertBtn_click pf st))
  /\ (forall u st', encodes_with c st' (fst (temp_onload pf c u st')))
  /\ (forall blob st',
         calls (toBlob_callback c (Some blob) st')
         = download (baseName (currentFile st') ++ ".png") blob :: calls st')
  /\ c = png
  /\ ((forall i cv, exists bm, drawImage_on pf i cv = Normal bm) ->
      (draws_at_once st ->
       encodes (fst (convertBtn_click pf st)) = encoder_call pf png :: encodes st)
      /\ (forall u st',
            encodes (fst (temp_onload pf c u st'))
            = encoder_call pf png :: encodes st'))
  /\ (forall st' bm d blob,
        has_toBlob pf = false ->
        drawImage_on pf (previewImg st') (hiddenCanvas st') = Normal bm ->
        canvas_toDataURL pf
          {| width := width (hiddenCanvas st');
             height := height (hiddenCanvas st'); bitmap := bm |}
          "image/png" (blobQuality (read_quality st)) = Normal d ->
        dataURLtoBlob pf d = Normal blob ->
        downloads (fst (drawImage pf c st'))
        = download (baseName (currentFile st') ++ ".png") blob :: downloads st').
Proof.
  intros Hf. cbv zeta.
  assert (E : read_outType st = "image/png").
  { unfold read_outType. rewrite Hf. reflexivity. }
  assert (Ec : closure_of st
               = {| outType := "image/png"; quality := read_quality st |}).
  { unfold closure_of. rewrite E. reflexivity. }
  split; [exact E|].
  split; [exact E|].
  split.
  { intros c' Hc'. rewrite (click_closure pf st c' Hc'). exact E. }
  split; [apply click_encodes|].
  split; [intros; apply temp_onload_encodes|].
  split.
  { intros blob st'. cbn [toBlob_callback closure_of outType].
    rewrite E. reflexivity. }
  split; [exact Ec|].
  split.
  { intros Hd. rewrite <- Ec. split.
    - intros Hr. apply click_encodes_once; assumption.
    - intros u st'. apply temp_onload_encodes_once, Hd. }
  intros st' bm d blob Hb Hbm Hd Hblob.
  rewrite Ec.
  apply (drawImage_fallback_download pf
           {| outType := "image/png"; quality := read_quality st |}
           st' bm d blob Hb Hbm Hd Hblob).
Qed.

Lemma C8_default_format_witness :
  let st := Sample.with_controls "" "90" ""
              (Sample.loaded (Sample.png "cat.png") "data:cat" 800 600
                 Sample.page) in
  let old := Sample.old_browser "data:image/png;base64,YWJj" (Normal "abc") in
  let blob := {| size := 3; blob_type := "image/png" |} in
  encodes (fst (convertBtn_click Sample.browser st))
  = [toBlob "image/png" (blobQuality 90)]
  /\ calls (toBlob_callback (closure_of st) (Some blob)
              (fst (convertBtn_click Sample.browser st)))
     = download "cat.png" blob :: calls (fst (convertBtn_click Sample.browser st))
  /\ downloads (fst (drawImage old (closure_of st) st))
     = [download "cat.png" blob].
Proof.
  cbv zeta.
  pose (st := Sample.with_controls "" "90" ""
                (Sample.loaded (Sample.png "cat.png") "data:cat" 800 600
                   Sample.page)).
  pose (old := Sample.old_browser "data:image/png;base64,YWJj" (Normal "abc")).
  split; [|split].
  - pose proof (C8_default_format Sample.browser st eq_refl) as H.
    cbv zeta in H. destruct H as (_ & _ & _ & _ & _ & _ & _ & H & _).
    assert (E : encoder_call Sample.browser
                  {| outType := "image/png"; quality := read_quality st |}
                :: encodes st
                = [toBlob "image/png" (blobQuality 90)])
      by (vm_compute; reflexivity).
    rewrite <- E.
    specialize (H ltac:(intros i cv; eexists; reflexivity)).
    destruct H as [H _]. apply H.
    split; [left; discriminate|].
    split; [reflexivity|].
    split; vm_compute; discriminate.
  - pose proof (C8_default_format Sample.browser st eq_refl) as H.
    cbv zeta in H. destruct H as (_ & _ & _ & _ & _ & H & _).
    apply H.
  - pose proof (C8_default_format old st eq_refl) as H.
    cbv zeta in H. destruct H as (_ & _ & _ & _ & _ & _ & _ & _ & H).
    specialize (H st (Painted "data:cat" 300 150) "data:image/png;base64,YWJj"
                  {| size := 3; blob_type := "image/png" |}
                  eq_refl eq_refl eq_refl ltac:(vm_compute; reflexivity)).
    vm_compute in H. vm_compute. exact H.
Defined.

(** ** The encoder's answer (lines 133-150) *)

(** When the encoder hands [null] to the [toBlob] callback, the conversion
    ends with the error ["Conversion failed (blob is empty)."] on the status
    line and nothing more: no download is triggered and no other call is
    made.  The test of line 135 is for [null] only: a blob is downloaded
    whatever its size. *)
Remark null_blob_reported (pf : Platform) (c : Closure) (st : State) :
  fires pf (Encoding c) st (toBlob_callback c None st) Settled
  /\ toBlob_callback c None st
     = showMessage "Conversion failed (blob is empty)." true st
  /\ message (toBlob_callback c None st)
     = {| textContent := "Conversion failed (blob is empty).";
          color := "#ef4444" |}
  /\ downloads (toBlob_callback c None st) = downloads st
  /\ calls (toBlob_callback c None st) = calls st
  /\ (forall blob,
         downloads (toBlob_callback c (Some blob) st)
         = download (outName (outType c) (currentFile st)) blob :: downloads st).
Proof.
  split; [constructor|].
  repeat split.
Qed.

(** Without [canvas.toBlob], an encoder that produces nothing returns the
    data URL ["data:,"]; reading it back throws, and no download is
    triggered either. *)
Remark empty_data_url (pf : Platform) (c : Closure) (st : State) :
  dataURLtoBlob pf "data:," = Throw (null_index pf)
  /\ (has_toBlob pf = false ->
      (forall cv m q, canvas_toDataURL pf cv m q = Normal "data:,") ->
      downloads (fst (drawImage pf c st)) = downloads st).
Proof.
  split; [reflexivity|].
  intros Hb Hd. unfold drawImage.
  destruct (drawImage_on pf (previewImg st) (hiddenCanvas st)); [|reflexivity].
  rewrite Hb, Hd. reflexivity.
Qed.

(** When the preview is complete the listener calls [drawImage] before its
    last statement, so whatever [drawImage] wrote to the status line at once
    (a draw error, or the outcome of the data-URL fallback) is replaced by
    ["Processing..."]; only the [toBlob] callback reports later. *)
Remark synchronous_message_overwritten (pf : Platform) (st : State) :
  currentFile st <> None \/ src (previewImg st) <> "" ->
  naturalW st <> 0 -> naturalH st <> 0 ->
  complete (previewImg st) = true -> naturalWidth (previewImg st) <> 0 ->
  message (fst (convertBtn_click pf st))
  = {| textContent := "Processing..."; color := "" |}.
Proof.
  intros Hsrc Hw Hh Hc Hn. unfold convertBtn_click.
  assert (G : match currentFile st with None => true | Some _ => false end
              && negb (JS.truthy (src (previewImg st))) = false).
  { destruct Hsrc as [Hf|Hs].
    - destruct (currentFile st); [reflexivity | contradiction].
    - destruct (src (previewImg st)); [contradiction|].
      apply andb_false_r. }
  rewrite G.
  apply Z.eqb_neq in Hw, Hh, Hn. rewrite Hw, Hh. cbn [orb].
  cbn [set_hiddenCanvas previewImg]. rewrite Hc, Hn. cbn [negb andb].
  destruct (drawImage pf _ _). reflexivity.
Qed.

(** C6.  The claim holds where the browser has [canvas.toBlob]
    ([null_blob_reported]); it fails in a browser without it.  A 1000 x 1
    image converted at width 400 gives the canvas no rows, for which
    [toDataURL] returns ["data:,"].  [dataURLtoBlob] throws on it and
    [drawImage] writes ["Conversion failed: ..."] in red, with no download;
    but [drawImage] has run inside the listener, whose last statement then
    replaces the error by ["Processing..."], not marked as an error.  So the
    conversion has produced nothing and the page does not say that it
    failed.  In the browser with [canvas.toBlob] the same click ends, once
    the encoder answers [null], with the error on the status line. *)
Theorem C6_failure_overwritten :
  let st := Sample.with_controls "image/png" "90" "400"
              (Sample.loaded (Sample.png "line.png") "data:line" 1000 1
                 Sample.page) in
  let old := Sample.old_browser "data:," (Throw "InvalidCharacterError") in
  let c := closure_of st in
  let resized :=
    set_hiddenCanvas {| width := 400; height := 0; bitmap := Transparent |} st in
  has_toBlob old = false
  /\ draws_at_once st
  /\ (targetWidth st, targetHeight st) = (400, 0)
  /\ dataURLtoBlob old "data:," = Throw "null has no properties"
  /\ snd (drawImage old c resized) = Settled
  /\ message (fst (drawImage old c resized))
     = {| textContent := "Conversion failed: null has no properties";
          color := "#ef4444" |}
  /\ convertBtn_click old st
     = (showMessage "Processing..." false (fst (drawImage old c resized)),
        Settled)
  /\ downloads (fst (convertBtn_click old st)) = []
  /\ message (fst (convertBtn_click old st))
     = {| textContent := "Processing..."; color := "" |}
  /\ snd (convertBtn_click Sample.browser st) = Encoding c
  /\ message (toBlob_callback c None (fst (convertBtn_click Sample.browser st)))
     = {| textContent := "Conversion failed (blob is empty).";
          color := "#ef4444" |}
  /\ downloads (toBlob_callback c None (fst (convertBtn_click Sample.browser st)))
     = [].
Proof.
  vm_compute. repeat split; try reflexivity; try discriminate.
  left. discriminate.
Qed.

(** ** Termination (lines 153-165) *)

Lemma drawImage_rank (pf : Platform) (c : Closure) (st : State) :
  (rank (snd (drawImage pf c st)) <= 1)%nat.
Proof.
  unfold drawImage.
  destruct (drawImage_on pf _ _); [|cbn; lia].
  destruct (has_toBlob pf); [cbn; lia|].
  cbn [set_hiddenCanvas log hiddenCanvas].
  destruct (canvas_toDataURL pf _ _ _) as [d|m]; [|cbn; lia].
  destruct (dataURLtoBlob pf d); cbn; lia.
Qed.

Lemma drawImage_aux_loads (pf : Platform) (c : Closure) (st : State) :
  aux_loads (fst (drawImage pf c st)) = aux_loads st.
Proof.
  unfold drawImage.
  destruct (drawImage_on pf _ _); [|reflexivity].
  destruct (has_toBlob pf); [reflexivity|].
  cbn [set_hiddenCanvas log hiddenCanvas].
  destruct (canvas_toDataURL pf _ _ _) as [d|m]; [|reflexivity].
  destruct (dataURLtoBlob pf d); reflexivity.
Qed.

(** Every callback that fires leaves strictly fewer to come, starts no
    auxiliary image load, and never leads back to waiting for one. *)
Lemma fires_decreases (pf : Platform) (p : Pending) (st st' : State) (p' : Pending) :
  fires pf p st st' p' ->
  (rank p' < rank p)%nat
  /\ aux_loads st' = aux_loads st
  /\ (forall c u, p' <> TempLoading c u).
Proof.
  intros H. destruct H as [c u st | c u st | c blob st].
  - unfold temp_onload.
    pose proof (drawImage_rank pf c
                  (set_previewImg (set_src pf (reflect_URL pf u) (previewImg st)) st)) as Hr.
    split; [cbn [rank]; lia|].
    split; [rewrite drawImage_aux_loads; reflexivity|].
    intros c' u' E. rewrite E in Hr. cbn in Hr. lia.
  - repeat split; [cbn; lia | discriminate].
  - repeat split; [cbn; lia | destruct blob; reflexivity | discriminate].
Qed.

Lemma chain_bound (pf : Platform) (p : Pending) (n : nat) (p' : Pending) :
  chain pf p n p' -> (n + rank p' <= rank p)%nat.
Proof.
  induction 1 as [p | p st st' p' n p'' Hf _ IH].
  - lia.
  - apply fires_decreases in Hf. lia.
Qed.

Lemma click_rank (pf : Platform) (st : State) :
  (rank (snd (convertBtn_click pf st)) <= 2)%nat.
Proof. destruct (snd (convertBtn_click pf st)); cbn; lia. Qed.

Lemma click_aux_loads (pf : Platform) (st : State) :
  (aux_loads (fst (convertBtn_click pf st))
   = aux_loads st + (if rank (snd (convertBtn_click pf st)) =? 2 then 1 else 0))%nat.
Proof.
  unfold convertBtn_click.
  destruct (_ && negb (JS.truthy (src (previewImg st))));
    [unfold aux_loads; cbn; lia|].
  destruct ((naturalW st =? 0) || (naturalH st =? 0));
    [unfold aux_loads; cbn; lia|].
  set (c := closure_of st).
  set (st1 := set_hiddenCanvas _ st).
  destruct (complete (previewImg st1) && _).
  - pose proof (drawImage_rank pf c st1) as Hr.
    pose proof (drawImage_aux_loads pf c st1) as Ha.
    destruct (drawImage pf c st1) as [st2 p]. cbn [fst snd] in *.
    destruct (Nat.eqb_spec (rank p) 2); [lia|].
    change (aux_loads (showMessage "Processing..." false st2)) with (aux_loads st2).
    rewrite Ha. change (aux_loads st1) with (aux_loads st). lia.
  - destruct (if JS.truthy (src (previewImg st1)) then _ else _).
    + cbn [fst snd rank]. cbn [Nat.eqb].
      unfold aux_loads. cbn. lia.
    + cbn [fst snd rank]. cbn [Nat.eqb].
      change (aux_loads st1) with (aux_loads st). lia.
Qed.

(** C7.  A click runs to its end and leaves a pending state of rank at
    most 2.  From there at most two callbacks ever fire (the auxiliary
    image's [load] or [error], then the encoder's), each one leaving
    strictly fewer to come; a callback never starts an auxiliary image load
    and never leads back to waiting for one.  So the listener itself starts
    at most one auxiliary load, exactly when it leaves the conversion
    waiting for it, and none when the preview is already complete. *)
Theorem C7_single_retry (pf : Platform) (st : State) :
  let p0 := snd (convertBtn_click pf st) in
  let st0 := fst (convertBtn_click pf st) in
  (rank p0 <= 2)%nat
  /\ (forall n p, chain pf p0 n p -> (n <= 2)%nat)
  /\ (forall p s s' p',
         fires pf p s s' p' ->
         (rank p' < rank p)%nat /\ aux_loads s' = aux_loads s
         /\ (forall c u, p' <> TempLoading c u))
  /\ (aux_loads st0 <= aux_loads st + 1)%nat
  /\ ((exists c u, p0 = TempLoading c u) <-> aux_loads st0 = (aux_loads st + 1)%nat)
  /\ (complete (previewImg st) = true -> naturalWidth (previewImg st) <> 0 ->
      aux_loads st0 = aux_loads st /\ (rank p0 <= 1)%nat).
Proof.
  cbv zeta.
  pose proof (click_rank pf st) as Hr.
  pose proof (click_aux_loads pf st) as Ha.
  split; [exact Hr|].
  split.
  { intros n p Hc. apply chain_bound in Hc. lia. }
  split; [apply fires_decreases|].
  split.
  { destruct (rank (snd (convertBtn_click pf st)) =? 2)%nat; lia. }
  split.
  { split.
    - intros (c & u & E). rewrite E in Ha. cbn in Ha. lia.
    - intros E. destruct (snd (convertBtn_click pf st)) eqn:P;
        cbn in Ha; try lia. eauto. }
  intros Hc Hw.
  assert (Hp : (rank (snd (convertBtn_click pf st)) <= 1)%nat).
  { unfold convertBtn_click.
    destruct (_ && negb (JS.truthy (src (previewImg st)))); [cbn; lia|].
    destruct ((naturalW st =? 0) || (naturalH st =? 0)); [cbn; lia|].
    cbn [set_hiddenCanvas previewImg]. rewrite Hc.
    apply Z.eqb_neq in Hw. rewrite Hw. cbn [negb andb].
    set (c := closure_of st).
    set (st1 := set_hiddenCanvas _ st).
    pose proof (drawImage_rank pf c st1) as Hd.
    destruct (drawImage pf c st1). exact Hd. }
  split; [|exact Hp].
  destruct (Nat.eqb_spec (rank (snd (convertBtn_click pf st))) 2); lia.
Qed.

Lemma C7_single_retry_witness :
  chain Sample.browser
        (snd (convertBtn_click Sample.browser Sample.reloading)) 2 Settled
  /\ (2 <= 2)%nat.
Proof.
  assert (H : chain Sample.browser
                (snd (convertBtn_click Sample.browser Sample.reloading))
                2 Settled).
  { change (snd (convertBtn_click Sample.browser Sample.reloading))
      with (TempLoading (closure_of Sample.reloading) "data:cat").
    apply (chain_cons _ _ Sample.reloading _ _ _ _
             (fires_temp_onload _ _ _ _)).
    change (snd (temp_onload Sample.browser (closure_of Sample.reloading)
                   "data:cat" Sample.reloading))
      with (Encoding (closure_of Sample.reloading)).
    apply (chain_cons _ _ Sample.reloading _ _ _ _
             (fires_toBlob _ _ None _)).
    apply chain_nil. }
  split; [exact H|].
  exact (proj1 (proj2 (C7_single_retry Sample.browser Sample.reloading))
           2%nat Settled H).
Defined.

(** ** Output size (lines 98-111) *)

(** The width field counts as absent when it does not start with a number
    or when the number is 0. *)
Lemma requestedWidth_cases (st : State) :
  (JS.parseInt (widthInput st) = None -> requestedWidth st = None)
  /\ (JS.parseInt (widthInput st) = Some 0 -> requestedWidth st = None)
  /\ (forall w, JS.parseInt (widthInput st) = Some w -> w <> 0 ->
                requestedWidth st = Some w).
Proof.
  unfold requestedWidth. repeat split.
  - intros ->. reflexivity.
  - intros ->. reflexivity.
  - intros w -> Hw. apply Z.eqb_neq in Hw. rewrite Hw. reflexivity.
Qed.

(** The target width is the requested one when it is present, positive and
    strictly below the natural width; the height is then the rounded
    binary64 product; in every other case both natural dimensions are kept. *)
Lemma target_size_cases (requested : option Z) (nw nh : Z) :
  (forall w, requested = Some w -> 0 < w < nw ->
             target_size requested nw nh
             = (w, JS.Math_round
                     (JS.mul (JS.div (JS.of_Z nh) (JS.of_Z nw)) (JS.of_Z w))))
  /\ (forall w, requested = Some w -> w <= 0 \/ nw <= w ->
                target_size requested nw nh = (nw, nh))
  /\ (requested = None -> target_size requested nw nh = (nw, nh)).
Proof.
  unfold target_size. repeat split.
  - intros w -> [H1 H2].
    apply Z.ltb_lt in H1, H2. rewrite H1, H2. reflexivity.
  - intros w -> H.
    destruct (Z.ltb_spec 0 w); [|reflexivity].
    destruct (Z.ltb_spec w nw); [lia | reflexivity].
  - intros ->. reflexivity.
Qed.

(** A conversion that passes both guards resizes the canvas to the target
    size before anything is drawn. *)
Lemma click_resizes (pf : Platform) (st : State) :
  currentFile st <> None \/ src (previewImg st) <> "" ->
  naturalW st <> 0 -> naturalH st <> 0 ->
  width (hiddenCanvas (fst (convertBtn_click pf st))) = targetWidth st
  /\ height (hiddenCanvas (fst (convertBtn_click pf st))) = targetHeight st.
Proof.
  intros Hsrc Hw Hh. unfold convertBtn_click.
  assert (G : match currentFile st with None => true | Some _ => false end
              && negb (JS.truthy (src (previewImg st))) = false).
  { destruct Hsrc as [Hf|Hs].
    - destruct (currentFile st); [reflexivity | contradiction].
    - destruct (src (previewImg st)); [contradiction|].
      apply andb_false_r. }
  rewrite G.
  apply Z.eqb_neq in Hw, Hh. rewrite Hw, Hh. cbn [orb].
  set (c := closure_of st).
  set (st1 := set_hiddenCanvas _ st).
  destruct (complete (previewImg st1) && _).
  - unfold drawImage.
    destruct (drawImage_on pf _ _); [|split; reflexivity].
    destruct (has_toBlob pf); [split; reflexivity|].
    cbn [set_hiddenCanvas log hiddenCanvas].
    destruct (canvas_toDataURL pf _ _ _) as [d|m]; [|split; reflexivity].
    destruct (dataURLtoBlob pf d); split; reflexivity.
  - destruct (if JS.truthy (src (previewImg st1)) then _ else _);
      split; reflexivity.
Qed.

(** ** Binary64: the rounded product against the exact quotient

    [SpecFloat] rounds in [binary_round_aux]: the mantissa is shifted right
    until 53 digits are left, then moved to a neighbour by the round and
    sticky bits.  The lemmas below follow the mantissa only, which bounds
    each operation by one unit in the last place; that is enough to pin the
    rounded height down whenever the exact quotient is not a tie. *)

(** A positive number with [d] binary digits lies in [2^(d-1), 2^d). *)
Lemma digits2_pos_bounds (p : positive) :
  2 ^ (Z.pos (digits2_pos p) - 1) <= Z.pos p < 2 ^ Z.pos (digits2_pos p).
Proof.
  induction p as [p IH | p IH |]; cbn [digits2_pos].
  - rewrite Pos2Z.inj_succ.
    replace (Z.succ (Z.pos (digits2_pos p)) - 1) with (Z.succ (Z.pos (digits2_pos p) - 1)) by lia.
    rewrite !Z.pow_succ_r by lia. lia.
  - rewrite Pos2Z.inj_succ.
    replace (Z.succ (Z.pos (digits2_pos p)) - 1) with (Z.succ (Z.pos (digits2_pos p) - 1)) by lia.
    rewrite !Z.pow_succ_r by lia. lia.
  - cbn. lia.
Qed.

(** One right shift halves the mantissa; [p] of them divide it by [2^p]. *)
Lemma shr_m_shr_1 (mrs : shr_record) :
  0 <= shr_m mrs -> shr_m (shr_1 mrs) = shr_m mrs / 2.
Proof.
  destruct mrs as [m r s]. cbn [shr_m]. intros Hm.
  rewrite <- Z.div2_div.
  destruct m as [|[p|p|]|p]; cbn [shr_1 shr_m]; try reflexivity; lia.
Qed.

Lemma shr_m_shr_1_nonneg (mrs : shr_record) :
  0 <= shr_m mrs -> 0 <= shr_m (shr_1 mrs).
Proof.
  intros H. rewrite shr_m_shr_1 by assumption. apply Z.div_pos; lia.
Qed.

Lemma pow2_xO (p : positive) : 2 ^ Z.pos p~0 = 2 ^ Z.pos p * 2 ^ Z.pos p.
Proof. rewrite <- Z.pow_add_r by lia. f_equal. lia. Qed.

Lemma pow2_xI (p : positive) : 2 ^ Z.pos p~1 = 2 * (2 ^ Z.pos p * 2 ^ Z.pos p).
Proof.
  rewrite <- Z.pow_add_r by lia. rewrite <- Z.pow_succ_r by lia. f_equal. lia.
Qed.

Lemma shr_m_iter (p : positive) :
  forall mrs, 0 <= shr_m mrs ->
  shr_m (iter_pos shr_1 p mrs) = shr_m mrs / 2 ^ Z.pos p.
Proof.
  induction p as [p IH | p IH |]; intros mrs Hm; cbn [iter_pos].
  - assert (H1 := shr_m_shr_1_nonneg mrs Hm).
    assert (H2 : 0 <= shr_m (iter_pos shr_1 p (shr_1 mrs))).
    { rewrite IH by assumption. apply Z.div_pos; lia. }
    rewrite IH by assumption. rewrite IH by assumption.
    rewrite shr_m_shr_1 by assumption.
    rewrite pow2_xI. rewrite !Z.div_div by lia. f_equal; lia.
  - assert (H2 : 0 <= shr_m (iter_pos shr_1 p mrs)).
    { rewrite IH by assumption. apply Z.div_pos; lia. }
    rewrite IH by assumption. rewrite IH by assumption.
    rewrite pow2_xO. rewrite !Z.div_div by lia. reflexivity.
  - rewrite shr_m_shr_1 by assumption. reflexivity.
Qed.

(** In the normal range the exponent of a 53-digit mantissa is [e - 53]. *)
Lemma fexp_normal (e : Z) : -1074 <= e - 53 -> fexp 53 1024 e = e - 53.
Proof. unfold fexp, emin. lia. Qed.

(** The digit count is determined by the power-of-two bracket. *)
Lemma Zdigits2_unique (z k : Z) :
  2 ^ (k - 1) <= z < 2 ^ k -> 0 < k -> Zdigits2 z = k.
Proof.
  intros [Hlo Hhi] Hk.
  assert (0 < z) by (pose proof (Z.pow_pos_nonneg 2 (k - 1)); lia).
  destruct z as [|p|p]; try lia.
  cbn [Zdigits2].
  pose proof (digits2_pos_bounds p) as [Hl Hh].
  set (d := Z.pos (digits2_pos p)) in *.
  assert (Hd : 0 < d) by (unfold d; lia).
  destruct (Z.lt_trichotomy d k) as [Hlt | [Heq | Hgt]]; [exfalso | exact Heq | exfalso].
  - assert (2 ^ d <= 2 ^ (k - 1)) by (apply Z.pow_le_mono_r; lia). lia.
  - assert (2 ^ k <= 2 ^ (d - 1)) by (apply Z.pow_le_mono_r; lia). lia.
Qed.

Lemma Zdigits2_bounds (z : Z) :
  0 < z -> 2 ^ (Zdigits2 z - 1) <= z < 2 ^ Zdigits2 z.
Proof.
  destruct z as [|p|p]; try lia. intros _. apply digits2_pos_bounds.
Qed.

Lemma shr_record_of_loc_m (m : Z) (l : location) :
  shr_m (shr_record_of_loc m l) = m.
Proof. destruct l as [|[]]; reflexivity. Qed.

Lemma loc_of_shr_record_of_loc (m : Z) (l : location) :
  loc_of_shr_record (shr_record_of_loc m l) = l.
Proof. destruct l as [|[]]; reflexivity. Qed.

(** [shr_fexp] divides the mantissa by [2^n], where [n] is the number of
    digits in excess, and keeps the location when nothing is shifted. *)
Lemma shr_fexp_spec (mx ex : Z) (lx : location) :
  0 < mx ->
  let n := fexp 53 1024 (Zdigits2 mx + ex) - ex in
  shr_m (fst (shr_fexp 53 1024 mx ex lx)) = mx / 2 ^ Z.max 0 n
  /\ snd (shr_fexp 53 1024 mx ex lx) = ex + Z.max 0 n
  /\ (n <= 0 -> loc_of_shr_record (fst (shr_fexp 53 1024 mx ex lx)) = lx).
Proof.
  intros Hm n. unfold shr_fexp. fold n. unfold shr.
  destruct n as [|p|p] eqn:En.
  - cbn [fst snd]. rewrite shr_record_of_loc_m, loc_of_shr_record_of_loc.
    cbn. rewrite Z.div_1_r. repeat split; lia.
  - cbn [fst snd]. rewrite shr_m_iter by (rewrite shr_record_of_loc_m; lia).
    rewrite shr_record_of_loc_m. rewrite Z.max_r by lia.
    repeat split; lia.
  - cbn [fst snd]. rewrite shr_record_of_loc_m, loc_of_shr_record_of_loc.
    rewrite Z.max_l by lia. cbn. rewrite Z.div_1_r. repeat split; lia.
Qed.

(** [binary_round_aux] with its two pairs taken apart. *)
Lemma binary_round_aux_unfold (sx : bool) (mx ex : Z) (lx : location) :
  binary_round_aux 53 1024 sx mx ex lx
  = let p1 := shr_fexp 53 1024 mx ex lx in
    let p2 := shr_fexp 53 1024
                (round_nearest_even (shr_m (fst p1)) (loc_of_shr_record (fst p1)))
                (snd p1) loc_Exact in
    match shr_m (fst p2) with
    | Z0 => S754_zero sx
    | Zpos m => if snd p2 <=? 1024 - 53 then S754_finite sx m (snd p2)
                else S754_infinity sx
    | Zneg _ => S754_nan
    end.
Proof.
  unfold binary_round_aux.
  destruct (shr_fexp 53 1024 mx ex lx) as [m1 e1]. cbn [fst snd].
  destruct (shr_fexp 53 1024 _ e1 loc_Exact) as [m2 e2]. reflexivity.
Qed.

(** Rounding keeps the truncated mantissa or moves to the next one. *)
Lemma round_nearest_even_cases (m : Z) (l : location) :
  round_nearest_even m l = m \/ round_nearest_even m l = m + 1.
Proof.
  destruct l as [|[]]; cbn; auto. destruct (Z.even m); auto.
Qed.

(** The rounding step, up to one unit in the last place. *)
Lemma binary_round_aux_crude (mx ex : Z) (lx : location) :
  0 < mx -> 53 <= Zdigits2 mx ->
  -1074 <= Zdigits2 mx + ex - 53 -> Zdigits2 mx + ex <= 1023 ->
  let n := Zdigits2 mx - 53 in
  let m' := mx / 2 ^ n in
  exists m e,
    binary_round_aux 53 1024 false mx ex lx = S754_finite false m e
    /\ 2 ^ 52 <= Z.pos m < 2 ^ 53
    /\ ((Z.pos m = m' /\ e = ex + n)
        \/ (Z.pos m = m' + 1 /\ e = ex + n)
        \/ (m' + 1 = 2 ^ 53 /\ Z.pos m = 2 ^ 52 /\ e = ex + n + 1))
    /\ (lx = loc_Exact -> n = 0 -> Z.pos m = mx /\ e = ex).
Proof.
  intros Hm Hd Hlo Hhi n m'.
  pose proof (Zdigits2_bounds mx Hm) as [Hb1 Hb2].
  set (d := Zdigits2 mx) in *.
  assert (Hn : 0 <= n) by (unfold n; lia).
  assert (Hm' : 2 ^ 52 <= m' < 2 ^ 53).
  { unfold m'. replace (d - 1) with (52 + n) in Hb1 by (unfold n; lia).
    replace d with (53 + n) in Hb2 by (unfold n; lia).
    rewrite Z.pow_add_r in Hb1, Hb2 by lia.
    assert (0 < 2 ^ n) by (apply Z.pow_pos_nonneg; lia).
    split.
    - apply Z.div_le_lower_bound; lia.
    - apply Z.div_lt_upper_bound; lia. }
  rewrite binary_round_aux_unfold. cbv zeta.
  destruct (shr_fexp_spec mx ex lx Hm) as (E1 & E2 & E3).
  fold d in E1, E2, E3.
  rewrite (fexp_normal (d + ex)) in E1, E2, E3 by lia.
  replace (d + ex - 53 - ex) with n in E1, E2, E3 by (unfold n; lia).
  rewrite Z.max_r in E1, E2 by lia. fold m' in E1.
  rewrite E1, E2.
  set (l1 := loc_of_shr_record (fst (shr_fexp 53 1024 mx ex lx))) in *.
  set (m1 := round_nearest_even m' l1).
  assert (Hm1 : m1 = m' \/ m1 = m' + 1) by apply round_nearest_even_cases.
  assert (Hm1pos : 0 < m1) by lia.
  destruct (shr_fexp_spec m1 (ex + n) loc_Exact Hm1pos) as (F1 & F2 & F3).
  destruct (Z.eq_dec m1 (2 ^ 53)) as [Hbig | Hsmall].
  - (* the increment carried into a 54th digit *)
    assert (Hdig : Zdigits2 m1 = 54) by (apply Zdigits2_unique; [rewrite Hbig; cbn; lia | lia]).
    rewrite Hdig in F1, F2.
    rewrite (fexp_normal (54 + (ex + n))) in F1, F2 by (unfold n; lia).
    replace (54 + (ex + n) - 53 - (ex + n)) with 1 in F1, F2 by lia.
    rewrite F1, F2, Hbig. change (Z.max 0 1) with 1.
    change (2 ^ 53 / 2 ^ 1) with (Z.pos (2 ^ 52)).
    cbv iota beta.
    assert (Hle : (ex + n + 1 <=? 1024 - 53) = true) by (apply Z.leb_le; unfold n; lia).
    rewrite Hle.
    exists (2 ^ 52)%positive, (ex + n + 1). split; [reflexivity|].
    split; [cbn; lia|].
    split.
    + right; right. repeat split. destruct Hm1; lia.
    + intros Hlx Hn0. exfalso.
      assert (Hl1 : l1 = lx) by (apply E3; lia).
      unfold m1 in Hbig. rewrite Hl1, Hlx in Hbig. cbn in Hbig. lia.
  - assert (Hdig : Zdigits2 m1 = 53) by (apply Zdigits2_unique; lia).
    rewrite Hdig in F1, F2.
    rewrite (fexp_normal (53 + (ex + n))) in F1, F2 by (unfold n; lia).
    replace (53 + (ex + n) - 53 - (ex + n)) with 0 in F1, F2 by lia.
    rewrite F1, F2. change (Z.max 0 0) with 0.
    change (2 ^ 0) with 1. rewrite Z.div_1_r, Z.add_0_r.
    destruct m1 as [|pm|pm] eqn:Em1; try lia.
    assert (Hle : (ex + n <=? 1024 - 53) = true) by (apply Z.leb_le; unfold n; lia).
    rewrite Hle.
    exists pm, (ex + n). split; [reflexivity|].
    split; [lia|].
    split.
    + destruct Hm1 as [H|H]; [left | right; left]; split; lia.
    + intros Hlx Hn0.
      assert (Hl1 : l1 = lx) by (apply E3; lia).
      assert (Hmm : m' = mx).
      { unfold m'. rewrite Hn0. change (2 ^ 0) with 1. apply Z.div_1_r. }
      unfold m1 in Em1. rewrite Hl1, Hlx in Em1. cbn in Em1. split; lia.
Qed.

(** Appending [k] zero bits multiplies by [2^k]. *)
Lemma iter_xO (k m : positive) :
  Z.pos (Pos.iter xO m k) = Z.pos m * 2 ^ Z.pos k.
Proof.
  induction k as [|k IH] using Pos.peano_ind.
  - cbn. lia.
  - rewrite Pos.iter_succ, Pos2Z.inj_xO, IH, Pos2Z.inj_succ.
    rewrite Z.pow_succ_r by lia. lia.
Qed.

(** Integers below 2^53 are represented exactly, on 53 digits. *)
Lemma of_Z_exact (z : Z) :
  0 < z < 2 ^ 53 ->
  exists m e,
    JS.of_Z z = S754_finite false m e
    /\ 2 ^ 52 <= Z.pos m < 2 ^ 53
    /\ e = Zdigits2 z - 53
    /\ Z.pos m = z * 2 ^ (- e).
Proof.
  intros [Hz0 Hz1].
  destruct z as [|p|p]; try lia.
  pose proof (digits2_pos_bounds p) as [Hb1 Hb2].
  cbn [Zdigits2].
  set (d := Z.pos (digits2_pos p)) in *.
  assert (Hd0 : 0 < d) by (unfold d; lia).
  assert (Hd : d <= 53).
  { destruct (Z.le_gt_cases d 53) as [H|H]; [exact H|exfalso].
    assert (2 ^ 53 <= 2 ^ (d - 1)) by (apply Z.pow_le_mono_r; lia). lia. }
  unfold JS.of_Z, JS.prec, JS.emax, binary_normalize, binary_round.
  fold d. rewrite Z.add_0_r.
  rewrite (fexp_normal d) by lia.
  unfold shl_align. rewrite Z.sub_0_r.
  destruct (d - 53) as [|k|k] eqn:Ek; try lia.
  - (* 53 digits already *)
    assert (Hdig : Zdigits2 (Z.pos p) = 53) by (cbn [Zdigits2]; fold d; lia).
    destruct (binary_round_aux_crude (Z.pos p) 0 loc_Exact) as (m & e & E & Hm & _ & Hex);
      try (rewrite Hdig; lia); try lia.
    destruct Hex as [Hm' He]; [reflexivity | rewrite Hdig; lia |].
    exists m, e. split; [exact E|]. split; [exact Hm|].
    split; [lia|]. rewrite He. cbn. lia.
  - (* shifted left by 53 - d *)
    assert (Hk : Z.pos k = 53 - d) by lia.
    pose proof (iter_xO k p) as Hit.
    set (mz := Pos.iter xO p k) in *.
    assert (Hmz : 2 ^ 52 <= Z.pos mz < 2 ^ 53).
    { rewrite Hit, Hk.
      assert (0 < 2 ^ (53 - d)) by (apply Z.pow_pos_nonneg; lia).
      replace (2 ^ 52) with (2 ^ (d - 1) * 2 ^ (53 - d))
        by (rewrite <- Z.pow_add_r by lia; f_equal; lia).
      replace (2 ^ 53) with (2 ^ d * 2 ^ (53 - d))
        by (rewrite <- Z.pow_add_r by lia; f_equal; lia).
      split; [apply Z.mul_le_mono_nonneg_r | apply Z.mul_lt_mono_pos_r]; lia. }
    assert (Hdig : Zdigits2 (Z.pos mz) = 53) by (apply Zdigits2_unique; lia).
    destruct (binary_round_aux_crude (Z.pos mz) (Z.neg k) loc_Exact)
      as (m & e & E & Hm & _ & Hex);
      try (rewrite Hdig; lia); try lia.
    destruct Hex as [Hm' He]; [reflexivity | rewrite Hdig; lia |].
    exists m, e. split; [exact E|]. split; [exact Hm|].
    split; [lia|]. rewrite Hm', He, Hit.
    f_equal.
Qed.

(** Dividing two 53-digit mantissas: the dividend is shifted by 53 bits. *)
Lemma SFdiv_core_binary_53 (m1 m2 : positive) (e1 e2 : Z) :
  Zdigits2 (Z.pos m1) = 53 -> Zdigits2 (Z.pos m2) = 53 ->
  -1074 <= e1 - e2 - 53 ->
  SFdiv_core_binary 53 1024 (Z.pos m1) e1 (Z.pos m2) e2
  = (Z.pos m1 * 2 ^ 53 / Z.pos m2, e1 - e2 - 53,
     new_location (Z.pos m2) ((Z.pos m1 * 2 ^ 53) mod Z.pos m2)).
Proof.
  intros H1 H2 He. unfold SFdiv_core_binary.
  rewrite H1, H2.
  replace (53 + e1 - (53 + e2)) with (e1 - e2) by lia.
  rewrite (fexp_normal (e1 - e2)) by lia.
  rewrite Z.min_l by lia.
  replace (e1 - e2 - (e1 - e2 - 53)) with 53 by lia.
  cbv iota beta zeta.
  rewrite Z.shiftl_mul_pow2 by lia.
  unfold Z.div, Z.modulo.
  destruct (Z.div_eucl (Z.pos m1 * 2 ^ 53) (Z.pos m2)) as [q r]. reflexivity.
Qed.

Lemma pow2_pos (k : Z) : 0 <= k -> 0 < 2 ^ k.
Proof. intros. apply Z.pow_pos_nonneg; lia. Qed.

Lemma Zdigits2_small (a : Z) : 0 < a < 2 ^ 24 -> 1 <= Zdigits2 a <= 24.
Proof.
  intros Ha.
  pose proof (Zdigits2_bounds a ltac:(lia)) as [Hl Hh].
  split.
  - destruct a; cbn; lia.
  - destruct (Z.le_gt_cases (Zdigits2 a) 24) as [H|H]; [exact H|exfalso].
    assert (2 ^ 24 <= 2 ^ (Zdigits2 a - 1)) by (apply Z.pow_le_mono_r; lia).
    lia.
Qed.

(** The quotient of two integers below 2^24, within one unit in the last
    place of the result. *)
Lemma div_bound (a b : Z) :
  0 < a < 2 ^ 24 -> 0 < b < 2 ^ 24 ->
  exists mq eq,
    JS.div (JS.of_Z a) (JS.of_Z b) = S754_finite false mq eq
    /\ 2 ^ 52 <= Z.pos mq < 2 ^ 53
    /\ -76 <= eq <= -28
    /\ (Z.pos mq - 1) * b <= a * 2 ^ (- eq) <= (Z.pos mq + 1) * b.
Proof.
  intros Ha Hb.
  destruct (of_Z_exact a) as (m1 & e1 & Ea & Hm1 & He1 & Hv1); [lia|].
  destruct (of_Z_exact b) as (m2 & e2 & Eb & Hm2 & He2 & Hv2); [lia|].
  pose proof (Zdigits2_small a Ha) as Hda.
  pose proof (Zdigits2_small b Hb) as Hdb.
  assert (Hd1 : Zdigits2 (Z.pos m1) = 53) by (apply Zdigits2_unique; lia).
  assert (Hd2 : Zdigits2 (Z.pos m2) = 53) by (apply Zdigits2_unique; lia).
  unfold JS.div, JS.prec, JS.emax. rewrite Ea, Eb. cbn [SFdiv xorb].
  rewrite (SFdiv_core_binary_53 m1 m2 e1 e2 Hd1 Hd2) by lia.
  set (q := Z.pos m1 * 2 ^ 53 / Z.pos m2).
  set (e' := e1 - e2 - 53).
  set (l := new_location _ _).
  (* the integer quotient *)
  assert (Hq : q * Z.pos m2 <= Z.pos m1 * 2 ^ 53 < (q + 1) * Z.pos m2).
  { unfold q.
    pose proof (Z.div_mod (Z.pos m1 * 2 ^ 53) (Z.pos m2) ltac:(lia)) as Hdm.
    pose proof (Z.mod_pos_bound (Z.pos m1 * 2 ^ 53) (Z.pos m2) ltac:(lia)) as Hr.
    lia. }
  assert (Hqb : 2 ^ 52 <= q < 2 ^ 54).
  { unfold q. split.
    - apply Z.div_le_lower_bound; lia.
    - apply Z.div_lt_upper_bound; lia. }
  (* in terms of a and b *)
  set (E' := 2 ^ (- e')).
  assert (HE' : 0 < E') by (apply pow2_pos; unfold e'; lia).
  assert (Hab : q * b <= a * E' < (q + 1) * b).
  { assert (HA2 : 0 < 2 ^ (- e2)) by (apply pow2_pos; lia).
    assert (Hsc : E' * 2 ^ (- e2) = 2 ^ 53 * 2 ^ (- e1)).
    { unfold E'. rewrite <- !Z.pow_add_r by (unfold e'; lia).
      f_equal. unfold e'. lia. }
    rewrite Hv1, Hv2 in Hq.
    set (A1 := 2 ^ (- e1)) in *. set (A2 := 2 ^ (- e2)) in *.
    assert (Hsc' : a * (E' * A2) = a * (2 ^ 53 * A1)) by (rewrite Hsc; reflexivity).
    split.
    - apply (Z.mul_le_mono_pos_r _ _ A2); [assumption | lia].
    - apply (Z.mul_lt_mono_pos_r A2); [assumption | lia]. }
  assert (Hb0 : 0 <= b) by lia.
  assert (Hdq : Zdigits2 q = 53 \/ Zdigits2 q = 54).
  { destruct (Z.lt_ge_cases q (2 ^ 53)).
    - left. apply Zdigits2_unique; lia.
    - right. apply Zdigits2_unique; lia. }
  destruct (binary_round_aux_crude q e' l) as (mq & eq & E & Hmq & Hcases & _);
    try (unfold e'; lia).
  exists mq, eq. split; [exact E|]. split; [exact Hmq|].
  destruct Hdq as [Hdq | Hdq]; rewrite Hdq in Hcases.
  - (* no digit dropped *)
    change (53 - 53) with 0 in Hcases. change (2 ^ 0) with 1 in Hcases.
    rewrite Z.div_1_r, Z.add_0_r in Hcases.
    destruct Hcases as [[Hm He] | [[Hm He] | (Hc & Hm & He)]].
    + subst eq. split; [unfold e'; lia|]. fold E'. rewrite Hm. lia.
    + subst eq. split; [unfold e'; lia|]. fold E'. rewrite Hm. lia.
    + split; [unfold e'; lia|].
      assert (HE : E' = 2 * 2 ^ (- eq)).
      { unfold E'. rewrite <- Z.pow_succ_r by (unfold e'; lia).
        f_equal. lia. }
      rewrite HE in Hab. rewrite Hm.
      replace q with (2 ^ 53 - 1) in Hab by lia. lia.
  - (* one digit dropped *)
    change (54 - 53) with 1 in Hcases. change (2 ^ 1) with 2 in Hcases.
    pose proof (Z.div_mod q 2 ltac:(lia)) as Hdm.
    pose proof (Z.mod_pos_bound q 2 ltac:(lia)) as Hr.
    set (m' := q / 2) in *.
    assert (Hq1 : (2 * m') * b <= q * b)
      by (apply Z.mul_le_mono_nonneg_r; lia).
    assert (Hq2 : (q + 1) * b <= (2 * m' + 2) * b)
      by (apply Z.mul_le_mono_nonneg_r; lia).
    destruct Hcases as [[Hm He] | [[Hm He] | (Hc & Hm & He)]].
    + split; [unfold e'; lia|].
      assert (HE : E' = 2 * 2 ^ (- eq)).
      { unfold E'. rewrite <- Z.pow_succ_r by (unfold e'; lia).
        f_equal. lia. }
      rewrite HE in Hab. rewrite Hm. lia.
    + split; [unfold e'; lia|].
      assert (HE : E' = 2 * 2 ^ (- eq)).
      { unfold E'. rewrite <- Z.pow_succ_r by (unfold e'; lia).
        f_equal. lia. }
      rewrite HE in Hab. rewrite Hm. lia.
    + split; [unfold e'; lia|].
      assert (HE : E' = 4 * 2 ^ (- eq)).
      { unfold E'. change 4 with (2 ^ 2).
        rewrite <- Z.pow_add_r by (unfold e'; lia).
        f_equal. lia. }
      rewrite HE in Hab. rewrite Hm.
      replace m' with (2 ^ 53 - 1) in Hq1, Hq2 by lia. lia.
Qed.

(** The product of a 53-digit number with an integer below 2^24, within one
    unit in the last place of the result. *)
Lemma mul_bound (mq : positive) (eq c : Z) :
  2 ^ 52 <= Z.pos mq < 2 ^ 53 -> -76 <= eq <= -28 -> 0 < c < 2 ^ 24 ->
  exists mp ep,
    JS.mul (S754_finite false mq eq) (JS.of_Z c) = S754_finite false mp ep
    /\ 2 ^ 52 <= Z.pos mp < 2 ^ 53
    /\ -128 <= ep <= -3
    /\ (Z.pos mp - 1) * 2 ^ (- eq) <= Z.pos mq * c * 2 ^ (- ep)
       <= (Z.pos mp + 1) * 2 ^ (- eq).
Proof.
  intros Hmq Heq Hc.
  destruct (of_Z_exact c) as (m3 & e3 & Ec & Hm3 & He3 & Hv3); [lia|].
  pose proof (Zdigits2_small c Hc) as Hdc.
  unfold JS.mul, JS.prec, JS.emax. rewrite Ec. cbn [SFmul xorb].
  rewrite Pos2Z.inj_mul.
  set (P := Z.pos mq * Z.pos m3).
  assert (HP : 2 ^ 104 <= P < 2 ^ 106).
  { unfold P. change (2 ^ 104) with (2 ^ 52 * 2 ^ 52).
    change (2 ^ 106) with (2 ^ 53 * 2 ^ 53). split.
    - apply Z.mul_le_mono_nonneg; lia.
    - apply Z.mul_lt_mono_nonneg; lia. }
  set (Kq := 2 ^ (- eq)).
  set (A3 := 2 ^ (- e3)) in *.
  assert (HKq : 0 < Kq) by (apply pow2_pos; lia).
  assert (HA3 : 0 < A3) by (apply pow2_pos; lia).
  assert (Hdp : Zdigits2 P = 105 \/ Zdigits2 P = 106).
  { destruct (Z.lt_ge_cases P (2 ^ 105)).
    - left. apply Zdigits2_unique; lia.
    - right. apply Zdigits2_unique; lia. }
  destruct (binary_round_aux_crude P (eq + e3) loc_Exact)
    as (mp & ep & E & Hmp & Hcases & _); try lia.
  exists mp, ep. split; [exact E|]. split; [exact Hmp|].
  set (n := Zdigits2 P - 53) in *.
  assert (Hn : 52 <= n <= 53) by (unfold n; lia).
  assert (H2n : 0 < 2 ^ n) by (apply pow2_pos; lia).
  pose proof (Z.div_mod P (2 ^ n) ltac:(lia)) as Hdm.
  pose proof (Z.mod_pos_bound P (2 ^ n) ltac:(lia)) as Hr.
  set (m' := P / 2 ^ n) in *.
  assert (Hm' : m' * 2 ^ n <= P < (m' + 1) * 2 ^ n) by lia.
  clear Hdm Hr.
  assert (Hep : -128 <= ep <= -3) by lia.
  split; [exact Hep|].
  set (Kp := 2 ^ (- ep)).
  assert (HKp : 0 < Kp) by (apply pow2_pos; lia).
  unfold P in Hm'. rewrite Hv3 in Hm'. fold A3 in Hm'.
  destruct Hm' as [Hm1 Hm2].
  apply (Z.mul_le_mono_nonneg_r _ _ Kp ltac:(lia)) in Hm1.
  apply (proj1 (Z.mul_lt_mono_pos_r Kp _ _ HKp)) in Hm2.
  destruct Hcases as [[Hm He] | [[Hm He] | (Hcar & Hm & He)]].
  - assert (Hsc : 2 ^ n * Kp = Kq * A3).
    { unfold Kp, Kq, A3. rewrite <- !Z.pow_add_r by lia. f_equal. lia. }
    assert (G0 : m' * 2 ^ n * Kp = m' * Kq * A3)
      by (rewrite <- !Z.mul_assoc, Hsc; reflexivity).
    assert (G0' : (m' + 1) * 2 ^ n * Kp = (m' + 1) * Kq * A3)
      by (rewrite <- !Z.mul_assoc, Hsc; reflexivity).
    assert (G1 : (m' * Kq) * A3 <= (Z.pos mq * c * Kp) * A3) by lia.
    assert (G2 : (Z.pos mq * c * Kp) * A3 < ((m' + 1) * Kq) * A3) by lia.
    apply Z.mul_le_mono_pos_r in G1; [|assumption].
    apply Z.mul_lt_mono_pos_r in G2; [|assumption].
    rewrite Hm. lia.
  - assert (Hsc : 2 ^ n * Kp = Kq * A3).
    { unfold Kp, Kq, A3. rewrite <- !Z.pow_add_r by lia. f_equal. lia. }
    assert (G0 : m' * 2 ^ n * Kp = m' * Kq * A3)
      by (rewrite <- !Z.mul_assoc, Hsc; reflexivity).
    assert (G0' : (m' + 1) * 2 ^ n * Kp = (m' + 1) * Kq * A3)
      by (rewrite <- !Z.mul_assoc, Hsc; reflexivity).
    assert (G1 : (m' * Kq) * A3 <= (Z.pos mq * c * Kp) * A3) by lia.
    assert (G2 : (Z.pos mq * c * Kp) * A3 < ((m' + 1) * Kq) * A3) by lia.
    apply Z.mul_le_mono_pos_r in G1; [|assumption].
    apply Z.mul_lt_mono_pos_r in G2; [|assumption].
    rewrite Hm. lia.
  - assert (Hsc : 2 ^ n * (2 * Kp) = Kq * A3).
    { unfold Kp, Kq, A3. rewrite <- Z.pow_succ_r by lia.
      rewrite <- !Z.pow_add_r by lia. f_equal. lia. }
    assert (G0 : m' * (2 ^ n * (2 * Kp)) = m' * (Kq * A3))
      by (rewrite Hsc; reflexivity).
    assert (G0' : (m' + 1) * (2 ^ n * (2 * Kp)) = (m' + 1) * (Kq * A3))
      by (rewrite Hsc; reflexivity).
    assert (G1 : (m' * Kq) * A3 <= (2 * (Z.pos mq * c * Kp)) * A3) by lia.
    assert (G2 : (2 * (Z.pos mq * c * Kp)) * A3 < ((m' + 1) * Kq) * A3) by lia.
    apply Z.mul_le_mono_pos_r in G1; [|assumption].
    apply Z.mul_lt_mono_pos_r in G2; [|assumption].
    replace m' with (2 ^ 53 - 1) in G1, G2 by lia.
    rewrite Hm. lia.
Qed.

(** Pure arithmetic: from the two one-ulp bounds to the rounded value. *)
Lemma round_from_bounds (a b c mq mp Kq Kp : Z) :
  0 < a < 2 ^ 24 -> 0 < c < b -> b < 2 ^ 24 ->
  2 ^ 52 <= mq -> 2 ^ 52 <= mp -> 0 < Kq -> 0 < Kp ->
  (mq - 1) * b <= a * Kq <= (mq + 1) * b ->
  (mp - 1) * Kq <= mq * c * Kp <= (mp + 1) * Kq ->
  let h := (2 * mp + Kp) / (2 * Kp) in
  let R := (2 * (a * c) + b) / (2 * b) in
  R - 1 <= h <= R
  /\ ((forall k, 2 * (a * c) <> (2 * k + 1) * b) -> h = R).
Proof.
  intros Ha Hc Hb Hmq Hmp HKq HKp [D1 D2] [M1 M2] h R.
  change (2 ^ 52) with (16 * 2 ^ 48) in Hmq, Hmp.
  assert (HNT : a * c < 2 ^ 48).
  { change (2 ^ 48) with (2 ^ 24 * 2 ^ 24). apply Z.mul_lt_mono_nonneg; lia. }
  set (T := 2 ^ 48) in *.
  assert (HN : 0 < a * c) by (apply Z.mul_pos_pos; lia).
  (* the exact rounding *)
  pose proof (Z.div_mod (2 * (a * c) + b) (2 * b) ltac:(lia)) as Hdm.
  pose proof (Z.mod_pos_bound (2 * (a * c) + b) (2 * b) ltac:(lia)) as Hr.
  fold R in Hdm.
  assert (HR : b * (2 * R - 1) <= 2 * (a * c) <= b * (2 * R + 1) - 1) by lia.
  clear Hdm Hr.
  assert (HcK : 0 <= c * Kp) by (apply Z.mul_nonneg_nonneg; lia).
  assert (Hbc : 0 <= b * c) by (apply Z.mul_nonneg_nonneg; lia).
  assert (HbK : 0 < b * Kq) by (apply Z.mul_pos_pos; lia).
  assert (HKK : 0 < Kp * Kq) by (apply Z.mul_pos_pos; lia).
  (* the scale of the quotient is large *)
  assert (K1 : 4 * b * c < Kq).
  { destruct (Z.lt_ge_cases (4 * b * c) Kq) as [H|H]; [exact H|exfalso].
    pose proof (Z.mul_le_mono_nonneg_l Kq (4 * b * c) a ltac:(lia) H) as H1.
    assert (H2 : (mq - 1) * b <= (4 * (a * c)) * b) by lia.
    apply Z.mul_le_mono_pos_r in H2; lia. }
  (* the two bounds, chained *)
  assert (U : (mp - 1) * (b * Kq) <= (a * c) * (Kp * Kq) + b * c * Kp).
  { pose proof (Z.mul_le_mono_nonneg_l _ _ b ltac:(lia) M1) as U1.
    assert (U0 : mq * b <= a * Kq + b) by lia.
    pose proof (Z.mul_le_mono_nonneg_r _ _ (c * Kp) HcK U0) as U2.
    lia. }
  assert (L : (a * c) * (Kp * Kq) - b * c * Kp <= (mp + 1) * (b * Kq)).
  { pose proof (Z.mul_le_mono_nonneg_l _ _ b ltac:(lia) M2) as L1.
    assert (L0 : a * Kq - b <= mq * b) by lia.
    pose proof (Z.mul_le_mono_nonneg_r _ _ (c * Kp) HcK L0) as L2.
    lia. }
  (* the scale of the product is large *)
  assert (K2 : 4 * b <= Kp).
  { destruct (Z.le_gt_cases (4 * b) Kp) as [H|H]; [exact H|exfalso].
    assert (H0 : Kp * Kq <= 4 * b * Kq)
      by (apply Z.mul_le_mono_nonneg_r; lia).
    pose proof (Z.mul_le_mono_nonneg_l _ _ (a * c) ltac:(lia) H0) as H1.
    assert (H2 : b * c * Kp <= b * c * (4 * b))
      by (apply Z.mul_le_mono_nonneg_l; lia).
    assert (H3 : b * (4 * b * c) < b * Kq)
      by (apply Z.mul_lt_mono_pos_l; lia).
    assert (H4 : (mp - 1) * (b * Kq) < (4 * (a * c) + 1) * (b * Kq)) by lia.
    apply Z.mul_lt_mono_pos_r in H4; lia. }
  assert (S : 2 * (b * c * Kp) + 2 * (b * Kq) < Kp * Kq).
  { assert (S1 : 4 * b * c * Kp < Kq * Kp)
      by (apply Z.mul_lt_mono_pos_r; lia).
    assert (S2 : 4 * b * Kq <= Kp * Kq)
      by (apply Z.mul_le_mono_nonneg_r; lia).
    lia. }
  (* upper bound *)
  assert (Up : 2 * mp < Kp * (2 * R + 1)).
  { apply (Z.mul_lt_mono_pos_r (b * Kq)); [exact HbK|].
    pose proof (Z.mul_le_mono_nonneg_r _ _ (Kp * Kq) ltac:(lia) (proj2 HR)) as H1.
    lia. }
  (* lower bounds *)
  assert (Lo : Kp * (2 * R - 3) < 2 * mp).
  { apply (Z.mul_lt_mono_pos_r (b * Kq)); [exact HbK|].
    pose proof (Z.mul_le_mono_nonneg_r _ _ (Kp * Kq) ltac:(lia) (proj1 HR)) as H1.
    assert (H2 : 1 * (Kp * Kq) <= b * (Kp * Kq))
      by (apply Z.mul_le_mono_nonneg_r; lia).
    lia. }
  assert (Hh1 : h <= R).
  { unfold h. apply Z.lt_succ_r. apply Z.div_lt_upper_bound; lia. }
  assert (Hh0 : R - 1 <= h).
  { unfold h. apply Z.div_le_lower_bound; lia. }
  split; [lia|].
  intros Hnt.
  assert (Hne : 2 * (a * c) <> b * (2 * R - 1)).
  { intros E. apply (Hnt (R - 1)). lia. }
  assert (Lo' : Kp * (2 * R - 1) < 2 * mp).
  { apply (Z.mul_lt_mono_pos_r (b * Kq)); [exact HbK|].
    assert (H0 : b * (2 * R - 1) + 1 <= 2 * (a * c)) by lia.
    pose proof (Z.mul_le_mono_nonneg_r _ _ (Kp * Kq) ltac:(lia) H0) as H1.
    lia. }
  assert (R <= h).
  { unfold h. apply Z.div_le_lower_bound; lia. }
  lia.
Qed.

(** The script's height for natural dimensions below 2^24: the exact
    quotient [nh * w / nw] rounded half up, or one less; the former whenever
    the quotient is not halfway between two integers. *)
Lemma height_off_ties (nh nw w : Z) :
  0 < nh < 2 ^ 24 -> 0 < w < nw -> nw < 2 ^ 24 ->
  let h := JS.Math_round (JS.mul (JS.div (JS.of_Z nh) (JS.of_Z nw)) (JS.of_Z w)) in
  let R := (2 * (nh * w) + nw) / (2 * nw) in
  R - 1 <= h <= R
  /\ ((forall k, 2 * (nh * w) <> (2 * k + 1) * nw) -> h = R).
Proof.
  intros Hh Hw Hnw.
  destruct (div_bound nh nw) as (mq & eq & Eq & Hmq & Heq & Dq); [lia | lia |].
  destruct (mul_bound mq eq w) as (mp & ep & Ep & Hmp & Hep & Dp);
    [lia | lia | lia |].
  rewrite Eq, Ep. cbn [JS.Math_round].
  assert (Hneg : (0 <=? ep) = false) by (apply Z.leb_gt; lia).
  rewrite Hneg.
  replace (2 ^ (1 - ep)) with (2 * 2 ^ (- ep))
    by (rewrite <- Z.pow_succ_r by lia; f_equal; lia).
  apply (round_from_bounds nh nw w (Z.pos mq) (Z.pos mp) (2 ^ (- eq)) (2 ^ (- ep)));
    try lia; try (apply pow2_pos; lia).
Qed.

(** On non-negative quotients the two roundings of the specification agree
    with each other away from ties, and with [floor (n/d + 1/2)]. *)
Lemma round_half_away_eq (n d : Z) :
  0 <= n -> 0 < d -> Spec.round_half_away n d = (2 * n + d) / (2 * d).
Proof.
  intros Hn Hd. unfold Spec.round_half_away.
  rewrite Z.abs_eq by lia.
  destruct (Z.eq_dec n 0) as [->|Hn0].
  - change (Z.sgn 0) with 0. rewrite Z.mul_0_l.
    symmetry. apply Z.div_small. lia.
  - rewrite Z.sgn_pos by lia. lia.
Qed.

Lemma round_half_even_eq (n d : Z) :
  0 <= n -> 0 < d -> (forall k, 2 * n <> (2 * k + 1) * d) ->
  Spec.round_half_even n d = (2 * n + d) / (2 * d).
Proof.
  intros Hn Hd Hnt. unfold Spec.round_half_even.
  pose proof (Z.div_mod n d ltac:(lia)) as Hdm.
  pose proof (Z.mod_pos_bound n d Hd) as Hr.
  set (q := n / d) in *. set (r := n mod d) in *.
  destruct (Z.ltb_spec (2 * r) d) as [H1|H1].
  - apply (Z.div_unique _ _ _ (2 * r + d)); lia.
  - destruct (2 * r >? d) eqn:H2.
    + rewrite Z.gtb_ltb in H2. apply Z.ltb_lt in H2.
      apply (Z.div_unique _ _ _ (2 * r - d)); lia.
    + rewrite Z.gtb_ltb in H2. apply Z.ltb_ge in H2.
      exfalso. apply (Hnt q). lia.
Qed.

(** C1, as the claim states it, fails.  The script computes
    [(naturalH / naturalW) * targetWidth] in binary64, and the quotient is
    rounded before it is multiplied.  For a 100 x 115 image and the requested
    width 50 the exact height is 57.5, which rounds to 58 under
    round-half-away-from-zero and under round-half-to-even, but the script's
    product is 57.49999999999999 and the canvas gets height 57. *)
Lemma C1_counterexample :
  let st := Sample.with_controls "image/png" "90" "50"
              (Sample.loaded (Sample.png "tall.png") "data:tall" 100 115
                 Sample.page) in
  naturalW st = 100 /\ naturalH st = 115
  /\ requestedWidth st = Some 50
  /\ targetWidth st = 50
  /\ 2 * (naturalH st * targetWidth st) = (2 * 57 + 1) * naturalW st
  /\ Spec.round_half_away (naturalH st * targetWidth st) (naturalW st) = 58
  /\ Spec.round_half_even (naturalH st * targetWidth st) (naturalW st) = 58
  /\ JS.mul (JS.div (JS.of_Z 115) (JS.of_Z 100)) (JS.of_Z 50)
     = S754_finite false 8092405580431359 (-47)
  /\ 57 * 2 ^ 47 < 8092405580431359 < (2 * 57 + 1) * 2 ^ 46
  /\ targetHeight st = 57
  /\ height (hiddenCanvas (fst (convertBtn_click Sample.browser st))) = 57.
Proof. vm_compute. repeat split; reflexivity. Qed.

(** C1, amended.  For every page, with [nw] x [nh] the natural size the
    listener reads: the target width is the requested width when that is
    present, positive and strictly below [nw], and then the target height is
    the script's [Math.round((nh / nw) * w)] in binary64; in every other case
    (width absent, not a number, zero, negative, or at least [nw]) the target
    size is the natural size unchanged.  For natural dimensions below 2^24
    that height is round(nh * w / nw) (the same value for
    round-half-away-from-zero and round-half-to-even) whenever the exact
    quotient is not halfway between two integers, and in any case it is that
    rounded value or the integer just below it.  A conversion that passes
    both guards gives the canvas exactly the target size. *)
Theorem C1_target_size (pf : Platform) (st : State) :
  let nw := naturalW st in
  let nh := naturalH st in
  (forall w, requestedWidth st = Some w -> 0 < w < nw ->
     targetWidth st = w
     /\ targetHeight st
        = JS.Math_round (JS.mul (JS.div (JS.of_Z nh) (JS.of_Z nw)) (JS.of_Z w)))
  /\ (forall w, requestedWidth st = Some w -> 0 < w < nw ->
        0 < nh < 2 ^ 24 -> nw < 2 ^ 24 ->
        Spec.round_half_away (nh * w) nw - 1 <= targetHeight st
          <= Spec.round_half_away (nh * w) nw
        /\ ((forall k, 2 * (nh * w) <> (2 * k + 1) * nw) ->
            targetHeight st = Spec.round_half_away (nh * w) nw
            /\ targetHeight st = Spec.round_half_even (nh * w) nw))
  /\ (requestedWidth st = None
      \/ (exists w, requestedWidth st = Some w /\ (w <= 0 \/ nw <= w)) ->
      targetWidth st = nw /\ targetHeight st = nh)
  /\ (JS.parseInt (widthInput st) = None \/ JS.parseInt (widthInput st) = Some 0 ->
      requestedWidth st = None)
  /\ (forall w, JS.parseInt (widthInput st) = Some w -> w <> 0 ->
                requestedWidth st = Some w)
  /\ (currentFile st <> None \/ src (previewImg st) <> "" ->
      nw <> 0 -> nh <> 0 ->
      width (hiddenCanvas (fst (convertBtn_click pf st))) = targetWidth st
      /\ height (hiddenCanvas (fst (convertBtn_click pf st))) = targetHeight st).
Proof.
  cbv zeta.
  destruct (target_size_cases (requestedWidth st) (naturalW st) (naturalH st))
    as (T1 & T2 & T3).
  split.
  { intros w Hw Hr. unfold targetWidth, targetHeight.
    rewrite (T1 w Hw Hr). split; reflexivity. }
  split.
  { intros w Hw Hr Hh Hn. unfold targetHeight.
    rewrite (T1 w Hw Hr). cbn [snd].
    assert (Hp : 0 <= naturalH st * w) by (apply Z.mul_nonneg_nonneg; lia).
    destruct (height_off_ties (naturalH st) (naturalW st) w Hh Hr Hn)
      as (Hb & He).
    rewrite round_half_away_eq by lia.
    split; [exact Hb|].
    intros Hnt. rewrite round_half_even_eq by (assumption || lia).
    split; apply He; exact Hnt. }
  split.
  { unfold targetWidth, targetHeight.
    intros [Hn | (w & Hw & Hr)].
    - rewrite (T3 Hn). split; reflexivity.
    - rewrite (T2 w Hw Hr). split; reflexivity. }
  destruct (requestedWidth_cases st) as (R1 & R2 & R3).
  split.
  { intros [H|H]; [apply R1 | apply R2]; exact H. }
  split; [exact R3|].
  apply click_resizes.
Qed.

Lemma C1_target_size_witness :
  let st := Sample.with_controls "image/webp" "80" "400"
              (Sample.loaded (Sample.png "cat.png") "data:cat" 800 600
                 Sample.page) in
  targetWidth st = 400 /\ targetHeight st = 300.
Proof.
  cbv zeta.
  pose (st := Sample.with_controls "image/webp" "80" "400"
                (Sample.loaded (Sample.png "cat.png") "data:cat" 800 600
                   Sample.page)).
  assert (Hw : requestedWidth st = Some 400) by reflexivity.
  assert (Hr : 0 < 400 < naturalW st) by (cbn; lia).
  assert (Hh : 0 < naturalH st < 2 ^ 24) by (cbn; lia).
  assert (Hn : naturalW st < 2 ^ 24) by (cbn; lia).
  split.
  - exact (proj1 (proj1 (C1_target_size Sample.browser st) 400 Hw Hr)).
  - assert (Hnt : forall k, 2 * (naturalH st * 400) <> (2 * k + 1) * naturalW st).
    { intros k. change (naturalH st) with 600. change (naturalW st) with 800.
      lia. }
    exact (proj1 (proj2 (proj1 (proj2 (C1_target_size Sample.browser st))
                           400 Hw Hr Hh Hn) Hnt)).
Defined.

(** C10.  The natural size 1000 x 1 with the valid requested width 400
    resolves to height 0: the script rounds 0.4 to 0 and gives the canvas
    that height, so the formula does not keep the output height positive. *)
Theorem C10_zero_height :
  exists st : State,
    naturalW st = 1000 /\ naturalH st = 1
    /\ requestedWidth st = Some 400
    /\ 0 < 400 < naturalW st
    /\ targetWidth st = 400
    /\ targetHeight st = 0
    /\ height (hiddenCanvas (fst (convertBtn_click Sample.browser st))) = 0.
Proof.
  exists (Sample.with_controls "image/png" "90" "400"
            (Sample.loaded (Sample.png "line.png") "data:line" 1000 1
               Sample.page)).
  vm_compute. repeat split; reflexivity.
Qed.

(** ** Failed loads (lines 59-74) *)

(** A file whose declared type is not an image type changes nothing but
    the status line. *)
Lemma loadFile_invalid_kind (file : File) (st : State) :
  String.prefix "image/" (type file) = false ->
  loadFile file st = showMessage "Please upload a valid image file." true st
  /\ currentFile (loadFile file st) = currentFile st
  /\ previewImg (loadFile file st) = previewImg st
  /\ previewImg_onload (loadFile file st) = previewImg_onload st
  /\ calls (loadFile file st) = calls st.
Proof.
  intros H. unfold loadFile. rewrite H. repeat split.
Qed.

(** A file of an image type becomes the current file before it is read,
    and a failed read does not undo that; the preview is left alone. *)
Lemma read_failure_state (file : File) (st : State) :
  String.prefix "image/" (type file) = true ->
  currentFile (reader_onerror (loadFile file st)) = Some file
  /\ previewImg (reader_onerror (loadFile file st)) = previewImg st
  /\ message (reader_onerror (loadFile file st))
     = {| textContent := "Failed to read file."; color := "#ef4444" |}.
Proof.
  intros H. unfold loadFile. rewrite H. repeat split.
Qed.

(** C3.  The claim holds for a file of the wrong kind
    ([loadFile_invalid_kind]) and, on a read failure, for the preview; it
    fails for the current file.  With [dog.png] loaded and shown, choosing
    [cat.png] and failing to read it leaves the preview on the dog but makes
    [cat.png] the current file, so the next conversion encodes the dog's
    pixels and downloads them as [cat.png]. *)
Theorem C3_read_failure_replaces_file :
  let dog := Sample.png "dog.png" in
  let cat := Sample.png "cat.png" in
  let st := Sample.loaded dog "data:dog" 640 480 Sample.page in
  let st' := reader_onerror (loadFile cat st) in
  let c := {| outType := "image/png"; quality := 90 |} in
  let blob := {| size := 4096; blob_type := "image/png" |} in
  String.prefix "image/" (type cat) = true
  /\ currentFile st = Some dog
  /\ textContent (message st') = "Failed to read file."
  /\ previewImg st' = previewImg st
  /\ currentFile st' = Some cat
  /\ currentFile st' <> currentFile st
  /\ convertBtn_click Sample.browser st'
     = (showMessage "Processing..." false
          (log (toBlob "image/png" (blobQuality 90))
             (set_hiddenCanvas
                {| width := 640; height := 480;
                   bitmap := Painted "data:dog" 640 480 |} st')),
        Encoding c)
  /\ downloads (toBlob_callback c (Some blob)
                  (fst (convertBtn_click Sample.browser st')))
     = [download "cat.png" blob].
Proof.
  vm_compute. repeat split; try reflexivity. discriminate.
Qed.

(** * Further properties of the script *)

(** ** What a conversion leaves alone *)

Lemma same_loaded_refl (st : State) : same_loaded st st.
Proof. repeat split. Qed.

Lemma same_loaded_trans (a b c : State) :
  same_loaded a b -> same_loaded b c -> same_loaded a c.
Proof.
  unfold same_loaded. intros H1 H2.
  repeat match goal with H : _ /\ _ |- _ => destruct H end.
  repeat split; congruence.
Qed.

Lemma drawImage_frame (pf : Platform) (c : Closure) (st : State) :
  same_loaded st (fst (drawImage pf c st))
  /\ previewImg (fst (drawImage pf c st)) = previewImg st.
Proof.
  unfold drawImage.
  destruct (drawImage_on pf _ _); [|repeat split].
  destruct (has_toBlob pf); [repeat split|].
  cbn [set_hiddenCanvas log hiddenCanvas].
  destruct (canvas_toDataURL pf _ _ _) as [d|m]; [|repeat split].
  destruct (dataURLtoBlob pf d); repeat split.
Qed.

Lemma click_frame (pf : Platform) (st : State) :
  same_loaded st (fst (convertBtn_click pf st))
  /\ previewImg (fst (convertBtn_click pf st)) = previewImg st.
Proof.
  unfold convertBtn_click.
  destruct (_ && negb (JS.truthy (src (previewImg st)))); [repeat split|].
  destruct ((naturalW st =? 0) || (naturalH st =? 0)); [repeat split|].
  set (st1 := set_hiddenCanvas _ st).
  destruct (complete (previewImg st1) && _).
  - destruct (drawImage_frame pf (closure_of st) st1) as [H1 H2].
    destruct (drawImage pf (closure_of st) st1) as [st2 p].
    cbn [fst] in *. split.
    + apply (same_loaded_trans st st2); [exact H1 | repeat split].
    + exact H2.
  - destruct (if JS.truthy (src (previewImg st1)) then _ else _);
      repeat split.
Qed.



(** ** The page as a whole *)

Lemma loadFile_keeps (file : File) (st : State) :
  imgElement (loadFile file st) = imgElement st
  /\ formatSelect (loadFile file st) = formatSelect st
  /\ qualityInput (loadFile file st) = qualityInput st
  /\ widthInput (loadFile file st) = widthInput st
  /\ (exists l, calls (loadFile file st) = (l ++ calls st)%list)
  /\ (image_typed (currentFile st) -> image_typed (currentFile (loadFile file st))).
Proof.
  unfold loadFile.
  destruct (String.prefix "image/" (type file)) eqn:E; cbn [negb].
  - repeat split; [exists [readAsDataURL file]; reflexivity | intros _; exact E].
  - repeat split; [exists []; reflexivity | intros H; exact H].
Qed.

Lemma drawImage_log (pf : Platform) (c : Closure) (st : State) :
  exists l, calls (fst (drawImage pf c st)) = (l ++ calls st)%list.
Proof.
  unfold drawImage.
  destruct (drawImage_on pf _ _); [|exists []; reflexivity].
  destruct (has_toBlob pf); [eexists [_]; reflexivity|].
  cbn [set_hiddenCanvas log hiddenCanvas].
  destruct (canvas_toDataURL pf _ _ _) as [d|m]; [|eexists [_]; reflexivity].
  destruct (dataURLtoBlob pf d);
    [eexists [_; _]; reflexivity | eexists [_]; reflexivity].
Qed.

Lemma click_log (pf : Platform) (st : State) :
  exists l, calls (fst (convertBtn_click pf st)) = (l ++ calls st)%list.
Proof.
  unfold convertBtn_click.
  destruct (_ && negb (JS.truthy (src (previewImg st)))); [exists []; reflexivity|].
  destruct ((naturalW st =? 0) || (naturalH st =? 0)); [exists []; reflexivity|].
  set (st1 := set_hiddenCanvas _ st).
  destruct (complete (previewImg st1) && _).
  - destruct (drawImage_log pf (closure_of st) st1) as [l Hl].
    destruct (drawImage pf (closure_of st) st1) as [st2 p].
    exists l. exact Hl.
  - destruct (if JS.truthy (src (previewImg st1)) then _ else _);
      [eexists [_]; reflexivity | exists []; reflexivity].
Qed.

(** What one event keeps. *)
Lemma handle_keeps (pf : Platform) (ev : Event) (st : State) :
  imgElement (handle pf ev st) = imgElement st
  /\ formatSelect (handle pf ev st) = formatSelect st
  /\ qualityInput (handle pf ev st) = qualityInput st
  /\ (widthInput (handle pf ev st) = widthInput st
      \/ widthInput (handle pf ev st) = "")
  /\ (exists l, calls (handle pf ev st) = (l ++ calls st)%list)
  /\ (image_typed (currentFile st) -> image_typed (currentFile (handle pf ev st))).
Proof.
  destruct ev as [files | files | | | file result | | w h | c u | | c blob];
    cbn [handle].
  - destruct files as [|f files]; cbn [imageInput_change].
    + repeat split; [left; reflexivity | exists []; reflexivity | tauto].
    + destruct (loadFile_keeps f st) as (A & B & C & D & E & F).
      repeat split; auto.
  - destruct files as [|f files]; cbn [dropZone_drop].
    + repeat split; [left; reflexivity | exists []; reflexivity | tauto].
    + destruct (loadFile_keeps f st) as (A & B & C & D & E & F).
      repeat split; auto.
  - repeat split; [right; reflexivity | exists []; reflexivity].
  - destruct (click_frame pf st) as [(A & B & C & D & E & F & G) _].
    repeat split; auto; [apply click_log | rewrite A; tauto].
  - repeat split; [left; reflexivity | exists []; reflexivity | tauto].
  - repeat split; [left; reflexivity | exists []; reflexivity | tauto].
  - unfold previewImg_loaded. cbn [set_previewImg previewImg_onload].
    destruct (previewImg_onload st);
      (repeat split; [left; reflexivity | exists []; reflexivity | tauto]).
  - unfold temp_onload.
    set (s1 := set_previewImg (set_src pf (reflect_URL pf u) (previewImg st)) st).
    destruct (drawImage_frame pf c s1) as [(A & B & C & D & E & F & G) _].
    destruct (drawImage_log pf c s1) as [l Hl].
    repeat split; auto; [exists l; exact Hl | rewrite A; tauto].
  - repeat split; [left; reflexivity | exists []; reflexivity | tauto].
  - destruct blob as [b|]; cbn [toBlob_callback].
    + repeat split; [left; reflexivity | eexists [_]; reflexivity | tauto].
    + repeat split; [left; reflexivity | exists []; reflexivity | tauto].
Qed.

(** X16.  Whatever listeners and callbacks run, in any order and with any
    closures: the hidden [imgElement] is never touched, so the size the
    convert listener reads stays the preview's; the format and quality
    fields are never written; the width field is only ever cleared; the log
    of browser calls only grows; and a current file, when there is one,
    always has a media type starting with ["image/"]. *)
Theorem page_invariants (pf : Platform) (evs : list Event) (st : State) :
  imgElement (run pf evs st) = imgElement st
  /\ formatSelect (run pf evs st) = formatSelect st
  /\ qualityInput (run pf evs st) = qualityInput st
  /\ (widthInput (run pf evs st) = widthInput st
      \/ widthInput (run pf evs st) = "")
  /\ (exists l, calls (run pf evs st) = (l ++ calls st)%list)
  /\ (image_typed (currentFile st) -> image_typed (currentFile (run pf evs st)))
  /\ (naturalWidth (imgElement st) = 0 -> naturalHeight (imgElement st) = 0 ->
      naturalW (run pf evs st) = naturalWidth (previewImg (run pf evs st))
      /\ naturalH (run pf evs st) = naturalHeight (previewImg (run pf evs st))).
Proof.
  assert (H : imgElement (run pf evs st) = imgElement st
    /\ formatSelect (run pf evs st) = formatSelect st
    /\ qualityInput (run pf evs st) = qualityInput st
    /\ (widthInput (run pf evs st) = widthInput st
        \/ widthInput (run pf evs st) = "")
    /\ (exists l, calls (run pf evs st) = (l ++ calls st)%list)
    /\ (image_typed (currentFile st) -> image_typed (currentFile (run pf evs st)))).
  { revert st. induction evs as [|ev evs IH]; intros st.
    - cbn. repeat split; [left; reflexivity | exists []; reflexivity | tauto].
    - change (run pf (ev :: evs) st) with (run pf evs (handle pf ev st)).
      destruct (IH (handle pf ev st)) as (A & B & C & D & (l & E) & F).
      destruct (handle_keeps pf ev st) as (A' & B' & C' & D' & (l' & E') & F').
      repeat split; try congruence.
      + destruct D as [D|D]; [|right; exact D].
        destruct D' as [D'|D']; [left | right]; congruence.
      + exists (l ++ l')%list. rewrite E, E'. apply app_assoc.
      + intros H. apply F, F', H. }
  destruct H as (A & B & C & D & E & F).
  repeat split; try assumption.
  - apply naturalW_preview. rewrite A. assumption.
  - apply naturalH_preview. rewrite A. assumption.
Qed.

Lemma page_invariants_witness :
  let evs := [input_change [Sample.png "cat.png"];
              reader_load (Sample.png "cat.png") "data:cat";
              preview_load 800 600; convert_click] in
  image_typed (currentFile (run Sample.browser evs Sample.page))
  /\ naturalW (run Sample.browser evs Sample.page) = 800.
Proof.
  cbv zeta. split.
  - apply (proj1 (proj2 (proj2 (proj2 (proj2 (proj2
             (page_invariants Sample.browser _ Sample.page))))))).
    exact I.
  - exact (proj1 (proj2 (proj2 (proj2 (proj2 (proj2 (proj2
             (page_invariants Sample.browser
                [input_change [Sample.png "cat.png"];
                 reader_load (Sample.png "cat.png") "data:cat";
                 preview_load 800 600; convert_click]
                Sample.page)))))) eq_refl eq_refl)).
Defined.

(** A click on a page whose image has no size only writes an error. *)
Lemma click_no_size (pf : Platform) (st : State) :
  naturalW st = 0 \/ naturalH st = 0 ->
  exists m, convertBtn_click pf st = (showMessage m true st, Settled).
Proof.
  intros Hdim.
  assert (Hz : (naturalW st =? 0) || (naturalH st =? 0) = true).
  { apply orb_true_iff. destruct Hdim as [H|H]; [left|right];
      now apply Z.eqb_eq. }
  unfold convertBtn_click. rewrite Hz.
  destruct (_ && negb (JS.truthy (src (previewImg st)))); eexists; reflexivity.
Qed.

Lemma naturalW_zero (st : State) :
  naturalW st = 0 <->
  naturalWidth (previewImg st) = 0 /\ naturalWidth (imgElement st) = 0.
Proof.
  unfold naturalW.
  destruct (Z.eqb_spec (naturalWidth (previewImg st)) 0) as [E|E].
  - split; [intros H; split; assumption | intros [_ H]; exact H].
  - split; [intros H; contradiction | intros [H _]; contradiction].
Qed.

(** One idle event on a page without a decoded image. *)
Lemma idle_step (pf : Platform) (ev : Event) (st : State) :
  idle ev = true -> naturalW st = 0 ->
  (forall i, fst (snd (update_image_data pf "" i)) = 0) ->
  naturalW (handle pf ev st) = 0
  /\ hiddenCanvas (handle pf ev st) = hiddenCanvas st
  /\ calls (handle pf ev st) = calls st
  /\ (currentFile st = None -> currentFile (handle pf ev st) = None)
  /\ (src (previewImg (handle pf ev st)) = src (previewImg st)
      \/ src (previewImg (handle pf ev st)) = reflect_URL pf "").
Proof.
  intros Hev Hw Hpf.
  destruct ev as [files | files | | | file result | | w h | c u | | c blob];
    cbn [idle] in Hev; try discriminate; cbn [handle].
  - destruct files as [|f files]; cbn [imageInput_change rejected] in *.
    + repeat split; auto.
    + unfold loadFile. rewrite Hev. repeat split; auto.
  - destruct files as [|f files]; cbn [dropZone_drop rejected] in *.
    + repeat split; auto.
    + unfold loadFile. rewrite Hev. repeat split; auto.
  - apply naturalW_zero in Hw. destruct Hw as [_ Hi].
    split; [|repeat split; right; reflexivity].
    apply naturalW_zero. split; [apply Hpf | exact Hi].
  - destruct (click_no_size pf st (or_introl Hw)) as [m ->].
    repeat split; auto.
  - repeat split; auto.
  - repeat split; auto.
Qed.

(** X1.  While the page holds no decoded image (the natural width the
    listener reads is 0: at the start, or after a reset), no sequence of
    convert clicks, resets, empty or rejected selections and error callbacks
    makes the script touch the canvas or call the browser, in a browser that
    reports no width for an image whose source is empty: the width stays 0,
    the canvas and the call log are as they were, and a page without a
    current file stays without one.  The preview's [src] is as before or
    reads as the empty string resolved against the document, which a reset
    leaves there; once it is not empty (or a file is current) every click is
    answered by the not-ready error, and otherwise by the request to choose
    an image. *)
Theorem idle_page_stays_idle (pf : Platform) (evs : list Event) (st : State) :
  forallb idle evs = true ->
  naturalW st = 0 ->
  (forall i, fst (snd (update_image_data pf "" i)) = 0) ->
  let st' := run pf evs st in
  naturalW st' = 0
  /\ hiddenCanvas st' = hiddenCanvas st
  /\ calls st' = calls st
  /\ (currentFile st = None -> currentFile st' = None)
  /\ (src (previewImg st') = src (previewImg st)
      \/ src (previewImg st') = reflect_URL pf "")
  /\ (currentFile st' <> None \/ src (previewImg st') <> "" ->
      convertBtn_click pf st'
      = (showMessage "Image not ready yet. Wait a moment and try again." true st',
         Settled))
  /\ (currentFile st' = None -> src (previewImg st') = "" ->
      convertBtn_click pf st'
      = (showMessage "Choose or drop an image first." true st', Settled)).
Proof.
  intros Hidle Hw Hpf. cbv zeta.
  assert (K : naturalW (run pf evs st) = 0
              /\ hiddenCanvas (run pf evs st) = hiddenCanvas st
              /\ calls (run pf evs st) = calls st
              /\ (currentFile st = None -> currentFile (run pf evs st) = None)
              /\ (src (previewImg (run pf evs st)) = src (previewImg st)
                  \/ src (previewImg (run pf evs st)) = reflect_URL pf "")).
  { revert st Hidle Hw. induction evs as [|ev evs IH]; intros st Hidle Hw.
    - cbn. repeat split; auto.
    - cbn [forallb] in Hidle. apply andb_true_iff in Hidle.
      destruct Hidle as [Hev Hidle].
      change (run pf (ev :: evs) st) with (run pf evs (handle pf ev st)).
      destruct (idle_step pf ev st Hev Hw Hpf) as (K1 & K2 & K3 & K4 & K5).
      destruct (IH (handle pf ev st) Hidle K1) as (A & B & C & D & E).
      repeat split; try congruence.
      + intros Hf. apply D, K4, Hf.
      + destruct E as [E|E]; [|right; exact E].
        destruct K5 as [K5|K5]; [left | right]; congruence. }
  destruct K as (K1 & K2 & K3 & K4 & K5).
  set (st' := run pf evs st) in *.
  repeat split; try assumption.
  - intros Hsrc. unfold convertBtn_click. rewrite K1. cbn [Z.eqb orb].
    assert (G : match currentFile st' with None => true | Some _ => false end
                && negb (JS.truthy (src (previewImg st'))) = false).
    { destruct Hsrc as [Hf|Hs].
      - destruct (currentFile st'); [reflexivity | contradiction].
      - destruct (src (previewImg st')); [contradiction|].
        apply andb_false_r. }
    rewrite G. reflexivity.
  - intros Hf Hs. unfold convertBtn_click. rewrite Hf, Hs. reflexivity.
Qed.

Lemma idle_page_stays_idle_witness :
  let st := resetBtn_click Sample.browser
              (Sample.loaded (Sample.png "cat.png") "data:cat" 800 600
                 Sample.page) in
  let evs := [convert_click;
              input_change [{| type := "text/plain"; name := "notes.txt" |}];
              reset_click] in
  calls (run Sample.browser evs st) = calls st
  /\ textContent
       (message (fst (convertBtn_click Sample.browser (run Sample.browser evs st))))
     = "Image not ready yet. Wait a moment and try again.".
Proof.
  cbv zeta.
  set (st := resetBtn_click Sample.browser
               (Sample.loaded (Sample.png "cat.png") "data:cat" 800 600
                  Sample.page)).
  set (evs := [convert_click;
               input_change [{| type := "text/plain"; name := "notes.txt" |}];
               reset_click]).
  pose proof (idle_page_stays_idle Sample.browser evs st
                eq_refl eq_refl ltac:(reflexivity)) as H.
  cbv zeta in H. destruct H as (_ & _ & H3 & _ & _ & H6 & _).
  split; [exact H3|].
  assert (Hs : src (previewImg (run Sample.browser evs st)) <> "")
    by (vm_compute; discriminate).
  rewrite (H6 (or_intror Hs)). reflexivity.
Defined.

(** ** Status line of a synchronous draw *)

Lemma synchronous_message_overwritten_witness :
  let throwing :=
    {| drawImage_on := fun _ _ => Throw "InvalidStateError";
       has_toBlob := true;
       canvas_toDataURL := canvas_toDataURL Sample.browser;
       atob := atob Sample.browser;
       null_index := null_index Sample.browser;
       createObjectURL := createObjectURL Sample.browser;
       reflect_URL := reflect_URL Sample.browser;
       update_image_data := update_image_data Sample.browser |} in
  let st := Sample.loaded (Sample.png "cat.png") "data:cat" 800 600 Sample.page in
  drawImage throwing (closure_of st) st
  = (showMessage "Error drawing image to canvas: InvalidStateError" true st,
     Settled)
  /\ message (fst (convertBtn_click throwing st))
     = {| textContent := "Processing..."; color := "" |}.
Proof.
  cbv zeta. split; [reflexivity|].
  apply synchronous_message_overwritten;
    [left; discriminate | discriminate | discriminate | reflexivity
    | discriminate].
Defined.

(** ** Loads and conversions that overlap *)

(** X10.  Two files of an image type chosen one after the other, whose
    reads finish in the opposite order: the current file is the second one,
    but the preview shows the first (its read finished last; [src] reads as
    the first file's data URL), and the [onload] handler left on the preview
    reports the first file's name.  A download made from this page carries
    the second file's name. *)
Theorem reads_finish_out_of_order
    (pf : Platform) (a b : File) (ra rb : string) (st : State) :
  String.prefix "image/" (type a) = true ->
  String.prefix "image/" (type b) = true ->
  let st' := reader_onload pf a ra
               (reader_onload pf b rb (loadFile b (loadFile a st))) in
  currentFile st' = Some b
  /\ src (previewImg st') = reflect_URL pf ra
  /\ previewImg st' = set_src pf ra (set_src pf rb (previewImg st))
  /\ previewImg_onload st' = Some a
  /\ (forall w h,
        textContent (message (previewImg_loaded w h st'))
        = "Loaded: " ++ name a ++ " — " ++ JS.toString w ++ "×" ++ JS.toString h)
  /\ (forall outType, outName outType (currentFile st') = outName outType (Some b)).
Proof.
  intros Ha Hb. cbv zeta. unfold loadFile. rewrite Ha, Hb.
  repeat split.
Qed.

Lemma reads_finish_out_of_order_witness :
  let st' := reader_onload Sample.browser (Sample.png "a.png") "data:a"
               (reader_onload Sample.browser (Sample.png "b.png") "data:b"
                  (loadFile (Sample.png "b.png")
                     (loadFile (Sample.png "a.png") Sample.page))) in
  currentFile st' = Some (Sample.png "b.png") /\ src (previewImg st') = "data:a".
Proof.
  cbv zeta.
  destruct (reads_finish_out_of_order Sample.browser
              (Sample.png "a.png") (Sample.png "b.png")
              "data:a" "data:b" Sample.page eq_refl eq_refl)
    as (H1 & H2 & _).
  split; [exact H1 | exact H2].
Defined.

(** X11.  The download is named after the current file at the moment the
    blob arrives, not at the click: when the page is reset while the encoder
    works, the file is called ["converted-image"] plus the extension; when
    another file of an image type is chosen meanwhile, the download takes
    that file's name, whether or not its read ever finishes. *)
Theorem download_named_on_arrival
    (pf : Platform) (c : Closure) (blob : Blob) (st : State) :
  calls (toBlob_callback c (Some blob) (resetBtn_click pf st))
  = download ("converted-image" ++ "." ++ mimeToExt (outType c)) blob :: calls st
  /\ (forall file,
        String.prefix "image/" (type file) = true ->
        downloads (toBlob_callback c (Some blob) (loadFile file st))
        = download (outName (outType c) (Some file)) blob :: downloads st
        /\ downloads (toBlob_callback c (Some blob)
                        (reader_onerror (loadFile file st)))
           = download (outName (outType c) (Some file)) blob :: downloads st).
Proof.
  split; [reflexivity|].
  intros file Hf. unfold loadFile. rewrite Hf. split; reflexivity.
Qed.

Lemma download_named_on_arrival_witness :
  let st := Sample.loaded (Sample.png "dog.png") "data:dog" 640 480 Sample.page in
  let c := {| outType := "image/webp"; quality := 90 |} in
  let blob := {| size := 10; blob_type := "image/webp" |} in
  downloads (toBlob_callback c (Some blob) (loadFile (Sample.png "cat.png") st))
  = [download "cat.webp" blob].
Proof.
  cbv zeta.
  exact (proj1 (proj2 (download_named_on_arrival Sample.browser
                         {| outType := "image/webp"; quality := 90 |}
                         {| size := 10; blob_type := "image/webp" |}
                         (Sample.loaded (Sample.png "dog.png") "data:dog"
                            640 480 Sample.page))
                  (Sample.png "cat.png") eq_refl)).
Defined.

Lemma click_temp_source (pf : Platform) (st : State) (c : Closure) (u : string) :
  snd (convertBtn_click pf st) = TempLoading c u ->
  (src (previewImg st) <> "" /\ u = src (previewImg st))
  \/ (src (previewImg st) = ""
      /\ exists f, currentFile st = Some f /\ u = createObjectURL pf f).
Proof.
  unfold convertBtn_click.
  destruct (_ && negb (JS.truthy (src (previewImg st)))); [discriminate|].
  destruct ((naturalW st =? 0) || (naturalH st =? 0)); [discriminate|].
  set (st1 := set_hiddenCanvas _ st).
  destruct (complete (previewImg st1) && _).
  - pose proof (drawImage_rank pf (closure_of st) st1) as Hr.
    destruct (drawImage pf (closure_of st) st1) as [st2 p].
    cbn [fst snd] in *. intros E. rewrite E in Hr. cbn in Hr. lia.
  - change (previewImg st1) with (previewImg st).
    change (currentFile st1) with (currentFile st).
    destruct (src (previewImg st)) as [|ch rest] eqn:Es; cbn [JS.truthy].
    + destruct (currentFile st) as [f|]; cbn [option_map]; [|discriminate].
      intros E. injection E as _ <-. right. split; [reflexivity|].
      exists f. split; reflexivity.
    + intros E. injection E as _ <-. left. split; [discriminate | reflexivity].
Qed.

(** X12.  The auxiliary image of a conversion is loaded from the preview
    source read at the click (or from an object URL of the current file when
    the preview has none), and when it has loaded the preview's [src] is
    assigned what [temp.src] reads, whatever the preview shows by then: a
    file that was read in between is put aside again.  That is the URL of
    the click itself whenever it reads back unchanged, as an absolute URL
    does; in general it is that URL resolved twice. *)
Theorem auxiliary_load_restores_source
    (pf : Platform) (st : State) (c : Closure) (u : string) :
  snd (convertBtn_click pf st) = TempLoading c u ->
  ((src (previewImg st) <> "" /\ u = src (previewImg st))
   \/ (src (previewImg st) = ""
       /\ exists f, currentFile st = Some f /\ u = createObjectURL pf f))
  /\ In (newImage u) (calls (fst (convertBtn_click pf st)))
  /\ (forall st',
        src (previewImg (fst (temp_onload pf c u st')))
        = reflect_URL pf (reflect_URL pf u))
  /\ (forall file result st',
        src (previewImg (fst (temp_onload pf c u
                                (reader_onload pf file result st'))))
        = reflect_URL pf (reflect_URL pf u))
  /\ (reflect_URL pf u = u ->
      forall file result st',
        src (previewImg (fst (temp_onload pf c u st'))) = u
        /\ src (previewImg (fst (temp_onload pf c u
                                   (reader_onload pf file result st'))))
           = u).
Proof.
  intros E.
  split; [apply (click_temp_source pf st c u E)|].
  assert (F : forall s, src (previewImg (fst (temp_onload pf c u s)))
                        = reflect_URL pf (reflect_URL pf u)).
  { intros s. unfold temp_onload.
    destruct (drawImage_frame pf c
                (set_previewImg (set_src pf (reflect_URL pf u) (previewImg s)) s))
      as [_ F]. rewrite F. reflexivity. }
  split; [|split; [exact F | split; [intros; apply F|]]].
  2:{ intros Hu file result st'. rewrite !F, !Hu. split; reflexivity. }
  revert E. unfold convertBtn_click.
  destruct (_ && negb (JS.truthy (src (previewImg st)))); [discriminate|].
  destruct ((naturalW st =? 0) || (naturalH st =? 0)); [discriminate|].
  set (st1 := set_hiddenCanvas _ st).
  destruct (complete (previewImg st1) && _).
  - pose proof (drawImage_rank pf (closure_of st) st1) as Hr.
    destruct (drawImage pf (closure_of st) st1) as [st2 p].
    cbn [fst snd] in *. intros E. rewrite E in Hr. cbn in Hr. lia.
  - destruct (if JS.truthy (src (previewImg st1)) then _ else _);
      [|discriminate].
    intros E. injection E as _ <-. left. reflexivity.
Qed.

Lemma auxiliary_load_restores_source_witness :
  src (previewImg
         (fst (temp_onload Sample.browser (closure_of Sample.reloading)
                 "data:cat"
                 (reader_onload Sample.browser (Sample.png "bird.png")
                    "data:bird" Sample.reloading))))
  = "data:cat".
Proof.
  exact (proj2 (proj2 (proj2 (proj2 (proj2
           (auxiliary_load_restores_source Sample.browser Sample.reloading
              (closure_of Sample.reloading) "data:cat" eq_refl))))
           eq_refl (Sample.png "bird.png") "data:bird" Sample.reloading)).
Defined.

(** ** Downloads of one conversion *)

Lemma drawImage_downloads (pf : Platform) (c : Closure) (st : State) :
  exists l,
    downloads (fst (drawImage pf c st)) = (l ++ downloads st)%list
    /\ (List.length l + rank (snd (drawImage pf c st)) <= 1)%nat.
Proof.
  unfold drawImage.
  destruct (drawImage_on pf _ _); [|exists []; split; [reflexivity | cbn; lia]].
  destruct (has_toBlob pf); [exists []; split; [reflexivity | cbn; lia]|].
  cbn [set_hiddenCanvas log hiddenCanvas].
  destruct (canvas_toDataURL pf _ _ _) as [d|m];
    [|exists []; split; [reflexivity | cbn; lia]].
  destruct (dataURLtoBlob pf d);
    [eexists [_] | exists []]; (split; [reflexivity | cbn; lia]).
Qed.

Lemma fires_downloads (pf : Platform) (p : Pending) (s s' : State) (p' : Pending) :
  fires pf p s s' p' ->
  exists l,
    downloads s' = (l ++ downloads s)%list
    /\ (List.length l + rank p' <= 1)%nat
    /\ (1 <= rank p)%nat.
Proof.
  intros H. destruct H as [c u s | c u s | c blob s].
  - unfold temp_onload.
    destruct (drawImage_downloads pf c
                (set_previewImg (set_src pf (reflect_URL pf u) (previewImg s)) s))
      as (l & Hl & Hr).
    exists l. split; [exact Hl|]. split; [exact Hr | cbn; lia].
  - exists []. repeat split; cbn; lia.
  - destruct blob; [eexists [_] | exists []]; repeat split; cbn; lia.
Qed.

Lemma new_downloads_app (s s' : State) (l : list Call) :
  downloads s' = (l ++ downloads s)%list -> new_downloads s s' = List.length l.
Proof.
  intros H. unfold new_downloads. rewrite H, length_app. lia.
Qed.

Lemma delivers_bound (pf : Platform) (p : Pending) (d : nat) :
  delivers pf p d -> (d <= 1)%nat /\ (rank p = 0%nat -> d = 0%nat).
Proof.
  induction 1 as [p | p st st' p' d Hf Hd [IH1 IH2]].
  - split; lia.
  - destruct (fires_downloads pf p st st' p' Hf) as (l & Hl & Hr & Hp).
    rewrite (new_downloads_app _ _ _ Hl).
    destruct (rank p') eqn:Ep.
    + rewrite IH2 by reflexivity. split; lia.
    + assert (List.length l = 0%nat) by lia. split; lia.
Qed.

(** X13.  A conversion downloads at most one file.  Counting the
    downloads the click listener adds itself (browsers without [toBlob]) and
    those of any callbacks that fire afterwards, whatever the page has become
    when they fire, the total is at most one; every step only appends to the
    downloads already made. *)
Theorem one_download_per_conversion (pf : Platform) (st : State) (d : nat) :
  delivers pf (snd (convertBtn_click pf st)) d ->
  (new_downloads st (fst (convertBtn_click pf st)) + d <= 1)%nat
  /\ (exists l, downloads (fst (convertBtn_click pf st)) = (l ++ downloads st)%list)
  /\ (forall p s s' p',
        fires pf p s s' p' -> exists l, downloads s' = (l ++ downloads s)%list).
Proof.
  intros Hd.
  assert (K : exists l,
             downloads (fst (convertBtn_click pf st)) = (l ++ downloads st)%list
             /\ (List.length l + rank (snd (convertBtn_click pf st)) <= 1
                 \/ (l = [] /\ rank (snd (convertBtn_click pf st)) = 2))%nat).
  { unfold convertBtn_click.
    destruct (_ && negb (JS.truthy (src (previewImg st))));
      [exists []; split; [reflexivity | left; cbn; lia]|].
    destruct ((naturalW st =? 0) || (naturalH st =? 0));
      [exists []; split; [reflexivity | left; cbn; lia]|].
    set (st1 := set_hiddenCanvas _ st).
    destruct (complete (previewImg st1) && _).
    - destruct (drawImage_downloads pf (closure_of st) st1) as (l & Hl & Hr).
      destruct (drawImage pf (closure_of st) st1) as [st2 p].
      exists l. split; [exact Hl | left; exact Hr].
    - destruct (if JS.truthy (src (previewImg st1)) then _ else _);
        exists []; (split; [reflexivity|]);
        [right; split; reflexivity | left; cbn; lia]. }
  destruct K as (l & Hl & Hr).
  destruct (delivers_bound pf _ d Hd) as [D1 D2].
  split; [|split].
  - rewrite (new_downloads_app _ _ _ Hl).
    destruct Hr as [Hr | [-> Hr]]; [|cbn; lia].
    destruct (rank (snd (convertBtn_click pf st))) eqn:Ep.
    + rewrite D2 by reflexivity. lia.
    + lia.
  - exists l. exact Hl.
  - intros p s s' p' Hf.
    destruct (fires_downloads pf p s s' p' Hf) as (l' & Hl' & _).
    exists l'. exact Hl'.
Qed.

Lemma one_download_per_conversion_witness :
  let blob := {| size := 2048; blob_type := "image/png" |} in
  delivers Sample.browser
    (snd (convertBtn_click Sample.browser Sample.reloading)) 1
  /\ (new_downloads Sample.reloading
        (fst (convertBtn_click Sample.browser Sample.reloading)) + 1 <= 1)%nat.
Proof.
  cbv zeta.
  assert (H : delivers Sample.browser
                (snd (convertBtn_click Sample.browser Sample.reloading)) 1).
  { change (snd (convertBtn_click Sample.browser Sample.reloading))
      with (TempLoading (closure_of Sample.reloading) "data:cat").
    apply (delivers_cons Sample.browser _ Sample.reloading _ _ 1
             (fires_temp_onload _ _ _ _)).
    change (snd (temp_onload Sample.browser (closure_of Sample.reloading)
                   "data:cat" Sample.reloading))
      with (Encoding (closure_of Sample.reloading)).
    apply (delivers_cons Sample.browser _ Sample.reloading _ _ 0
             (fires_toBlob _ _
                (Some {| size := 2048; blob_type := "image/png" |}) _)).
    apply delivers_nil. }
  split; [exact H|].
  exact (proj1 (one_download_per_conversion Sample.browser Sample.reloading 1 H)).
Defined.

(** ** Reading a data URL back (lines 187-195) *)

Lemma split_comma_nonempty (s : string) : JS.split_comma s <> [].
Proof.
  induction s as [|c r IH]; cbn [JS.split_comma]; [discriminate|].
  destruct (Ascii.eqb c ","); [discriminate|].
  destruct (JS.split_comma r); [contradiction | discriminate].
Qed.

(** Without a comma a string is its own single segment. *)
Lemma split_comma_none (s : string) :
  all_chars (other_than ",") s = true -> JS.split_comma s = [s].
Proof.
  induction s as [|c r IH]; cbn [all_chars JS.split_comma]; [reflexivity|].
  intros H. apply andb_true_iff in H. destruct H as [Hc Hr].
  unfold other_than in Hc. apply negb_true_iff in Hc. rewrite Hc.
  rewrite (IH Hr). reflexivity.
Qed.

(** The text before the first comma is the first segment. *)
Lemma split_comma_app (h t : string) :
  all_chars (other_than ",") h = true ->
  JS.split_comma (h ++ "," ++ t) = h :: JS.split_comma t.
Proof.
  induction h as [|c r IH]; cbn [all_chars]; intros H.
  - reflexivity.
  - apply andb_true_iff in H. destruct H as [Hc Hr].
    unfold other_than in Hc. apply negb_true_iff in Hc.
    change (String c r ++ "," ++ t) with (String c (r ++ "," ++ t)).
    cbn [JS.split_comma]. rewrite Hc, (IH Hr). reflexivity.
Qed.

Lemma mime_char_facts (c : ascii) :
  mime_char c = true ->
  Ascii.eqb c ";" = false
  /\ forall r, JS.dropAny LineTerminator (String c r) = None.
Proof.
  destruct c as [[] [] [] [] [] [] [] []]; cbn; intros H;
    try discriminate; split; reflexivity.
Qed.

Lemma lazy_to_semicolon_app (mime rest : string) :
  all_chars mime_char mime = true ->
  lazy_to_semicolon (mime ++ ";" ++ rest) = Some mime.
Proof.
  induction mime as [|c r IH]; cbn [all_chars]; intros H.
  - reflexivity.
  - apply andb_true_iff in H. destruct H as [Hc Hr].
    destruct (mime_char_facts c Hc) as [H1 H2].
    change (String c r ++ ";" ++ rest) with (String c (r ++ ";" ++ rest)).
    cbn [lazy_to_semicolon]. rewrite H1, H2, (IH Hr). reflexivity.
Qed.

Lemma match_mime_app (scheme mime rest : string) :
  all_chars (other_than ":") scheme = true ->
  all_chars mime_char mime = true ->
  match_mime (scheme ++ ":" ++ mime ++ ";" ++ rest) = Some mime.
Proof.
  intros Hs Hm. induction scheme as [|c r IH]; cbn [all_chars] in Hs.
  - change ("" ++ ":" ++ mime ++ ";" ++ rest)
      with (String ":" (mime ++ ";" ++ rest)).
    cbn [match_mime]. rewrite Ascii.eqb_refl.
    rewrite (lazy_to_semicolon_app mime rest Hm). reflexivity.
  - apply andb_true_iff in Hs. destruct Hs as [Hc Hr].
    unfold other_than in Hc. apply negb_true_iff in Hc.
    change (String c r ++ ":" ++ mime ++ ";" ++ rest)
      with (String c (r ++ ":" ++ mime ++ ";" ++ rest)).
    cbn [match_mime]. rewrite Hc. apply IH, Hr.
Qed.

Lemma lazy_to_semicolon_none (s : string) :
  all_chars (other_than ";") s = true -> lazy_to_semicolon s = None.
Proof.
  induction s as [|c r IH]; cbn [all_chars lazy_to_semicolon]; [reflexivity|].
  intros H. apply andb_true_iff in H. destruct H as [Hc Hr].
  unfold other_than in Hc. apply negb_true_iff in Hc. rewrite Hc.
  destruct (JS.dropAny LineTerminator (String c r)); [reflexivity|].
  rewrite (IH Hr). reflexivity.
Qed.

Lemma match_mime_none (s : string) :
  all_chars (other_than ";") s = true -> match_mime s = None.
Proof.
  induction s as [|c r IH]; cbn [all_chars match_mime]; [reflexivity|].
  intros H. apply andb_true_iff in H. destruct H as [Hc Hr].
  rewrite (IH Hr), (lazy_to_semicolon_none r Hr).
  destruct (Ascii.eqb c ":"); reflexivity.
Qed.

Lemma all_chars_app (p : ascii -> bool) (a b : string) :
  all_chars p (a ++ b) = all_chars p a && all_chars p b.
Proof.
  induction a as [|c r IH]; cbn [all_chars append]; [reflexivity|].
  rewrite IH. apply andb_assoc.
Qed.

Lemma string_app_assoc (a b c : string) : (a ++ b) ++ c = a ++ (b ++ c).
Proof.
  induction a as [|x r IH]; cbn [append]; [reflexivity | now rewrite IH].
Qed.

Lemma mime_char_no_comma (s : string) :
  all_chars mime_char s = true -> all_chars (other_than ",") s = true.
Proof.
  induction s as [|c r IH]; cbn [all_chars]; [reflexivity|].
  intros H. apply andb_true_iff in H. destruct H as [Hc Hr].
  rewrite (IH Hr). unfold mime_char in Hc.
  apply andb_true_iff in Hc. destruct Hc as [_ Hc]. rewrite Hc. reflexivity.
Qed.

Lemma mime_char_printable (s : string) :
  all_chars mime_char s = true -> Blob_type s = lowercase s.
Proof.
  intros H. unfold Blob_type.
  assert (P : all_chars printable s = true).
  { induction s as [|c r IH]; cbn [all_chars] in *; [reflexivity|].
    apply andb_true_iff in H. destruct H as [Hc Hr].
    rewrite (IH Hr), andb_true_r.
    unfold mime_char in Hc. unfold printable.
    apply andb_true_iff in Hc. destruct Hc as [Hc _].
    apply andb_true_iff in Hc. destruct Hc as [Hc _].
    apply andb_true_iff in Hc. destruct Hc as [H1 H2].
    rewrite H1. apply Z.ltb_lt in H2. apply Z.leb_le. lia. }
  rewrite P. reflexivity.
Qed.

Lemma lowercase_fixed (s : string) :
  all_chars not_capital s = true -> lowercase s = s.
Proof.
  induction s as [|c r IH]; cbn [all_chars lowercase]; [reflexivity|].
  intros H. apply andb_true_iff in H. destruct H as [Hc Hr].
  rewrite (IH Hr). unfold toLowerCase. unfold not_capital in Hc.
  apply negb_true_iff in Hc. rewrite Hc. reflexivity.
Qed.

(** X4.  A data URL of the shape [scheme:mime;params,payload], optionally
    followed by a comma and more text, is read back as a blob whose type is
    [mime] in lower case ([mime] itself when it has no capital letter) and
    whose size is the number of characters [atob] decodes from [payload]; an
    [atob] failure is passed on.  Text after a second comma is ignored. *)
Theorem dataURLtoBlob_well_formed
    (pf : Platform) (scheme mime params payload : string) (more : option string) :
  all_chars (other_than ":") scheme = true ->
  all_chars (other_than ",") scheme = true ->
  all_chars mime_char mime = true ->
  all_chars (other_than ",") params = true ->
  all_chars (other_than ",") payload = true ->
  let tail := match more with
              | Some t => payload ++ "," ++ t
              | None => payload
              end in
  dataURLtoBlob pf (scheme ++ ":" ++ mime ++ ";" ++ params ++ "," ++ tail)
  = match atob pf payload with
    | Normal bstr =>
        Normal {| size := Z.of_nat (String.length bstr);
                  blob_type := lowercase mime |}
    | Throw m => Throw m
    end
  /\ (all_chars not_capital mime = true -> lowercase mime = mime).
Proof.
  intros Hs1 Hs2 Hm Hp Hpl tail.
  split; [|apply lowercase_fixed].
  set (header := scheme ++ ":" ++ mime ++ ";" ++ params).
  assert (Hh : all_chars (other_than ",") header = true).
  { unfold header. rewrite !all_chars_app, Hs2, (mime_char_no_comma mime Hm), Hp.
    reflexivity. }
  assert (E : scheme ++ ":" ++ mime ++ ";" ++ params ++ "," ++ tail
              = header ++ "," ++ tail).
  { unfold header. rewrite !string_app_assoc. reflexivity. }
  rewrite E. unfold dataURLtoBlob.
  rewrite (split_comma_app header tail Hh). cbn [nth].
  unfold header at 1. rewrite (match_mime_app scheme mime params Hs1 Hm).
  rewrite (mime_char_printable mime Hm).
  assert (Ht : exists l, JS.split_comma tail = payload :: l).
  { unfold tail. destruct more as [t|].
    - exists (JS.split_comma t). apply split_comma_app, Hpl.
    - exists []. apply split_comma_none, Hpl. }
  destruct Ht as [l ->]. reflexivity.
Qed.

Lemma dataURLtoBlob_well_formed_witness :
  dataURLtoBlob (Sample.old_browser "data:image/webp;base64,YWJj" (Normal "abc"))
    "data:image/webp;base64,YWJj"
  = Normal {| size := 3; blob_type := "image/webp" |}
  /\ dataURLtoBlob (Sample.old_browser "data:Image/PNG;base64,YWJj" (Normal "abc"))
       "data:Image/PNG;base64,YWJj"
     = Normal {| size := 3; blob_type := "image/png" |}.
Proof.
  split.
  - exact (proj1 (dataURLtoBlob_well_formed
                    (Sample.old_browser "data:image/webp;base64,YWJj"
                       (Normal "abc"))
                    "data" "image/webp" "base64" "YWJj" None
                    eq_refl eq_refl eq_refl eq_refl eq_refl)).
  - exact (proj1 (dataURLtoBlob_well_formed
                    (Sample.old_browser "data:Image/PNG;base64,YWJj"
                       (Normal "abc"))
                    "data" "Image/PNG" "base64" "YWJj" None
                    eq_refl eq_refl eq_refl eq_refl eq_refl)).
Defined.

(** X5.  A data URL whose text before the first comma has no semicolon
    (as in ["data:,"], the empty encoding) makes [dataURLtoBlob] throw the
    TypeError of indexing [null], whatever follows the comma and whatever
    [atob] would answer.  A data URL with a well-formed header but no comma
    at all hands the string ["undefined"] to [atob]. *)
Theorem dataURLtoBlob_malformed (pf : Platform) :
  (forall header rest,
      all_chars (other_than ";") header = true ->
      all_chars (other_than ",") header = true ->
      dataURLtoBlob pf (header ++ "," ++ rest) = Throw (null_index pf)
      /\ dataURLtoBlob pf header = Throw (null_index pf))
  /\ (forall scheme mime params,
        all_chars (other_than ":") scheme = true ->
        all_chars (other_than ",") scheme = true ->
        all_chars mime_char mime = true ->
        all_chars (other_than ",") params = true ->
        dataURLtoBlob pf (scheme ++ ":" ++ mime ++ ";" ++ params)
        = match atob pf "undefined" with
          | Normal bstr =>
              Normal {| size := Z.of_nat (String.length bstr);
                        blob_type := lowercase mime |}
          | Throw m => Throw m
          end).
Proof.
  split.
  - intros header rest H1 H2. unfold dataURLtoBlob. split.
    + rewrite (split_comma_app header rest H2). cbn [nth].
      rewrite (match_mime_none header H1). reflexivity.
    + rewrite (split_comma_none header H2). cbn [nth].
      rewrite (match_mime_none header H1). reflexivity.
  - intros scheme mime params Hs1 Hs2 Hm Hp.
    assert (Hh : all_chars (other_than ",") (scheme ++ ":" ++ mime ++ ";" ++ params)
                 = true).
    { rewrite !all_chars_app, Hs2, (mime_char_no_comma mime Hm), Hp.
      reflexivity. }
    unfold dataURLtoBlob. rewrite (split_comma_none _ Hh). cbn [nth].
    rewrite (match_mime_app scheme mime params Hs1 Hm).
    rewrite (mime_char_printable mime Hm). reflexivity.
Qed.

Lemma dataURLtoBlob_malformed_witness :
  dataURLtoBlob Sample.browser "data:,AAAA" = Throw "null has no properties".
Proof.
  exact (proj1 (proj1 (dataURLtoBlob_malformed Sample.browser)
                  "data:" "AAAA" eq_refl eq_refl)).
Defined.

(** ** The byte loop (lines 191-193) *)

Lemma store_length (n : nat) (v : Z) (l : list Z) :
  List.length (store n v l) = List.length l.
Proof.
  revert n. induction l as [|h t IH]; intros [|k]; cbn [store List.length];
    try reflexivity.
  now rewrite IH.
Qed.

Lemma nth_store_same (n : nat) (v : Z) (l : list Z) :
  (n < List.length l)%nat -> nth n (store n v l) 0 = v mod 256.
Proof.
  revert n. induction l as [|h t IH]; intros [|k] H; cbn [List.length] in H;
    try lia; cbn [store nth]; [reflexivity|].
  apply IH. lia.
Qed.

Lemma nth_store_other (i n : nat) (v : Z) (l : list Z) :
  i <> n -> nth i (store n v l) 0 = nth i l 0.
Proof.
  revert i n. induction l as [|h t IH]; intros [|i] [|k] H;
    cbn [store nth]; try reflexivity; try contradiction.
  apply IH. congruence.
Qed.

Lemma charCodeAt_range (n : nat) (s : string) : 0 <= charCodeAt n s < 256.
Proof.
  unfold charCodeAt. destruct (String.get n s) as [c|]; [|lia].
  destruct c as [[] [] [] [] [] [] [] []]; cbn; lia.
Qed.

Lemma char_codes_length (s : string) :
  List.length (char_codes s) = String.length s.
Proof. induction s; cbn; congruence. Qed.

Lemma nth_char_codes (i : nat) (s : string) :
  (i < String.length s)%nat -> nth i (char_codes s) 0 = charCodeAt i s.
Proof.
  revert i. induction s as [|c r IH]; intros i H; cbn [String.length] in H;
    [lia|].
  destruct i as [|i]; [reflexivity|].
  cbn [char_codes nth]. rewrite IH by lia. reflexivity.
Qed.

(** The loop's invariant: the slots from [n] on already hold their
    character codes, and the length never changes. *)
Lemma fill_invariant (s : string) (n : nat) :
  forall u8arr,
    (n <= String.length s)%nat ->
    List.length u8arr = String.length s ->
    (forall i, (n <= i < String.length s)%nat -> nth i u8arr 0 = charCodeAt i s) ->
    List.length (fill n s u8arr) = String.length s
    /\ forall i, (i < String.length s)%nat ->
                 nth i (fill n s u8arr) 0 = charCodeAt i s.
Proof.
  induction n as [|k IH]; intros u8arr Hn Hl Hdone; cbn [fill].
  - split; [exact Hl|]. intros i Hi. apply Hdone. lia.
  - apply IH.
    + lia.
    + rewrite store_length. exact Hl.
    + intros i Hi. destruct (Nat.eq_dec i k) as [->|Hne].
      * rewrite nth_store_same by lia.
        apply Z.mod_small, charCodeAt_range.
      * rewrite nth_store_other by exact Hne. apply Hdone. lia.
Qed.

(** X6.  The loop that copies the decoded string into the byte array
    fills every slot: the array is the string's character codes in order,
    each within a byte, and it has as many bytes as the string has
    characters.  So whenever [dataURLtoBlob] returns a blob, its size is the
    length of that array for the string [atob] returned. *)
Theorem byte_loop_copies (bstr : string) :
  u8arr_of bstr = char_codes bstr
  /\ List.length (u8arr_of bstr) = String.length bstr
  /\ Forall (fun b => 0 <= b < 256) (u8arr_of bstr)
  /\ (forall pf dataurl blob,
        dataURLtoBlob pf dataurl = Normal blob ->
        exists payload decoded,
          atob pf payload = Normal decoded
          /\ size blob = Z.of_nat (List.length (u8arr_of decoded))).
Proof.
  assert (K : forall s, List.length (u8arr_of s) = String.length s
              /\ forall i, (i < String.length s)%nat ->
                           nth i (u8arr_of s) 0 = charCodeAt i s).
  { intros s. unfold u8arr_of. apply fill_invariant.
    - lia.
    - apply repeat_length.
    - intros i Hi. lia. }
  assert (E : forall s, u8arr_of s = char_codes s).
  { intros s. destruct (K s) as [Hl Hn].
    apply (nth_ext _ _ 0 0).
    - rewrite Hl, char_codes_length. reflexivity.
    - intros i Hi. rewrite Hl in Hi. rewrite Hn, nth_char_codes by exact Hi.
      reflexivity. }
  split; [apply E|]. split; [apply K|]. split.
  - apply Forall_forall. intros b Hb.
    destruct (In_nth _ _ 0 Hb) as (i & Hi & <-).
    destruct (K bstr) as [Hl Hn]. rewrite Hl in Hi. rewrite Hn by exact Hi.
    apply charCodeAt_range.
  - intros pf dataurl blob. unfold dataURLtoBlob.
    destruct (match_mime _); [|discriminate].
    destruct (atob pf _) as [decoded|m] eqn:Ea; [|discriminate].
    intros H. injection H as <-.
    eexists _, decoded. split; [exact Ea|].
    cbn [size]. rewrite (proj1 (K decoded)). reflexivity.
Qed.

Lemma byte_loop_copies_witness :
  let pf := Sample.old_browser "data:image/webp;base64,YWJj" (Normal "abc") in
  u8arr_of "abc" = [97; 98; 99]
  /\ exists payload decoded,
       atob pf payload = Normal decoded
       /\ size {| size := 3; blob_type := "image/webp" |}
          = Z.of_nat (List.length (u8arr_of decoded)).
Proof.
  cbv zeta. split.
  - exact (proj1 (byte_loop_copies "abc")).
  - exact (proj2 (proj2 (proj2 (byte_loop_copies "abc")))
             (Sample.old_browser "data:image/webp;base64,YWJj" (Normal "abc"))
             "data:image/webp;base64,YWJj"
             {| size := 3; blob_type := "image/webp" |} eq_refl).
Defined.

(** ** More on the output size (lines 106-111) *)

(** The script's height against the exact quotient, for natural dimensions
    below 2^24: within the natural height, and a nearest integer. *)
Lemma height_nearest (nh nw w : Z) :
  0 < nh < 2 ^ 24 -> 0 < w < nw -> nw < 2 ^ 24 ->
  let h := JS.Math_round (JS.mul (JS.div (JS.of_Z nh) (JS.of_Z nw)) (JS.of_Z w)) in
  0 <= h <= nh /\ - nw <= 2 * (h * nw - nh * w) <= nw.
Proof.
  intros Hh Hw Hn h.
  destruct (height_off_ties nh nw w Hh Hw Hn) as [Hb He]. fold h in Hb, He.
  set (R := (2 * (nh * w) + nw) / (2 * nw)) in *.
  assert (HN : 0 < nh * w) by (apply Z.mul_pos_pos; lia).
  pose proof (Z.div_mod (2 * (nh * w) + nw) (2 * nw) ltac:(lia)) as Hdm.
  pose proof (Z.mod_pos_bound (2 * (nh * w) + nw) (2 * nw) ltac:(lia)) as Hr.
  fold R in Hdm.
  assert (HR : nw * (2 * R - 1) <= 2 * (nh * w) < nw * (2 * R + 1)) by lia.
  clear Hdm Hr.
  assert (HNle : nh * w <= nh * (nw - 1))
    by (apply Z.mul_le_mono_nonneg_l; lia).
  assert (HR0 : 0 <= R) by (apply Z.div_pos; lia).
  assert (HRn : R <= nh).
  { apply Z.lt_succ_r. apply Z.div_lt_upper_bound; lia. }
  destruct (Z.eq_dec (2 * (nh * w)) (nw * (2 * R - 1))) as [Htie | Hnt].
  - (* the exact quotient is halfway: R >= 1 *)
    assert (1 <= R).
    { destruct (Z.le_gt_cases 1 R) as [H|H]; [exact H|exfalso].
      assert (R = 0) by lia. subst R. rewrite H0 in Htie. lia. }
    assert (Hc : h = R \/ h = R - 1) by lia.
    split; [lia|]. destruct Hc as [-> | ->]; lia.
  - assert (Hk : forall k, 2 * (nh * w) <> (2 * k + 1) * nw).
    { intros k E. apply Hnt.
      assert (k = R - 1); [|subst k; lia].
      destruct HR as [H1 H2]. rewrite E in H1, H2.
      assert (2 * R - 1 <= 2 * k + 1)
        by (apply (Z.mul_le_mono_pos_l _ _ nw); lia).
      assert (2 * k + 1 < 2 * R + 1)
        by (apply (Z.mul_lt_mono_pos_l nw); lia).
      lia. }
    rewrite (He Hk). split; lia.
Qed.

(** X7.  The output is never larger than the image.  For every page the
    target width is at most the natural width the listener reads, and
    positive when that is; and for natural dimensions below 2^24 the target
    height lies between 0 and the natural height. *)
Theorem target_never_upscales (st : State) :
  0 < naturalW st ->
  0 < targetWidth st <= naturalW st
  /\ (0 < naturalH st < 2 ^ 24 -> naturalW st < 2 ^ 24 ->
      0 <= targetHeight st <= naturalH st).
Proof.
  intros Hw. unfold targetWidth, targetHeight, target_size.
  destruct (requestedWidth st) as [w|]; [|cbn [fst snd]; lia].
  destruct (Z.ltb_spec 0 w); cbn [andb]; [|cbn [fst snd]; lia].
  destruct (Z.ltb_spec w (naturalW st)); cbn [fst snd]; [|lia].
  split; [lia|]. intros Hh Hn.
  apply (height_nearest (naturalH st) (naturalW st) w); lia.
Qed.

Lemma target_never_upscales_witness :
  let st := Sample.with_controls "image/png" "90" "4000"
              (Sample.loaded (Sample.png "cat.png") "data:cat" 800 600
                 Sample.page) in
  0 < targetWidth st <= 800.
Proof.
  cbv zeta.
  exact (proj1 (target_never_upscales
                  (Sample.with_controls "image/png" "90" "4000"
                     (Sample.loaded (Sample.png "cat.png") "data:cat" 800 600
                        Sample.page))
                  eq_refl)).
Defined.

(** X8.  Aspect ratio.  When a smaller width [w] is accepted, the target
    height is a nearest integer to the exact [naturalH * w / naturalW]: it
    differs from it by at most one half (natural dimensions below 2^24). *)
Theorem target_height_nearest (st : State) (w : Z) :
  requestedWidth st = Some w -> 0 < w < naturalW st ->
  0 < naturalH st < 2 ^ 24 -> naturalW st < 2 ^ 24 ->
  targetWidth st = w
  /\ - naturalW st
     <= 2 * (targetHeight st * naturalW st - naturalH st * targetWidth st)
     <= naturalW st.
Proof.
  intros Hr Hw Hh Hn.
  destruct (target_size_cases (requestedWidth st) (naturalW st) (naturalH st))
    as (T1 & _).
  unfold targetWidth, targetHeight. rewrite (T1 w Hr Hw). cbn [fst snd].
  split; [reflexivity|].
  apply (height_nearest (naturalH st) (naturalW st) w); lia.
Qed.

Lemma target_height_nearest_witness :
  let st := Sample.with_controls "image/png" "90" "50"
              (Sample.loaded (Sample.png "tall.png") "data:tall" 100 115
                 Sample.page) in
  - 100 <= 2 * (targetHeight st * 100 - 115 * 50) <= 100.
Proof.
  cbv zeta.
  pose (st := Sample.with_controls "image/png" "90" "50"
                (Sample.loaded (Sample.png "tall.png") "data:tall" 100 115
                   Sample.page)).
  assert (H1 : requestedWidth st = Some 50) by reflexivity.
  assert (H2 : 0 < 50 < naturalW st) by (cbn; lia).
  assert (H3 : 0 < naturalH st < 2 ^ 24) by (cbn; lia).
  assert (H4 : naturalW st < 2 ^ 24) by (cbn; lia).
  exact (proj2 (target_height_nearest st 50 H1 H2 H3 H4)).
Defined.

(** X9.  When the canvas gets no rows.  With a smaller width [w] accepted
    (natural dimensions below 2^24), the canvas height after the click is 0
    whenever [2 * naturalH * w < naturalW], and at least 1 whenever
    [2 * naturalH * w > naturalW]. *)
Theorem zero_height_threshold (pf : Platform) (st : State) (w : Z) :
  currentFile st <> None \/ src (previewImg st) <> "" ->
  requestedWidth st = Some w -> 0 < w < naturalW st ->
  0 < naturalH st < 2 ^ 24 -> naturalW st < 2 ^ 24 ->
  let canvas := hiddenCanvas (fst (convertBtn_click pf st)) in
  width canvas = w
  /\ (2 * (naturalH st * w) < naturalW st -> height canvas = 0)
  /\ (naturalW st < 2 * (naturalH st * w) -> 1 <= height canvas).
Proof.
  intros Hsrc Hr Hw Hh Hn canvas.
  destruct (click_resizes pf st Hsrc ltac:(lia) ltac:(lia)) as [Cw Ch].
  destruct (target_size_cases (requestedWidth st) (naturalW st) (naturalH st))
    as (T1 & _).
  unfold canvas. rewrite Cw, Ch.
  unfold targetWidth, targetHeight. rewrite (T1 w Hr Hw). cbn [fst snd].
  destruct (height_nearest (naturalH st) (naturalW st) w Hh Hw Hn) as [B N].
  set (h := JS.Math_round _) in *.
  split; [reflexivity|]. split; intros H.
  - destruct (Z.eq_dec h 0) as [E|E]; [exact E|exfalso].
    assert (1 * naturalW st <= h * naturalW st)
      by (apply Z.mul_le_mono_nonneg_r; lia).
    lia.
  - destruct (Z.le_gt_cases 1 h) as [E|E]; [exact E|exfalso].
    assert (h = 0) by lia. rewrite H0 in N. lia.
Qed.

Lemma zero_height_threshold_witness :
  let st := Sample.with_controls "image/png" "90" "400"
              (Sample.loaded (Sample.png "line.png") "data:line" 1000 1
                 Sample.page) in
  height (hiddenCanvas (fst (convertBtn_click Sample.browser st))) = 0.
Proof.
  cbv zeta.
  pose (st := Sample.with_controls "image/png" "90" "400"
                (Sample.loaded (Sample.png "line.png") "data:line" 1000 1
                   Sample.page)).
  assert (H0 : currentFile st <> None \/ src (previewImg st) <> "")
    by (left; discriminate).
  assert (H1 : requestedWidth st = Some 400) by reflexivity.
  assert (H2 : 0 < 400 < naturalW st) by (cbn; lia).
  assert (H3 : 0 < naturalH st < 2 ^ 24) by (cbn; lia).
  assert (H4 : naturalW st < 2 ^ 24) by (cbn; lia).
  apply (proj1 (proj2 (zero_height_threshold Sample.browser st 400
                         H0 H1 H2 H3 H4))).
  cbn. lia.
Defined.

(** ** Sizes and qualities as numbers (lines 130 and 181) *)

(** Halving an even 54-digit mantissa is exact. *)
Lemma binary_round_aux_even (m : positive) (e : Z) :
  2 ^ 52 <= Z.pos m < 2 ^ 53 -> -1075 <= e -> e <= 970 ->
  binary_round_aux 53 1024 false (Z.pos m~0) e loc_Exact
  = S754_finite false m (e + 1).
Proof.
  intros Hm Hlo Hhi.
  assert (Hd : Zdigits2 (Z.pos m~0) = 54) by (apply Zdigits2_unique; lia).
  assert (Hd' : Zdigits2 (Z.pos m) = 53) by (apply Zdigits2_unique; lia).
  rewrite binary_round_aux_unfold. cbv zeta.
  assert (E1 : shr_fexp 53 1024 (Z.pos m~0) e loc_Exact
               = ({| shr_m := Z.pos m; shr_r := false; shr_s := false |}, e + 1)).
  { unfold shr_fexp. rewrite Hd, (fexp_normal (54 + e)) by lia.
    replace (54 + e - 53 - e) with 1 by lia. reflexivity. }
  rewrite E1. cbn [fst snd shr_m loc_of_shr_record round_nearest_even].
  assert (E2 : shr_fexp 53 1024 (Z.pos m) (e + 1) loc_Exact
               = ({| shr_m := Z.pos m; shr_r := false; shr_s := false |}, e + 1)).
  { unfold shr_fexp. rewrite Hd', (fexp_normal (53 + (e + 1))) by lia.
    replace (53 + (e + 1) - 53 - (e + 1)) with 0 by lia. reflexivity. }
  rewrite E2. cbn [fst snd shr_m].
  assert (Hle : (e + 1 <=? 1024 - 53) = true) by (apply Z.leb_le; lia).
  rewrite Hle. reflexivity.
Qed.

(** Dividing a size below 2^53 by 1024 loses nothing. *)
Lemma div_1024_exact (n : Z) :
  0 <= n < 2 ^ 53 ->
  JS.Math_round (JS.div (JS.of_Z n) (JS.of_Z 1024)) = (n + 512) / 1024.
Proof.
  intros Hn. destruct (Z.eq_dec n 0) as [->|Hn0]; [reflexivity|].
  destruct (of_Z_exact n) as (m & e & E & Hm & He & Hv); [lia|].
  assert (Hdn : 1 <= Zdigits2 n <= 53).
  { pose proof (Zdigits2_bounds n ltac:(lia)) as [Hl Hh]. split.
    - destruct n; cbn; lia.
    - destruct (Z.le_gt_cases (Zdigits2 n) 53) as [H|H]; [exact H|exfalso].
      assert (2 ^ 53 <= 2 ^ (Zdigits2 n - 1)) by (apply Z.pow_le_mono_r; lia).
      lia. }
  assert (E1024 : JS.of_Z 1024 = S754_finite false (2 ^ 52) (-42))
    by (vm_compute; reflexivity).
  assert (Hd1 : Zdigits2 (Z.pos m) = 53) by (apply Zdigits2_unique; lia).
  unfold JS.div, JS.prec, JS.emax. rewrite E, E1024. cbn [SFdiv xorb].
  rewrite (SFdiv_core_binary_53 m (2 ^ 52) e (-42) Hd1 eq_refl) by lia.
  assert (Eq : Z.pos m * 2 ^ 53 / Z.pos (2 ^ 52) = Z.pos m~0).
  { change (2 ^ 53) with (2 * Z.pos (2 ^ 52)).
    rewrite Z.mul_assoc, Z.div_mul by lia. lia. }
  assert (Er : (Z.pos m * 2 ^ 53) mod Z.pos (2 ^ 52) = 0).
  { change (2 ^ 53) with (2 * Z.pos (2 ^ 52)).
    rewrite Z.mul_assoc. apply Z.mod_mul. lia. }
  rewrite Eq, Er.
  change (new_location (Z.pos (2 ^ 52)) 0) with loc_Exact.
  rewrite binary_round_aux_even by lia.
  cbn [JS.Math_round].
  assert (Hneg : (0 <=? e - -42 - 53 + 1) = false) by (apply Z.leb_gt; lia).
  rewrite Hneg. rewrite Hv.
  set (A := 2 ^ (- e)).
  assert (HA : 0 < A) by (apply pow2_pos; lia).
  replace (2 ^ (- (e - -42 - 53 + 1))) with (1024 * A).
  2:{ unfold A. change 1024 with (2 ^ 10).
      rewrite <- Z.pow_add_r by lia. f_equal. lia. }
  replace (2 ^ (1 - (e - -42 - 53 + 1))) with (2048 * A).
  2:{ unfold A. change 2048 with (2 ^ 11).
      rewrite <- Z.pow_add_r by lia. f_equal. lia. }
  replace (2 * (n * A) + 1024 * A) with ((2 * n + 1024) * A) by ring.
  rewrite Z.div_mul_cancel_r by lia.
  replace (2 * n + 1024) with ((n + 512) * 2) by ring.
  change 2048 with (1024 * 2).
  apply Z.div_mul_cancel_r; lia.
Qed.

(** X14.  The size shown after a download is exact: for a blob of fewer
    than 2^53 bytes the status line reads the name and the size in
    kilobytes rounded to the nearest integer, halves up, with no
    floating-point error; the message is not marked as an error. *)
Theorem converted_message_exact (outType : string) (blob : Blob) (st : State) :
  0 <= size blob < 2 ^ 53 ->
  message (triggerDownload outType blob st)
  = {| textContent :=
         "Converted: " ++ outName outType (currentFile st) ++ " (size: "
           ++ JS.toString ((size blob + 512) / 1024) ++ " KB)";
       color := "" |}.
Proof.
  intros H. unfold triggerDownload. cbv zeta.
  rewrite (div_1024_exact (size blob) H). reflexivity.
Qed.

Lemma converted_message_exact_witness :
  textContent
    (message (triggerDownload "image/png"
                {| size := 1536; blob_type := "image/png" |}
                (Sample.loaded (Sample.png "cat.png") "data:cat" 8 6 Sample.page)))
  = "Converted: cat.png (size: 2 KB)".
Proof.
  exact (f_equal textContent
           (converted_message_exact "image/png"
              {| size := 1536; blob_type := "image/png" |}
              (Sample.loaded (Sample.png "cat.png") "data:cat" 8 6 Sample.page)
              ltac:(cbn; lia))).
Defined.

(** X15.  Whatever integer the closure holds as quality, the number handed
    to the encoder lies between one hundredth and one. *)
Theorem blobQuality_unit_interval (q : Z) :
  number_leb (JS.div (JS.of_Z 1) (JS.of_Z 100)) (blobQuality q) = true
  /\ number_leb (blobQuality q) (JS.of_Z 1) = true.
Proof.
  unfold blobQuality.
  set (k := Z.max 1 (Z.min 100 q)).
  assert (Hk : 1 <= k <= 100) by (unfold k; lia).
  assert (All : forallb
                  (fun i =>
                     number_leb (JS.div (JS.of_Z 1) (JS.of_Z 100))
                       (JS.div (JS.of_Z (Z.of_nat i)) (JS.of_Z 100))
                     && number_leb (JS.div (JS.of_Z (Z.of_nat i)) (JS.of_Z 100))
                          (JS.of_Z 1))
                  (seq 1 100) = true)
    by (vm_compute; reflexivity).
  rewrite forallb_forall in All.
  specialize (All (Z.to_nat k)).
  rewrite Z2Nat.id in All by lia.
  apply andb_true_iff, All, in_seq. lia.
Qed.

Example blobQuality_samples :
  blobQuality 1000 = JS.div (JS.of_Z 100) (JS.of_Z 100)
  /\ blobQuality (-5) = JS.div (JS.of_Z 1) (JS.of_Z 100).
Proof. split; reflexivity. Qed.

(** ** The drag highlight (lines 36-47) *)

Lemma classList_add_spec (x c : string) (l : list string) :
  In c (classList_add x l) <-> c = x \/ In c l.
Proof.
  unfold classList_add. destruct (existsb (String.eqb x) l) eqn:E.
  - split; [tauto|]. intros [->|H]; [|exact H].
    apply existsb_exists in E. destruct E as (y & Hy & Exy).
    apply String.eqb_eq in Exy. congruence.
  - rewrite in_app_iff. cbn. split; [intros [H|[H|[]]] | intros [H|H]]; auto.
Qed.

Lemma classList_add_NoDup (x : string) (l : list string) :
  NoDup l -> NoDup (classList_add x l).
Proof.
  intros H. unfold classList_add. destruct (existsb (String.eqb x) l) eqn:E.
  - exact H.
  - apply NoDup_app; [exact H | constructor; [intros [] | constructor] |].
    intros y Hy [Hxy|[]]. subst y.
    assert (existsb (String.eqb x) l = true).
    { apply existsb_exists. exists x. split; [exact Hy | apply String.eqb_refl]. }
    congruence.
Qed.

Lemma classList_remove_spec (x c : string) (l : list string) :
  In c (classList_remove x l) <-> In c l /\ c <> x.
Proof.
  unfold classList_remove. rewrite filter_In, negb_true_iff.
  split; intros [H1 H2]; (split; [exact H1|]).
  - intros ->. rewrite String.eqb_refl in H2. discriminate.
  - apply String.eqb_neq. exact H2.
Qed.

Lemma dropZone_drag_step (ev : DragEvent) (l : list string) :
  (In "dragover" (dropZone_drag ev l) <-> highlights ev = true)
  /\ (forall c, c <> "dragover" -> (In c (dropZone_drag ev l) <-> In c l))
  /\ (NoDup l -> NoDup (dropZone_drag ev l)).
Proof.
  destruct ev; cbn [dropZone_drag highlights].
  1,2: split; [|split].
  1,4: rewrite classList_add_spec; split; auto.
  1,3: intros c Hc; rewrite classList_add_spec; tauto.
  1,2: apply classList_add_NoDup.
  1,2: split; [|split].
  1,4: rewrite classList_remove_spec; split; [intros [_ H]; congruence
                                             | discriminate].
  1,3: intros c Hc; rewrite classList_remove_spec; tauto.
  1,2: intros H; apply NoDup_filter, H.
Qed.

(** X17.  The drop zone is highlighted exactly while the last drag event
    was [dragenter] or [dragover]: after any sequence of drag events the
    class ["dragover"] is present if and only if the last one was of those
    two kinds, whatever happened before; the zone's other classes are never
    added or removed, and no class is duplicated. *)
Theorem drag_highlight (before : list DragEvent) (ev : DragEvent)
    (l : list string) :
  let l' := fold_left (fun cl e => dropZone_drag e cl) (before ++ [ev])%list l in
  (In "dragover" l' <-> highlights ev = true)
  /\ (forall c, c <> "dragover" -> (In c l' <-> In c l))
  /\ (NoDup l -> NoDup l').
Proof.
  cbv zeta. rewrite fold_left_app. cbn [fold_left].
  set (m := fold_left (fun cl e => dropZone_drag e cl) before l).
  assert (K : (forall c, c <> "dragover" -> (In c m <-> In c l))
              /\ (NoDup l -> NoDup m)).
  { unfold m. clear m. revert l.
    induction before as [|e es IH]; intros l; cbn [fold_left].
    - split; [tauto | auto].
    - destruct (IH (dropZone_drag e l)) as [A B].
      destruct (dropZone_drag_step e l) as (_ & C & D).
      split.
      + intros c Hc. rewrite (A c Hc). apply C, Hc.
      + intros H. apply B, D, H. }
  destruct K as [A B].
  destruct (dropZone_drag_step ev m) as (C & D & E).
  split; [exact C|]. split.
  - intros c Hc. rewrite (D c Hc). apply A, Hc.
  - intros H. apply E, B, H.
Qed.

Lemma drag_highlight_witness :
  fold_left (fun cl e => dropZone_drag e cl)
    [dragenter; dragover; dragover; drop] ["drop-zone"]
  = ["drop-zone"]
  /\ NoDup (fold_left (fun cl e => dropZone_drag e cl)
              ([dragenter; dragleave] ++ [dragover]) ["drop-zone"]).
Proof.
  split; [reflexivity|].
  apply (proj2 (proj2 (drag_highlight [dragenter; dragleave] dragover
                         ["drop-zone"]))).
  constructor; [intros [] | constructor].
Defined.

(** ** What a click can leave on the status line (lines 86-167) *)

Lemma drawImage_pending (pf : Platform) (c : Closure) (st : State) :
  snd (drawImage pf c st) = Settled \/ snd (drawImage pf c st) = Encoding c.
Proof.
  unfold drawImage.
  destruct (drawImage_on pf _ _); [|left; reflexivity].
  destruct (has_toBlob pf); [right; reflexivity|].
  cbn [set_hiddenCanvas log hiddenCanvas].
  destruct (canvas_toDataURL pf _ _ _) as [d|m]; [|left; reflexivity].
  destruct (dataURLtoBlob pf d); left; reflexivity.
Qed.

(** X3.  The click listener never throws ([URL.createObjectURL] is only
    reached with a current file), and when it returns the status line holds
    one of three texts: the two guard errors, each with nothing pending, or
    ["Processing..."], not marked as an error.  In particular an error that
    [drawImage] reports during the click itself is not what the user sees. *)
Theorem click_outcomes (pf : Platform) (st : State) :
  let st' := fst (convertBtn_click pf st) in
  let p := snd (convertBtn_click pf st) in
  p <> Uncaught
  /\ ((message st' = {| textContent := "Choose or drop an image first.";
                        color := "#ef4444" |}
       /\ p = Settled /\ currentFile st = None /\ src (previewImg st) = "")
      \/ (message st' = {| textContent :=
                             "Image not ready yet. Wait a moment and try again.";
                           color := "#ef4444" |}
          /\ p = Settled /\ (naturalW st = 0 \/ naturalH st = 0))
      \/ (message st' = {| textContent := "Processing..."; color := "" |}
          /\ naturalW st <> 0 /\ naturalH st <> 0)).
Proof.
  cbv zeta. unfold convertBtn_click.
  destruct (match currentFile st with None => true | Some _ => false end
            && negb (JS.truthy (src (previewImg st)))) eqn:G.
  { split; [discriminate|]. left.
    apply andb_true_iff in G. destruct G as [G1 G2].
    apply negb_true_iff, truthy_false in G2.
    destruct (currentFile st); [discriminate|]. repeat split. exact G2. }
  destruct ((naturalW st =? 0) || (naturalH st =? 0)) eqn:Z.
  { split; [discriminate|]. right; left.
    apply orb_true_iff in Z. repeat split.
    destruct Z as [Z|Z]; apply Z.eqb_eq in Z; auto. }
  apply orb_false_iff in Z. destruct Z as [Z1 Z2].
  apply Z.eqb_neq in Z1, Z2.
  set (st1 := set_hiddenCanvas _ st).
  destruct (complete (previewImg st1) && _).
  - pose proof (drawImage_pending pf (closure_of st) st1) as Hp.
    destruct (drawImage pf (closure_of st) st1) as [st2 p]. cbn [fst snd] in *.
    split.
    + destruct Hp as [-> | ->]; discriminate.
    + right; right. repeat split; assumption.
  - change (previewImg st1) with (previewImg st).
    change (currentFile st1) with (currentFile st).
    destruct (JS.truthy (src (previewImg st))) eqn:T.
    + split; [discriminate|]. right; right. repeat split; assumption.
    + cbn [negb] in G. rewrite andb_true_r in G.
      destruct (currentFile st); [|discriminate].
      cbn [option_map]. split; [discriminate|].
      right; right. repeat split; assumption.
Qed.

(** ** From choosing a file to the download (lines 59-74, 86-182) *)

(** X18.  The whole path.  A file of an image type is chosen, read and
    decoded as [w] x [h] with neither zero; then, in a browser with
    [canvas.toBlob] whose [drawImage] does not throw, one click resizes the
    canvas to the target size for [w] x [h], asks the encoder once, with the
    format and quality read from the controls, shows ["Processing..."] and
    leaves the [toBlob] callback pending; when the blob arrives it is
    downloaded under the file's name with the new extension, and a [null]
    blob is reported without a download. *)
Theorem load_then_convert
    (pf : Platform) (file : File) (result : string) (w h : Z) (st : State) :
  String.prefix "image/" (type file) = true ->
  w <> 0 -> h <> 0 ->
  has_toBlob pf = true ->
  (forall i c, exists bm, drawImage_on pf i c = Normal bm) ->
  let st1 :=
    previewImg_loaded w h (reader_onload pf file result (loadFile file st)) in
  let st2 := fst (convertBtn_click pf st1) in
  let c := closure_of st in
  snd (convertBtn_click pf st1) = Encoding c
  /\ calls st2
     = toBlob (outType c) (blobQuality (quality c))
         :: readAsDataURL file :: calls st
  /\ message st2 = {| textContent := "Processing..."; color := "" |}
  /\ (width (hiddenCanvas st2), height (hiddenCanvas st2))
     = target_size (requestedWidth st) w h
  /\ (forall blob,
        downloads (toBlob_callback c (Some blob) st2)
        = download (outName (outType c) (Some file)) blob :: downloads st)
  /\ downloads (toBlob_callback c None st2) = downloads st
  /\ message (toBlob_callback c None st2)
     = {| textContent := "Conversion failed (blob is empty).";
          color := "#ef4444" |}.
Proof.
  intros Hf Hw Hh Hb Hd. cbv zeta.
  set (st1 := previewImg_loaded w h
                (reader_onload pf file result (loadFile file st))).
  assert (Ecur : currentFile st1 = Some file).
  { unfold st1, previewImg_loaded, loadFile. rewrite Hf. reflexivity. }
  assert (Ecalls : calls st1 = readAsDataURL file :: calls st).
  { unfold st1, previewImg_loaded, loadFile. rewrite Hf. reflexivity. }
  assert (Eprev : previewImg st1
                  = {| src := reflect_URL pf result; complete := true;
                       naturalWidth := w; naturalHeight := h |}).
  { unfold st1, previewImg_loaded, loadFile. rewrite Hf. reflexivity. }
  assert (Ecl : closure_of st1 = closure_of st).
  { unfold st1, previewImg_loaded, loadFile. rewrite Hf. reflexivity. }
  assert (Ereq : requestedWidth st1 = requestedWidth st).
  { unfold st1, previewImg_loaded, loadFile. rewrite Hf. reflexivity. }
  assert (EW : naturalW st1 = w).
  { unfold naturalW. rewrite Eprev. cbn [naturalWidth].
    apply Z.eqb_neq in Hw. rewrite Hw. reflexivity. }
  assert (EH : naturalH st1 = h).
  { unfold naturalH. rewrite Eprev. cbn [naturalHeight].
    apply Z.eqb_neq in Hh. rewrite Hh. reflexivity. }
  assert (Eclick :
            convertBtn_click pf st1
            = let st' := set_hiddenCanvas
                           {| width := targetWidth st1;
                              height := targetHeight st1;
                              bitmap := Transparent |} st1 in
              let '(s2, p) := drawImage pf (closure_of st1) st' in
              (showMessage "Processing..." false s2, p)).
  { unfold convertBtn_click. rewrite Ecur. cbn [andb].
    rewrite EW, EH.
    apply Z.eqb_neq in Hw, Hh. rewrite Hw, Hh. cbn [orb].
    cbn [set_hiddenCanvas previewImg]. rewrite Eprev.
    cbn [complete naturalWidth]. rewrite Hw. reflexivity. }
  rewrite Eclick. cbv zeta. unfold drawImage.
  cbn [set_hiddenCanvas previewImg hiddenCanvas].
  destruct (Hd (previewImg st1)
              {| width := targetWidth st1; height := targetHeight st1;
                 bitmap := Transparent |}) as [bm Ebm].
  rewrite Ebm, Hb. rewrite Ecl. cbn [fst snd].
  split; [reflexivity|].
  split; [cbn [calls log showMessage set_message set_hiddenCanvas];
          rewrite Ecalls; reflexivity|].
  split; [reflexivity|].
  split.
  { cbn [hiddenCanvas showMessage set_message log set_hiddenCanvas width height].
    unfold targetWidth, targetHeight. rewrite Ereq, EW, EH.
    destruct (target_size (requestedWidth st) w h). reflexivity. }
  split.
  { intros blob. unfold downloads.
    cbn [toBlob_callback triggerDownload calls log showMessage set_message
         set_hiddenCanvas currentFile].
    rewrite Ecur, Ecalls. reflexivity. }
  split.
  { unfold downloads.
    cbn [toBlob_callback calls log showMessage set_message set_hiddenCanvas].
    rewrite Ecalls. reflexivity. }
  reflexivity.
Qed.

Lemma load_then_convert_witness :
  let st1 := Sample.loaded (Sample.png "cat.png") "data:cat" 800 600
               (Sample.with_controls "image/webp" "80" "400" Sample.page) in
  snd (convertBtn_click Sample.browser st1)
  = Encoding {| outType := "image/webp"; quality := 80 |}.
Proof.
  cbv zeta.
  refine (proj1 (load_then_convert Sample.browser (Sample.png "cat.png")
                   "data:cat" 800 600
                   (Sample.with_controls "image/webp" "80" "400" Sample.page)
                   eq_refl _ _ eq_refl _)); try discriminate.
  intros i c. eexists. reflexivity.
Defined.

(** ** The base name, whatever the file is called (line 171) *)

(** X19.  What [replace(/\.[^/.]+$/, '')] removes from any name is either
    nothing or a final segment: one dot followed by one or more characters
    that are neither [.] nor [/], up to the end of the name.  The base name
    is therefore always a prefix of the file name. *)
Theorem strip_extension_cut (s : string) :
  exists ext,
    s = strip_extension s ++ ext
    /\ (ext = "" \/ is_extension ext = true).
Proof.
  induction s as [|c r (ext & E & Hext)].
  - exists "". split; auto.
  - cbn [strip_extension].
    destruct (is_extension (String c r)) eqn:Ex.
    + exists (String c r). split; [reflexivity | right; exact Ex].
    + exists ext. split; [cbn [append]; rewrite <- E; reflexivity | exact Hext].
Qed.
